(** * golang-system-monitor-tui: the sampling and reconciliation core

    A shallow embedding of the monitor's models ([models/system_info.go],
    [models/errors.go]), of its four component models and the main model
    ([ui/*.go]), of the style manager's layout arithmetic ([ui/styles.go])
    and of the collector's rate calculation ([services/collector.go]),
    followed by the properties the specification states about them.

    Conventions.  Go's [int] is a 64-bit signed integer, embedded as [Z] with
    the wrap-around written out ([Go.int_]); [uint64] is [Z] with the
    subtraction reduced modulo 2^64; [float64] is the kernel's binary64
    [float]; a Go [string] is a byte string; [time.Time] is the number of
    nanoseconds on one time line; a Go [map[string]V] is a [gmap string V].
    [time.Now()] is an input of the functions that read the clock. *)

From Stdlib Require Import ZArith Floats Lia Bool.
From stdpp Require Import gmap strings list fin_maps.

Open Scope Z_scope.

(** ** The Go runtime, as far as the program uses it *)

Module Go.

(** [int] and [int64]: two's complement on 64 bits. *)
Definition int_ (z : Z) : Z := (z + 2 ^ 63) mod 2 ^ 64 - 2 ^ 63.

Definition minInt64 : Z := - 2 ^ 63.
Definition maxInt64 : Z := 2 ^ 63 - 1.

(** [a - b] and [a / b] on [int]; the quotient truncates toward zero. *)
Definition int_sub (a b : Z) : Z := int_ (a - b).
Definition int_div (a b : Z) : Z := int_ (Z.quot a b).

(** [uint64]: the values 0 .. 2^64 - 1, subtraction wraps. *)
Definition is_uint64 (z : Z) : Prop := 0 <= z < 2 ^ 64.
Definition uint64_sub (a b : Z) : Z := (a - b) mod 2 ^ 64.

(** [float64(z)] for an integer [z]: rounded to the nearest binary64. *)
Definition float64 (z : Z) : float :=
  SF2Prim (binary_normalize prec emax z 0 false).

(** [time.Time] and [time.Duration] (nanoseconds, an [int64]). *)
Definition Time : Type := Z.
Definition Duration : Type := Z.
Definition Second : Duration := 1000000000.

(** [t.Sub(u)]: the difference, saturated to the range of [Duration]. *)
Definition Sub (t u : Time) : Duration :=
  Z.max minInt64 (Z.min maxInt64 (t - u)).

(** [d.Seconds()]: [float64(d / Second) + float64(d % Second) / 1e9]. *)
Definition Seconds (d : Duration) : float :=
  PrimFloat.add (float64 (Z.quot d Second))
                (PrimFloat.div (float64 (Z.rem d Second)) 1e9%float).

(** [len(s)] of a string counts bytes. *)
Definition len_string (s : string) : Z := Z.of_nat (String.length s).

(** [strings.Join]. *)
Fixpoint Join (l : list string) (sep : string) : string :=
  match l with
  | [] => EmptyString
  | [s] => s
  | s :: rest => String.append s (String.append sep (Join rest sep))
  end.

End Go.

(** ** models/system_info.go *)

Module CPUInfo.
Record t : Type := mk {
  Cores : Z;
  Usage : list float;
  Total : float;
  Timestamp : Go.Time
}.
End CPUInfo.

Module SwapInfo.
Record t : Type := mk { Total : Z; Used : Z; Free : Z }.
End SwapInfo.

Module MemoryInfo.
Record t : Type := mk {
  Total : Z;
  Used : Z;
  Available : Z;
  Swap : SwapInfo.t;
  Timestamp : Go.Time
}.
End MemoryInfo.

Module DiskInfo.
Record t : Type := mk {
  Device : string;
  Mountpoint : string;
  Filesystem : string;
  Total : Z;
  Used : Z;
  Available : Z;
  UsedPercent : float
}.
End DiskInfo.

Module NetworkInfo.
Record t : Type := mk {
  Interface : string;
  BytesSent : Z;
  BytesRecv : Z;
  PacketsSent : Z;
  PacketsRecv : Z;
  Timestamp : Go.Time
}.
End NetworkInfo.

Module NetworkStats.
Record t : Type := mk { SendRate : float; RecvRate : float }.
End NetworkStats.

(** ** models/errors.go *)

Inductive ErrorType : Type :=
| SystemAccessError
| DataCollectionError
| RenderError
| PermissionError
| TemporaryError.

Module SystemError.
Record t : Type := mk {
  Type_ : ErrorType;
  Message : string;
  Component : string;
  Timestamp : Go.Time;
  Original : option string
}.

Definition IsRecoverable (e : t) : bool :=
  match Type_ e with
  | TemporaryError | DataCollectionError => true
  | _ => false
  end.
End SystemError.

(** ** The terminal toolkit and the formatting verbs

    lipgloss, [fmt] and [strings.TrimSpace] are outside the repository.  The
    program only composes them, so they are the operations of a class; the
    properties below hold for every implementation. *)

Definition Color : Type := string.

Module Style.
(** A lipgloss style, with the attributes the program sets. *)
Record t : Type := mk {
  Bold : bool;
  Foreground : option Color;
  Border : bool;
  BorderForeground : option Color;
  Width : option Z;
  Height : option Z;
  Padding : list Z;
  Margin : list Z;
  AlignCenter : bool
}.
Definition NewStyle : t := mk false None false None None None [] [] false.
Definition withBold (b : bool) (s : t) : t :=
  mk b (Foreground s) (Border s) (BorderForeground s) (Width s) (Height s)
     (Padding s) (Margin s) (AlignCenter s).
Definition withForeground (c : Color) (s : t) : t :=
  mk (Bold s) (Some c) (Border s) (BorderForeground s) (Width s) (Height s)
     (Padding s) (Margin s) (AlignCenter s).
Definition withRoundedBorder (s : t) : t :=
  mk (Bold s) (Foreground s) true (BorderForeground s) (Width s) (Height s)
     (Padding s) (Margin s) (AlignCenter s).
Definition withBorderForeground (c : Color) (s : t) : t :=
  mk (Bold s) (Foreground s) (Border s) (Some c) (Width s) (Height s)
     (Padding s) (Margin s) (AlignCenter s).
Definition withWidth (w : Z) (s : t) : t :=
  mk (Bold s) (Foreground s) (Border s) (BorderForeground s) (Some w) (Height s)
     (Padding s) (Margin s) (AlignCenter s).
Definition withHeight (h : Z) (s : t) : t :=
  mk (Bold s) (Foreground s) (Border s) (BorderForeground s) (Width s) (Some h)
     (Padding s) (Margin s) (AlignCenter s).
Definition withPadding (p : list Z) (s : t) : t :=
  mk (Bold s) (Foreground s) (Border s) (BorderForeground s) (Width s) (Height s)
     p (Margin s) (AlignCenter s).
Definition withMargin (p : list Z) (s : t) : t :=
  mk (Bold s) (Foreground s) (Border s) (BorderForeground s) (Width s) (Height s)
     (Padding s) p (AlignCenter s).
Definition withAlignCenter (s : t) : t :=
  mk (Bold s) (Foreground s) (Border s) (BorderForeground s) (Width s) (Height s)
     (Padding s) (Margin s) true.
End Style.

Class Toolkit : Type := {
  (** [style.Render(text)] *)
  Render : Style.t -> string -> string;
  (** [lipgloss.JoinHorizontal(lipgloss.Top, ...)] *)
  JoinHorizontal : list string -> string;
  (** [lipgloss.JoinVertical(lipgloss.Left, ...)] *)
  JoinVertical : list string -> string;
  (** [lipgloss.PlaceHorizontal(width, lipgloss.Right, text)] *)
  PlaceHorizontalRight : Z -> string -> string;
  (** the verb [%.Nf] *)
  fmt_f : nat -> float -> string;
  (** the verb [%d] *)
  fmt_d : Z -> string;
  (** the verbs [%Ns] (width [N]) and [%-Ns] (width [-N]) *)
  fmt_s : Z -> string -> string;
  (** [strings.TrimSpace] *)
  TrimSpace : string -> string;
  (** the conversion [int(x)] of a [float64] *)
  int_of_float64 : float -> Z
}.

(** [n] copies of [s] in a row. *)
Fixpoint repeat_string (s : string) (n : nat) : string :=
  match n with
  | O => EmptyString
  | S k => String.append s (repeat_string s k)
  end.

(** [strings.Repeat]: the counts 0 and 1 return at once; a negative count
    panics, and so does a result whose length [len(s) * count] does not fit
    in an [int].  [None] is the panic; the memory the result takes is not
    part of the model. *)
Definition Repeat (s : string) (count : Z) : option string :=
  if count =? 0 then Some EmptyString
  else if count =? 1 then Some s
  else if count <? 0 then None
  else if Go.maxInt64 <? Go.len_string s * count then None
  else Some (repeat_string s (Z.to_nat count)).

Definition newline : string := String (Ascii.ascii_of_nat 10) EmptyString.

(** The loop [for len(sections) < height { sections = append(sections, "") }]. *)
Definition padSections (sections : list string) (height : Z) : list string :=
  sections ++ replicate (Z.to_nat (height - Z.of_nat (length sections))) EmptyString.

(** ** ui/styles.go *)

Module ColorScheme.
Record t : Type := mk {
  Normal : Color;
  Warning : Color;
  Critical : Color;
  Header : Color;
  Focused : Color;
  Unfocused : Color;
  Text : Color;
  Muted : Color;
  Background : Color
}.
End ColorScheme.

Definition DefaultColorScheme : ColorScheme.t :=
  ColorScheme.mk "2" "3" "1" "6" "6" "8" "15" "8" "0".

Module StyleManager.

Record t : Type := mk {
  colors : ColorScheme.t;
  width : Z;
  height : Z
}.

Definition NewStyleManager : t := mk DefaultColorScheme 80 24.

(** The manager is shared by pointer; the updated manager is returned. *)
Definition SetDimensions (s : t) (w h : Z) : t := mk (colors s) w h.

Definition GetUsageColor (s : t) (percentage : float) : Color :=
  if PrimFloat.leb 90%float percentage then ColorScheme.Critical (colors s)
  else if PrimFloat.leb 70%float percentage then ColorScheme.Warning (colors s)
  else ColorScheme.Normal (colors s).

Definition CalculateComponentDimensions (s : t) : Z * Z :=
  let availableWidth := Go.int_sub (width s) 6 in
  let availableHeight := Go.int_sub (height s) 6 in
  let componentWidth := Go.int_div availableWidth 2 in
  let componentHeight := Go.int_div availableHeight 2 in
  let componentWidth := if componentWidth <? 30 then 30 else componentWidth in
  let componentHeight := if componentHeight <? 8 then 8 else componentHeight in
  (componentWidth, componentHeight).

Definition IsSmallTerminal (s : t) : bool :=
  (width s <? 80) || (height s <? 24).

Definition GetMinimumDimensions (s : t) : Z * Z := (80, 24).

Definition GetProgressBarWidth (s : t) (componentWidth labelWidth : Z) : Z :=
  let barWidth := Go.int_sub (Go.int_sub componentWidth labelWidth) 10 in
  if barWidth <? 10 then 10 else barWidth.

Section Rendering.
Context `{Toolkit}.

Definition RenderProgressBar (s : t) (percentage : float) (w : Z)
    (showPercentage : bool) : option string :=
  let w := if w <=? 0 then 20 else w in
  let filled :=
    int_of_float64
      (PrimFloat.mul (PrimFloat.div percentage 100%float) (Go.float64 w)) in
  let filled := if w <? filled then w else filled in
  filledBar ← Repeat "█" filled;
  emptyBar ← Repeat "░" (Go.int_sub w filled);
  let bar := String.append filledBar emptyBar in
  let color := GetUsageColor s percentage in
  let styledBar := Render (Style.withForeground color Style.NewStyle) bar in
  if showPercentage then
    let percentText :=
      Render (Style.withForeground (ColorScheme.Text (colors s)) Style.NewStyle)
             (PlaceHorizontalRight 6 (String.append (fmt_f 1 percentage) "%")) in
    Some (String.append styledBar (String.append " " percentText))
  else Some styledBar.

Definition RenderHeader (s : t) (title : string) : string :=
  Render (Style.withForeground (ColorScheme.Header (colors s))
            (Style.withBold true Style.NewStyle)) title.

Definition RenderComponentBorder (s : t) (content : string) (focused : bool)
    (w h : Z) : string :=
  let borderColor :=
    if focused then ColorScheme.Focused (colors s)
    else ColorScheme.Unfocused (colors s) in
  Render (Style.withPadding [0; 1]
           (Style.withHeight h
             (Style.withWidth w
               (Style.withBorderForeground borderColor
                 (Style.withRoundedBorder Style.NewStyle))))) content.

Definition RenderPlaceholder (s : t) (title message : string) : string :=
  let header := RenderHeader s title in
  let placeholder :=
    Render (Style.withForeground (ColorScheme.Muted (colors s)) Style.NewStyle)
           message in
  String.append header (String.append newline placeholder).

Definition RenderMutedText (s : t) (text : string) : string :=
  Render (Style.withForeground (ColorScheme.Muted (colors s)) Style.NewStyle) text.

Definition RenderHighlightText (s : t) (text : string) : string :=
  Render (Style.withBold true
           (Style.withForeground (ColorScheme.Header (colors s)) Style.NewStyle))
         text.

Definition RenderWarningText (s : t) (text : string) : string :=
  Render (Style.withBold true
           (Style.withForeground (ColorScheme.Warning (colors s)) Style.NewStyle))
         text.

Definition RenderCriticalText (s : t) (text : string) : string :=
  Render (Style.withBold true
           (Style.withForeground (ColorScheme.Critical (colors s)) Style.NewStyle))
         text.

Definition RenderErrorText (s : t) (text : string) : string :=
  Render (Style.withBold true
           (Style.withForeground (ColorScheme.Critical (colors s)) Style.NewStyle))
         text.

(** [components] is padded with empty strings up to four entries. *)
Definition render2x2Layout (s : t) (components : list string) : string :=
  let components :=
    components ++ replicate (4 - length components)%nat EmptyString in
  let at_ (i : nat) := default EmptyString (components !! i) in
  let topRow := JoinHorizontal [at_ 0%nat; " "; at_ 1%nat] in
  let bottomRow := JoinHorizontal [at_ 2%nat; " "; at_ 3%nat] in
  JoinVertical [topRow; EmptyString; bottomRow].

Definition renderVerticalLayout (s : t) (components : list string) : string :=
  let nonEmptyComponents :=
    filter (fun component => TrimSpace component <> EmptyString) components in
  JoinVertical nonEmptyComponents.

Definition RenderResponsiveLayout (s : t) (components : list string) : string :=
  if IsSmallTerminal s then renderVerticalLayout s components
  else render2x2Layout s components.

Definition RenderApplicationHeader (s : t) (title : string) : string :=
  Render (Style.withWidth (width s)
           (Style.withAlignCenter
             (Style.withForeground (ColorScheme.Header (colors s))
               (Style.withBold true Style.NewStyle)))) title.

Definition RenderApplicationFooter (s : t) (shortcuts : list string) : string :=
  let footerText := Go.Join shortcuts " • " in
  Render (Style.withWidth (width s)
           (Style.withAlignCenter
             (Style.withForeground (ColorScheme.Muted (colors s)) Style.NewStyle)))
         footerText.

Definition RenderHelpScreen (s : t) (content : string) : string :=
  Render (Style.withHeight (Go.int_sub (height s) 8)
           (Style.withWidth (Go.int_sub (width s) 8)
             (Style.withMargin [2]
               (Style.withPadding [2]
                 (Style.withBorderForeground (ColorScheme.Header (colors s))
                   (Style.withRoundedBorder Style.NewStyle))))))
         content.
End Rendering.

End StyleManager.

(** ** Messages and commands (Bubble Tea)

    A [tea.Msg] is a value of any type, taken apart by a type switch; the
    dynamic types that reach the program are the constructors of [Msg].  A
    [tea.Cmd] is a deferred computation; commands are kept as data. *)

(** What went wrong in a collector: a [models.SystemError] or any other
    [error]. *)
Inductive GoError : Type :=
| SystemErr (e : SystemError.t)
| PlainErr (text : string).

Inductive Msg : Type :=
| WindowSizeMsg (Width Height : Z)
| KeyMsg (key : string)                      (* [key] is [msg.String()] *)
| CPUUpdateMsg (info : CPUInfo.t)
| MemoryUpdateMsg (info : MemoryInfo.t)
| DiskUpdateMsg (info : list DiskInfo.t)
| NetworkUpdateMsg (info : list NetworkInfo.t)
| TickMsg (t : Go.Time)
| ErrorMsg (e : SystemError.t)
| ErrorValue (err : GoError)                 (* an [error] sent as it is *)
| OtherMsg.

Inductive Resource : Type := CPU | Memory | Disk | Network.

#[warnings="-register-all"]
Inductive Cmd : Type :=
| CmdNil                                     (* the nil command *)
| Quit                                       (* [tea.Quit] *)
| Tick (d : Go.Duration)                     (* [tea.Tick(d, TickMsg)] *)
| Collect (r : Resource)                     (* one of the four collect closures *)
| Batch (cmds : list Cmd).                   (* [tea.Batch(cmds...)] *)

(** ** ui/cpu_model.go *)

Module CPUModel.

Record t : Type := mk {
  usage : list float;
  history : list (list float);
  total : float;
  cores : Z;
  maxHistory : Z;
  lastUpdate : Go.Time;
  width : Z;
  height : Z;
  styleManager : StyleManager.t;
  hasError : bool;
  errorMessage : string;
  lastError : Go.Time
}.

Definition NewCPUModel (now : Go.Time) : t :=
  mk [] [] 0%float 0 60 now 40 10 StyleManager.NewStyleManager
     false EmptyString 0.

Definition Init (m : t) : Cmd := CmdNil.

(** The body of [for i, usage := range m.usage]. *)
Definition addUsage (maxHistory : Z) (history : list (list float))
    (i : nat) (u : float) : list (list float) :=
  match history !! i with
  | Some h =>
      let h := h ++ [u] in
      let h := if maxHistory <? Z.of_nat (length h) then drop 1 h else h in
      <[i := h]> history
  | None => history
  end.

(** [make] would panic on a negative capacity; [maxHistory] is 60 in every
    model the program builds. *)
Definition Update (m : t) (msg : Msg) : t * Cmd :=
  match msg with
  | CPUUpdateMsg info =>
      let usage' := CPUInfo.Usage info in
      let history' :=
        if (0 <? Z.of_nat (length usage'))%Z then
          let history0 :=
            if (Z.of_nat (length (history m)) =? 0)%Z
            then replicate (length usage') []
            else history m in
          foldl (fun hist iu => addUsage (maxHistory m) hist (fst iu) (snd iu))
                history0 (imap pair usage')
        else history m in
      (mk usage' history' (CPUInfo.Total info) (CPUInfo.Cores info)
          (maxHistory m) (CPUInfo.Timestamp info) (width m) (height m)
          (styleManager m) false EmptyString (lastError m),
       CmdNil)
  | ErrorMsg e =>
      if String.eqb (SystemError.Component e) "CPU" then
        (mk (usage m) (history m) (total m) (cores m) (maxHistory m)
            (lastUpdate m) (width m) (height m) (styleManager m)
            true (SystemError.Message e) (SystemError.Timestamp e),
         CmdNil)
      else (m, CmdNil)
  | _ => (m, CmdNil)
  end.

Definition SetSize (m : t) (w h : Z) : t :=
  mk (usage m) (history m) (total m) (cores m) (maxHistory m) (lastUpdate m)
     w h (styleManager m) (hasError m) (errorMessage m) (lastError m).

Definition HasError (m : t) : bool := hasError m.
Definition GetErrorMessage (m : t) : string := errorMessage m.

Definition ClearError (m : t) : t :=
  mk (usage m) (history m) (total m) (cores m) (maxHistory m) (lastUpdate m)
     (width m) (height m) (styleManager m) false EmptyString (lastError m).

Definition SetError (now : Go.Time) (m : t) (message : string) : t :=
  mk (usage m) (history m) (total m) (cores m) (maxHistory m) (lastUpdate m)
     (width m) (height m) (styleManager m) true message now.

Section Rendering.
Context `{Toolkit}.

(** The lines of the error state, before padding. *)
Definition errorSections (m : t) : list string :=
  [ StyleManager.RenderHeader (styleManager m) "CPU Usage";
    StyleManager.RenderErrorText (styleManager m)
      (String.append "Error: " (errorMessage m));
    StyleManager.RenderMutedText (styleManager m) "CPU data unavailable";
    "Total: N/A";
    "Cores: N/A" ]%string.

Definition coreLine (m : t) (i : nat) (u : float) : option string :=
  let barWidth := StyleManager.GetProgressBarWidth (styleManager m) (width m) 10 in
  coreBar ← StyleManager.RenderProgressBar (styleManager m) u barWidth false;
  Some (String.append "Core "
         (String.append (fmt_d (Go.int_ (Z.of_nat i + 1)))
           (String.append ": "
             (String.append coreBar
               (String.append " " (String.append (fmt_f 1 u) "%")))))).

(** [None] is a panic of [strings.Repeat] in the progress bar. *)
Definition View (m : t) : option string :=
  let header := StyleManager.RenderHeader (styleManager m) "CPU Usage" in
  if hasError m then
    Some (Go.Join (padSections (errorSections m) (height m)) newline)
  else if cores m =? 0 then
    Some (StyleManager.RenderPlaceholder (styleManager m)
            "CPU Usage" "Loading CPU data...")
  else
    let barWidth := StyleManager.GetProgressBarWidth (styleManager m) (width m) 8 in
    totalBar ← StyleManager.RenderProgressBar (styleManager m) (total m) barWidth false;
    let totalLine :=
      String.append "Total: "
        (String.append totalBar
          (String.append " " (String.append (fmt_f 1 (total m)) "%"))) in
    coreLines ← mapM (fun iu => coreLine m (fst iu) (snd iu)) (imap pair (usage m));
    Some (Go.Join (padSections ([header; totalLine] ++ coreLines) (height m)) newline).
End Rendering.

End CPUModel.

(** ** [formatBytes] (the same body in the memory, disk and network models) *)

Definition KB : Z := 1024.
Definition MB : Z := KB * 1024.
Definition GB : Z := MB * 1024.
Definition TB : Z := GB * 1024.

Section FormatBytes.
Context `{Toolkit}.

Definition formatBytes (bytes : Z) : string :=
  if TB <=? bytes then
    String.append (fmt_f 1 (PrimFloat.div (Go.float64 bytes) (Go.float64 TB))) "TB"
  else if GB <=? bytes then
    String.append (fmt_f 1 (PrimFloat.div (Go.float64 bytes) (Go.float64 GB))) "GB"
  else if MB <=? bytes then
    String.append (fmt_f 1 (PrimFloat.div (Go.float64 bytes) (Go.float64 MB))) "MB"
  else if KB <=? bytes then
    String.append (fmt_f 1 (PrimFloat.div (Go.float64 bytes) (Go.float64 KB))) "KB"
  else String.append (fmt_d bytes) "B".
End FormatBytes.

(** ** ui/memory_model.go *)

Module MemoryModel.

Record t : Type := mk {
  total : Z;
  used : Z;
  available : Z;
  swap : SwapInfo.t;
  lastUpdate : Go.Time;
  width : Z;
  height : Z;
  styleManager : StyleManager.t;
  hasError : bool;
  errorMessage : string;
  lastError : Go.Time
}.

Definition NewMemoryModel (now : Go.Time) : t :=
  mk 0 0 0 (SwapInfo.mk 0 0 0) now 40 8 StyleManager.NewStyleManager
     false EmptyString 0.

Definition Init (m : t) : Cmd := CmdNil.

Definition Update (m : t) (msg : Msg) : t * Cmd :=
  match msg with
  | MemoryUpdateMsg info =>
      (mk (MemoryInfo.Total info) (MemoryInfo.Used info)
          (MemoryInfo.Available info) (MemoryInfo.Swap info)
          (MemoryInfo.Timestamp info) (width m) (height m) (styleManager m)
          false EmptyString (lastError m),
       CmdNil)
  | ErrorMsg e =>
      if String.eqb (SystemError.Component e) "Memory" then
        (mk (total m) (used m) (available m) (swap m) (lastUpdate m)
            (width m) (height m) (styleManager m)
            true (SystemError.Message e) (SystemError.Timestamp e),
         CmdNil)
      else (m, CmdNil)
  | _ => (m, CmdNil)
  end.

Definition SetSize (m : t) (w h : Z) : t :=
  mk (total m) (used m) (available m) (swap m) (lastUpdate m) w h
     (styleManager m) (hasError m) (errorMessage m) (lastError m).

Definition HasError (m : t) : bool := hasError m.
Definition GetErrorMessage (m : t) : string := errorMessage m.

Definition ClearError (m : t) : t :=
  mk (total m) (used m) (available m) (swap m) (lastUpdate m) (width m)
     (height m) (styleManager m) false EmptyString (lastError m).

Definition SetError (now : Go.Time) (m : t) (message : string) : t :=
  mk (total m) (used m) (available m) (swap m) (lastUpdate m) (width m)
     (height m) (styleManager m) true message now.

Section Rendering.
Context `{Toolkit}.

Definition errorSections (m : t) : list string :=
  [ StyleManager.RenderHeader (styleManager m) "Memory Usage";
    StyleManager.RenderErrorText (styleManager m)
      (String.append "Error: " (errorMessage m));
    StyleManager.RenderMutedText (styleManager m) "Memory data unavailable";
    "RAM: N/A";
    "Swap: N/A" ]%string.

(** [float64(a) / float64(b) * 100] *)
Definition percent (a b : Z) : float :=
  PrimFloat.mul (PrimFloat.div (Go.float64 a) (Go.float64 b)) 100%float.

Definition View (m : t) : option string :=
  let header := StyleManager.RenderHeader (styleManager m) "Memory Usage" in
  if hasError m then
    Some (Go.Join (padSections (errorSections m) (height m)) newline)
  else if total m =? 0 then
    Some (StyleManager.RenderPlaceholder (styleManager m)
            "Memory Usage" "Loading memory data...")
  else
    let ramUsagePercent := percent (used m) (total m) in
    let barWidth := StyleManager.GetProgressBarWidth (styleManager m) (width m) 6 in
    ramBar ← StyleManager.RenderProgressBar (styleManager m) ramUsagePercent barWidth false;
    let ramLine :=
      String.append "RAM: "
        (String.append ramBar
          (String.append " " (String.append (fmt_f 1 ramUsagePercent) "%"))) in
    let ramDetails :=
      String.append "     "
        (String.append (formatBytes (used m))
          (String.append " / " (formatBytes (total m)))) in
    let sections :=
      [header; ramLine; StyleManager.RenderMutedText (styleManager m) ramDetails] in
    swapSections ←
      (if 0 <? SwapInfo.Total (swap m) then
         let swapUsagePercent :=
           percent (SwapInfo.Used (swap m)) (SwapInfo.Total (swap m)) in
         let barWidth :=
           StyleManager.GetProgressBarWidth (styleManager m) (width m) 7 in
         swapBar ← StyleManager.RenderProgressBar (styleManager m)
                     swapUsagePercent barWidth false;
         let swapLine :=
           String.append "Swap: "
             (String.append swapBar
               (String.append " " (String.append (fmt_f 1 swapUsagePercent) "%"))) in
         let swapDetails :=
           String.append "      "
             (String.append (formatBytes (SwapInfo.Used (swap m)))
               (String.append " / " (formatBytes (SwapInfo.Total (swap m))))) in
         Some [swapLine; StyleManager.RenderMutedText (styleManager m) swapDetails]
       else
         Some [StyleManager.RenderMutedText (styleManager m) "Swap: Not configured"]);
    Some (Go.Join (padSections (sections ++ swapSections) (height m)) newline).
End Rendering.

End MemoryModel.

(** ** ui/disk_model.go *)

Module DiskModel.

Record t : Type := mk {
  filesystems : list DiskInfo.t;
  lastUpdate : Go.Time;
  width : Z;
  height : Z;
  styleManager : StyleManager.t;
  hasError : bool;
  errorMessage : string;
  lastError : Go.Time
}.

Definition NewDiskModel (now : Go.Time) : t :=
  mk [] now 50 10 StyleManager.NewStyleManager false EmptyString 0.

Definition Init (m : t) : Cmd := CmdNil.

Definition Update (now : Go.Time) (m : t) (msg : Msg) : t * Cmd :=
  match msg with
  | DiskUpdateMsg info =>
      (mk info now (width m) (height m) (styleManager m)
          false EmptyString (lastError m),
       CmdNil)
  | ErrorMsg e =>
      if String.eqb (SystemError.Component e) "Disk" then
        (mk (filesystems m) (lastUpdate m) (width m) (height m) (styleManager m)
            true (SystemError.Message e) (SystemError.Timestamp e),
         CmdNil)
      else (m, CmdNil)
  | _ => (m, CmdNil)
  end.

Definition SetSize (m : t) (w h : Z) : t :=
  mk (filesystems m) (lastUpdate m) w h (styleManager m)
     (hasError m) (errorMessage m) (lastError m).

Definition GetFilesystems (m : t) : list DiskInfo.t := filesystems m.

Definition GetHighUsageFilesystems (m : t) (threshold : float) : list DiskInfo.t :=
  filter (fun fs => PrimFloat.leb threshold (DiskInfo.UsedPercent fs) = true)
         (filesystems m).

Definition GetCriticalFilesystems (m : t) : list DiskInfo.t :=
  GetHighUsageFilesystems m 90%float.

Definition HasCriticalUsage (m : t) : bool :=
  0 <? Z.of_nat (length (GetCriticalFilesystems m)).

Definition HasError (m : t) : bool := hasError m.
Definition GetErrorMessage (m : t) : string := errorMessage m.

Definition ClearError (m : t) : t :=
  mk (filesystems m) (lastUpdate m) (width m) (height m) (styleManager m)
     false EmptyString (lastError m).

Definition SetError (now : Go.Time) (m : t) (message : string) : t :=
  mk (filesystems m) (lastUpdate m) (width m) (height m) (styleManager m)
     true message now.

Section Rendering.
Context `{Toolkit}.

Definition errorSections (m : t) : list string :=
  [ StyleManager.RenderHeader (styleManager m) "Disk Usage";
    StyleManager.RenderErrorText (styleManager m)
      (String.append "Error: " (errorMessage m));
    StyleManager.RenderMutedText (styleManager m) "Disk data unavailable";
    "Filesystems: N/A";
    "Usage: N/A" ]%string.

(** The two lines of one filesystem. *)
Definition fsLines (m : t) (fs : DiskInfo.t) : option (list string) :=
  let mountpoint := DiskInfo.Mountpoint fs in
  let mountpoint :=
    if 15 <? Go.len_string mountpoint
    then String.append (String.substring 0 12 mountpoint) "..."
    else mountpoint in
  let barWidth := StyleManager.GetProgressBarWidth (styleManager m) (width m) 18 in
  fsBar ← StyleManager.RenderProgressBar (styleManager m)
            (DiskInfo.UsedPercent fs) barWidth false;
  let fsLine :=
    String.append (fmt_s (-15) mountpoint)
      (String.append " "
        (String.append fsBar
          (String.append " "
            (String.append (fmt_f 1 (DiskInfo.UsedPercent fs)) "%")))) in
  let styled :=
    if PrimFloat.leb 90%float (DiskInfo.UsedPercent fs)
    then StyleManager.RenderCriticalText (styleManager m) fsLine
    else if PrimFloat.leb 70%float (DiskInfo.UsedPercent fs)
    then StyleManager.RenderWarningText (styleManager m) fsLine
    else fsLine in
  let sizeDetails :=
    String.append (fmt_s (-15) EmptyString)
      (String.append " "
        (String.append (formatBytes (DiskInfo.Used fs))
          (String.append " / " (formatBytes (DiskInfo.Total fs))))) in
  Some [styled; StyleManager.RenderMutedText (styleManager m) sizeDetails].

Definition View (m : t) : option string :=
  let header := StyleManager.RenderHeader (styleManager m) "Disk Usage" in
  if hasError m then
    Some (Go.Join (padSections (errorSections m) (height m)) newline)
  else if Z.of_nat (length (filesystems m)) =? 0 then
    Some (StyleManager.RenderPlaceholder (styleManager m)
            "Disk Usage" "Loading disk data...")
  else
    lines ← mapM (fsLines m) (filesystems m);
    Some (Go.Join (padSections (header :: concat lines) (height m)) newline).
End Rendering.

End DiskModel.

(** ** ui/network_model.go *)

Module NetworkModel.

Record t : Type := mk {
  interfaces : list NetworkInfo.t;
  previousData : list NetworkInfo.t;
  rates : gmap string NetworkStats.t;
  lastUpdate : Go.Time;
  width : Z;
  height : Z;
  styleManager : StyleManager.t;
  hasError : bool;
  errorMessage : string;
  lastError : Go.Time
}.

Definition NewNetworkModel (now : Go.Time) : t :=
  mk [] [] ∅ now 50 10 StyleManager.NewStyleManager false EmptyString 0.

Definition Init (m : t) : Cmd := CmdNil.

Definition calculateRates (m : t) (previous current : list NetworkInfo.t)
    : gmap string NetworkStats.t :=
  let prevMap : gmap string NetworkInfo.t :=
    foldl (fun pm prev => <[NetworkInfo.Interface prev := prev]> pm) ∅ previous in
  foldl
    (fun (rates : gmap string NetworkStats.t) curr =>
       match prevMap !! NetworkInfo.Interface curr with
       | Some prev =>
           let timeDiff :=
             Go.Seconds (Go.Sub (NetworkInfo.Timestamp curr)
                                (NetworkInfo.Timestamp prev)) in
           if PrimFloat.ltb 0%float timeDiff then
             let sendRate :=
               if NetworkInfo.BytesSent prev <=? NetworkInfo.BytesSent curr then
                 PrimFloat.div
                   (Go.float64 (Go.uint64_sub (NetworkInfo.BytesSent curr)
                                              (NetworkInfo.BytesSent prev)))
                   timeDiff
               else 0%float in
             let recvRate :=
               if NetworkInfo.BytesRecv prev <=? NetworkInfo.BytesRecv curr then
                 PrimFloat.div
                   (Go.float64 (Go.uint64_sub (NetworkInfo.BytesRecv curr)
                                              (NetworkInfo.BytesRecv prev)))
                   timeDiff
               else 0%float in
             <[NetworkInfo.Interface curr := NetworkStats.mk sendRate recvRate]> rates
           else rates
       | None => rates
       end)
    ∅ current.

Definition Update (now : Go.Time) (m : t) (msg : Msg) : t * Cmd :=
  match msg with
  | NetworkUpdateMsg info =>
      let previousData' := interfaces m in
      let rates' :=
        if 0 <? Z.of_nat (length previousData')
        then calculateRates m previousData' info
        else rates m in
      (mk info previousData' rates' now (width m) (height m) (styleManager m)
          false EmptyString (lastError m),
       CmdNil)
  | ErrorMsg e =>
      if String.eqb (SystemError.Component e) "Network" then
        (mk (interfaces m) (previousData m) (rates m) (lastUpdate m)
            (width m) (height m) (styleManager m)
            true (SystemError.Message e) (SystemError.Timestamp e),
         CmdNil)
      else (m, CmdNil)
  | _ => (m, CmdNil)
  end.

Definition SetSize (m : t) (w h : Z) : t :=
  mk (interfaces m) (previousData m) (rates m) (lastUpdate m) w h
     (styleManager m) (hasError m) (errorMessage m) (lastError m).

Definition GetInterfaces (m : t) : list NetworkInfo.t := interfaces m.
Definition GetRates (m : t) : gmap string NetworkStats.t := rates m.

Definition GetRateByInterface (m : t) (name : string) : option NetworkStats.t :=
  rates m !! name.

Definition HasError (m : t) : bool := hasError m.
Definition GetErrorMessage (m : t) : string := errorMessage m.

Definition ClearError (m : t) : t :=
  mk (interfaces m) (previousData m) (rates m) (lastUpdate m) (width m)
     (height m) (styleManager m) false EmptyString (lastError m).

Definition SetError (now : Go.Time) (m : t) (message : string) : t :=
  mk (interfaces m) (previousData m) (rates m) (lastUpdate m) (width m)
     (height m) (styleManager m) true message now.

Section Rendering.
Context `{Toolkit}.

Definition formatRate (bytesPerSec : float) : string :=
  if PrimFloat.leb (Go.float64 GB) bytesPerSec then
    String.append (fmt_f 1 (PrimFloat.div bytesPerSec (Go.float64 GB))) "GB/s"
  else if PrimFloat.leb (Go.float64 MB) bytesPerSec then
    String.append (fmt_f 1 (PrimFloat.div bytesPerSec (Go.float64 MB))) "MB/s"
  else if PrimFloat.leb (Go.float64 KB) bytesPerSec then
    String.append (fmt_f 1 (PrimFloat.div bytesPerSec (Go.float64 KB))) "KB/s"
  else if PrimFloat.ltb 0%float bytesPerSec then
    String.append (fmt_f 0 bytesPerSec) "B/s"
  else "0B/s".

Definition styleByActivityWithManager (m : t) (text : string)
    (stats : NetworkStats.t) : string :=
  let totalRate :=
    PrimFloat.add (NetworkStats.SendRate stats) (NetworkStats.RecvRate stats) in
  if PrimFloat.leb (Go.float64 (10 * 1024 * 1024)) totalRate then
    StyleManager.RenderCriticalText (styleManager m) text
  else if PrimFloat.leb (Go.float64 (1 * 1024 * 1024)) totalRate then
    StyleManager.RenderWarningText (styleManager m) text
  else if PrimFloat.ltb 0%float totalRate then
    Render (Style.withForeground
              (StyleManager.GetUsageColor (styleManager m) 50%float)
              Style.NewStyle) text
  else StyleManager.RenderMutedText (styleManager m) text.

Definition errorSections (m : t) : list string :=
  [ StyleManager.RenderHeader (styleManager m) "Network Activity";
    StyleManager.RenderErrorText (styleManager m)
      (String.append "Error: " (errorMessage m));
    StyleManager.RenderMutedText (styleManager m) "Network data unavailable";
    "Interfaces: N/A";
    "Activity: N/A" ]%string.

(** The two lines of one interface; a missing rate reads as the zero
    [NetworkStats]. *)
Definition ifaceLines (m : t) (iface : NetworkInfo.t) : list string :=
  let lookup := rates m !! NetworkInfo.Interface iface in
  let stats := default (NetworkStats.mk 0%float 0%float) lookup in
  let interfaceName := NetworkInfo.Interface iface in
  let interfaceName :=
    if 12 <? Go.len_string interfaceName
    then String.append (String.substring 0 9 interfaceName) "..."
    else interfaceName in
  let rateLine :=
    match lookup with
    | Some _ =>
        String.append (fmt_s (-12) interfaceName)
          (String.append " ↑ "
            (String.append (fmt_s 8 (formatRate (NetworkStats.SendRate stats)))
              (String.append " ↓ "
                (fmt_s 8 (formatRate (NetworkStats.RecvRate stats))))))
    | None =>
        String.append (fmt_s (-12) interfaceName)
          (String.append " ↑ "
            (String.append (fmt_s 8 "N/A")
              (String.append " ↓ " (fmt_s 8 "N/A"))))
    end in
  let styledLine := styleByActivityWithManager m rateLine stats in
  let totalLine :=
    String.append (fmt_s (-12) EmptyString)
      (String.append "   "
        (String.append (fmt_s 8 (formatBytes (NetworkInfo.BytesSent iface)))
          (String.append "   "
            (fmt_s 8 (formatBytes (NetworkInfo.BytesRecv iface)))))) in
  [styledLine; StyleManager.RenderMutedText (styleManager m) totalLine].

Definition View (m : t) : option string :=
  let header := StyleManager.RenderHeader (styleManager m) "Network Activity" in
  if hasError m then
    Some (Go.Join (padSections (errorSections m) (height m)) newline)
  else if Z.of_nat (length (interfaces m)) =? 0 then
    Some (StyleManager.RenderPlaceholder (styleManager m)
            "Network Activity" "Loading network data...")
  else
    Some (Go.Join
            (padSections (header :: concat (map (ifaceLines m) (interfaces m)))
                         (height m))
            newline).
End Rendering.

End NetworkModel.

(** ** services/collector.go *)

Module GopsutilCollector.

Definition CalculateNetworkRates (previous current : list NetworkInfo.t)
    : gmap string NetworkStats.t :=
  let prevMap : gmap string NetworkInfo.t :=
    foldl (fun pm prev => <[NetworkInfo.Interface prev := prev]> pm) ∅ previous in
  foldl
    (fun (rates : gmap string NetworkStats.t) curr =>
       match prevMap !! NetworkInfo.Interface curr with
       | Some prev =>
           let timeDiff :=
             Go.Seconds (Go.Sub (NetworkInfo.Timestamp curr)
                                (NetworkInfo.Timestamp prev)) in
           if PrimFloat.ltb 0%float timeDiff then
             let sendRate :=
               if NetworkInfo.BytesSent prev <=? NetworkInfo.BytesSent curr then
                 PrimFloat.div
                   (Go.float64 (Go.uint64_sub (NetworkInfo.BytesSent curr)
                                              (NetworkInfo.BytesSent prev)))
                   timeDiff
               else 0%float in
             let recvRate :=
               if NetworkInfo.BytesRecv prev <=? NetworkInfo.BytesRecv curr then
                 PrimFloat.div
                   (Go.float64 (Go.uint64_sub (NetworkInfo.BytesRecv curr)
                                              (NetworkInfo.BytesRecv prev)))
                   timeDiff
               else 0%float in
             <[NetworkInfo.Interface curr := NetworkStats.mk sendRate recvRate]> rates
           else rates
       | None => rates
       end)
    ∅ current.

End GopsutilCollector.

(** ** ui/main_model.go *)

(** [type FocusedComponent int], with the constants numbered by [iota]. *)
Definition FocusedComponent : Type := Z.
Definition FocusCPU : FocusedComponent := 0.
Definition FocusMemory : FocusedComponent := 1.
Definition FocusDisk : FocusedComponent := 2.
Definition FocusNetwork : FocusedComponent := 3.

Module KeyMap.
Record t : Type := mk {
  Up : list string;
  Down : list string;
  Left : list string;
  Right : list string;
  Tab : list string;
  ShiftTab : list string;
  Quit : list string;
  Refresh : list string;
  Help : list string
}.
End KeyMap.

Definition DefaultKeyMap : KeyMap.t :=
  KeyMap.mk ["up"; "k"] ["down"; "j"] ["left"; "h"] ["right"; "l"]
            ["tab"] ["shift+tab"] ["q"; "ctrl+c"] ["r"] ["?"; "h"].

(** What the four operations of the collector return in one round. *)
Module Sample.
Record t : Type := mk {
  CollectCPU : CPUInfo.t * option GoError;
  CollectMemory : MemoryInfo.t * option GoError;
  CollectDisk : list DiskInfo.t * option GoError;
  CollectNetwork : list NetworkInfo.t * option GoError
}.
End Sample.

Module MainModel.

(** The fields [collector] and [ticker] are pointers that no method
    reassigns; the commands below close over the collector. *)
Record t : Type := mk {
  cpu : CPUModel.t;
  memory : MemoryModel.t;
  disk : DiskModel.t;
  network : NetworkModel.t;
  focused : FocusedComponent;
  keys : KeyMap.t;
  width : Z;
  height : Z;
  showHelp : bool;
  styleManager : StyleManager.t;
  updateInterval : Go.Duration
}.

(** Each component constructor reads the clock once. *)
Definition NewMainModelWithConfig (t1 t2 t3 t4 : Go.Time)
    (updateInterval : Go.Duration) : t :=
  mk (CPUModel.NewCPUModel t1) (MemoryModel.NewMemoryModel t2)
     (DiskModel.NewDiskModel t3) (NetworkModel.NewNetworkModel t4)
     FocusCPU DefaultKeyMap 80 24 false StyleManager.NewStyleManager
     updateInterval.

Definition NewMainModel (t1 t2 t3 t4 : Go.Time) : t :=
  mk (CPUModel.NewCPUModel t1) (MemoryModel.NewMemoryModel t2)
     (DiskModel.NewDiskModel t3) (NetworkModel.NewNetworkModel t4)
     FocusCPU DefaultKeyMap 80 24 false StyleManager.NewStyleManager
     Go.Second.

Definition tickCmd (m : t) : Cmd := Tick (updateInterval m).

Definition collectCPUDataCmd (m : t) : Cmd := Collect CPU.
Definition collectMemoryDataCmd (m : t) : Cmd := Collect Memory.
Definition collectDiskDataCmd (m : t) : Cmd := Collect Disk.
Definition collectNetworkDataCmd (m : t) : Cmd := Collect Network.

(** The bodies of the four closures: the message a collect command sends
    once the collector has answered. *)
Definition collectMsg (s : Sample.t) (r : Resource) : Msg :=
  match r with
  | CPU =>
      match snd (Sample.CollectCPU s) with
      | Some err => ErrorValue err
      | None => CPUUpdateMsg (fst (Sample.CollectCPU s))
      end
  | Memory =>
      match snd (Sample.CollectMemory s) with
      | Some err => ErrorValue err
      | None => MemoryUpdateMsg (fst (Sample.CollectMemory s))
      end
  | Disk =>
      match snd (Sample.CollectDisk s) with
      | Some err => ErrorValue err
      | None => DiskUpdateMsg (fst (Sample.CollectDisk s))
      end
  | Network =>
      match snd (Sample.CollectNetwork s) with
      | Some err => ErrorValue err
      | None => NetworkUpdateMsg (fst (Sample.CollectNetwork s))
      end
  end.

Definition collectAllDataCmd (m : t) : Cmd :=
  Batch [collectCPUDataCmd m; collectMemoryDataCmd m;
         collectDiskDataCmd m; collectNetworkDataCmd m].

Definition Init (m : t) : Cmd :=
  Batch [CPUModel.Init (cpu m); MemoryModel.Init (memory m);
         DiskModel.Init (disk m); NetworkModel.Init (network m);
         tickCmd m; collectAllDataCmd m].

Definition updateComponentSizes (m : t) : t :=
  let componentWidth := Go.int_div (Go.int_sub (width m) 3) 2 in
  let componentHeight := Go.int_div (Go.int_sub (height m) 4) 2 in
  mk (CPUModel.SetSize (cpu m) componentWidth componentHeight)
     (MemoryModel.SetSize (memory m) componentWidth componentHeight)
     (DiskModel.SetSize (disk m) componentWidth componentHeight)
     (NetworkModel.SetSize (network m) componentWidth componentHeight)
     (focused m) (keys m) (width m) (height m) (showHelp m)
     (styleManager m) (updateInterval m).

Definition nextFocus (m : t) : FocusedComponent :=
  if focused m =? FocusCPU then FocusMemory
  else if focused m =? FocusMemory then FocusDisk
  else if focused m =? FocusDisk then FocusNetwork
  else if focused m =? FocusNetwork then FocusCPU
  else FocusCPU.

Definition prevFocus (m : t) : FocusedComponent :=
  if focused m =? FocusCPU then FocusNetwork
  else if focused m =? FocusMemory then FocusCPU
  else if focused m =? FocusDisk then FocusMemory
  else if focused m =? FocusNetwork then FocusDisk
  else FocusCPU.

Definition downFocus (m : t) : FocusedComponent :=
  if focused m =? FocusCPU then FocusDisk
  else if focused m =? FocusMemory then FocusNetwork
  else if focused m =? FocusDisk then FocusDisk
  else if focused m =? FocusNetwork then FocusNetwork
  else FocusCPU.

Definition upFocus (m : t) : FocusedComponent :=
  if focused m =? FocusCPU then FocusCPU
  else if focused m =? FocusMemory then FocusMemory
  else if focused m =? FocusDisk then FocusCPU
  else if focused m =? FocusNetwork then FocusMemory
  else FocusCPU.

Fixpoint containsKey (keys : list string) (key : string) : bool :=
  match keys with
  | [] => false
  | k :: rest => if String.eqb k key then true else containsKey rest key
  end.

Definition GetFocusedComponent (m : t) : FocusedComponent := focused m.

Definition SetFocusedComponent (m : t) (focus : FocusedComponent) : t :=
  mk (cpu m) (memory m) (disk m) (network m) focus (keys m) (width m)
     (height m) (showHelp m) (styleManager m) (updateInterval m).

Definition SetShowHelp (m : t) (show : bool) : t :=
  mk (cpu m) (memory m) (disk m) (network m) (focused m) (keys m) (width m)
     (height m) show (styleManager m) (updateInterval m).

Definition setCPU (m : t) (c : CPUModel.t) : t :=
  mk c (memory m) (disk m) (network m) (focused m) (keys m) (width m)
     (height m) (showHelp m) (styleManager m) (updateInterval m).
Definition setMemory (m : t) (c : MemoryModel.t) : t :=
  mk (cpu m) c (disk m) (network m) (focused m) (keys m) (width m)
     (height m) (showHelp m) (styleManager m) (updateInterval m).
Definition setDisk (m : t) (c : DiskModel.t) : t :=
  mk (cpu m) (memory m) c (network m) (focused m) (keys m) (width m)
     (height m) (showHelp m) (styleManager m) (updateInterval m).
Definition setNetwork (m : t) (c : NetworkModel.t) : t :=
  mk (cpu m) (memory m) (disk m) c (focused m) (keys m) (width m)
     (height m) (showHelp m) (styleManager m) (updateInterval m).

Definition isNil (c : Cmd) : bool :=
  match c with CmdNil => true | _ => false end.

(** [cmds] collects the commands; the result is [tea.Batch(cmds...)],
    except for the quit keys, which return [tea.Quit]. *)
Definition Update (now : Go.Time) (m : t) (msg : Msg) : t * Cmd :=
  match msg with
  | WindowSizeMsg w h =>
      let m :=
        mk (cpu m) (memory m) (disk m) (network m) (focused m) (keys m)
           w h (showHelp m) (StyleManager.SetDimensions (styleManager m) w h)
           (updateInterval m) in
      (updateComponentSizes m, Batch [])
  | KeyMsg key =>
      if containsKey (KeyMap.Quit (keys m)) key then (m, Quit)
      else if containsKey (KeyMap.Help (keys m)) key then
        (SetShowHelp m (negb (showHelp m)), Batch [])
      else if containsKey (KeyMap.Refresh (keys m)) key then
        (m, Batch [collectAllDataCmd m])
      else if containsKey (KeyMap.Tab (keys m)) key then
        (SetFocusedComponent m (nextFocus m), Batch [])
      else if containsKey (KeyMap.ShiftTab (keys m)) key then
        (SetFocusedComponent m (prevFocus m), Batch [])
      else if containsKey (KeyMap.Right (keys m)) key then
        (SetFocusedComponent m (nextFocus m), Batch [])
      else if containsKey (KeyMap.Left (keys m)) key then
        (SetFocusedComponent m (prevFocus m), Batch [])
      else if containsKey (KeyMap.Down (keys m)) key then
        (SetFocusedComponent m (downFocus m), Batch [])
      else if containsKey (KeyMap.Up (keys m)) key then
        (SetFocusedComponent m (upFocus m), Batch [])
      else (m, Batch [])
  | CPUUpdateMsg _ =>
      let r := CPUModel.Update (cpu m) msg in
      (setCPU m (fst r), Batch [snd r])
  | MemoryUpdateMsg _ =>
      let r := MemoryModel.Update (memory m) msg in
      (setMemory m (fst r), Batch [snd r])
  | DiskUpdateMsg _ =>
      let r := DiskModel.Update now (disk m) msg in
      (setDisk m (fst r), Batch [snd r])
  | NetworkUpdateMsg _ =>
      let r := NetworkModel.Update now (network m) msg in
      (setNetwork m (fst r), Batch [snd r])
  | TickMsg _ =>
      (m, Batch [collectAllDataCmd m; tickCmd m])
  | ErrorMsg e =>
      let r :=
        if String.eqb (SystemError.Component e) "CPU" then
          let r := CPUModel.Update (cpu m) msg in (setCPU m (fst r), snd r)
        else if String.eqb (SystemError.Component e) "Memory" then
          let r := MemoryModel.Update (memory m) msg in (setMemory m (fst r), snd r)
        else if String.eqb (SystemError.Component e) "Disk" then
          let r := DiskModel.Update now (disk m) msg in (setDisk m (fst r), snd r)
        else if String.eqb (SystemError.Component e) "Network" then
          let r := NetworkModel.Update now (network m) msg in
          (setNetwork m (fst r), snd r)
        else (m, CmdNil) in
      (fst r, Batch (if isNil (snd r) then [] else [snd r]))
  | _ => (m, Batch [])
  end.

Section Rendering.
Context `{Toolkit}.

Definition renderHelp (m : t) : string :=
  let helpContent :=
    [ "System Monitor - Keyboard Shortcuts"; "";
      "Navigation:";
      "  ↑/↓/←/→, hjkl  Navigate between components";
      "  Tab, Shift+Tab  Cycle through components"; "";
      "Actions:";
      "  q, Ctrl+C       Quit application";
      "  r               Manual refresh";
      "  ?, h            Toggle this help"; "";
      "Components:";
      "  CPU             Real-time CPU usage per core";
      "  Memory          RAM and swap usage";
      "  Disk            Filesystem usage and warnings";
      "  Network         Interface activity and rates"; "";
      "Press any key to return to the main view" ]%string in
  StyleManager.RenderHelpScreen (styleManager m) (Go.Join helpContent newline).

(** The component sizes used for a frame are those of
    [CalculateComponentDimensions]; the receiver is a copy, so they are
    not stored. *)
Definition View (m : t) : option string :=
  if showHelp m then Some (renderHelp m)
  else
    let dims := StyleManager.CalculateComponentDimensions (styleManager m) in
    let componentWidth := fst dims in
    let componentHeight := snd dims in
    let border := StyleManager.RenderComponentBorder (styleManager m) in
    cpuContent ← CPUModel.View (CPUModel.SetSize (cpu m) componentWidth componentHeight);
    memoryContent ←
      MemoryModel.View (MemoryModel.SetSize (memory m) componentWidth componentHeight);
    diskContent ←
      DiskModel.View (DiskModel.SetSize (disk m) componentWidth componentHeight);
    networkContent ←
      NetworkModel.View
        (NetworkModel.SetSize (network m) componentWidth componentHeight);
    let cpuView :=
      border cpuContent (focused m =? FocusCPU) componentWidth componentHeight in
    let memoryView :=
      border memoryContent (focused m =? FocusMemory) componentWidth componentHeight in
    let diskView :=
      border diskContent (focused m =? FocusDisk) componentWidth componentHeight in
    let networkView :=
      border networkContent (focused m =? FocusNetwork)
             componentWidth componentHeight in
    let content :=
      StyleManager.RenderResponsiveLayout (styleManager m)
        [cpuView; memoryView; diskView; networkView] in
    let header :=
      StyleManager.RenderApplicationHeader (styleManager m) "System Monitor" in
    let footer :=
      StyleManager.RenderApplicationFooter (styleManager m)
        ["q: quit"; "arrows/tab: navigate"; "r: refresh"; "?: help"]%string in
    Some (JoinVertical [header; EmptyString; content; EmptyString; footer]).
End Rendering.

End MainModel.

(** ** Auxiliary notions for the statements *)

(** The collect commands a command issues, in the order of the batch. *)
Fixpoint collects (c : Cmd) : list Resource :=
  match c with
  | Collect r => [r]
  | Batch cmds =>
      (fix go (l : list Cmd) : list Resource :=
         match l with
         | [] => []
         | c' :: l' => collects c' ++ go l'
         end) cmds
  | _ => []
  end.

(** The component name an [ErrorMsg] carries for a resource. *)
Definition componentName (r : Resource) : string :=
  match r with
  | CPU => "CPU"
  | Memory => "Memory"
  | Disk => "Disk"
  | Network => "Network"
  end.

(** The four values of [FocusedComponent] the program declares. *)
Definition isFocus (f : FocusedComponent) : Prop :=
  f = FocusCPU \/ f = FocusMemory \/ f = FocusDisk \/ f = FocusNetwork.

(** Pressing a key bound to the forward or the backward cycle. *)
Definition forward (m : MainModel.t) : MainModel.t :=
  MainModel.SetFocusedComponent m (MainModel.nextFocus m).
Definition backward (m : MainModel.t) : MainModel.t :=
  MainModel.SetFocusedComponent m (MainModel.prevFocus m).

(** The reducers iterated over a sequence of messages. *)
Definition runCPU (m : CPUModel.t) (msgs : list Msg) : CPUModel.t :=
  foldl (fun m msg => fst (CPUModel.Update m msg)) m msgs.
Definition runMemory (m : MemoryModel.t) (msgs : list Msg) : MemoryModel.t :=
  foldl (fun m msg => fst (MemoryModel.Update m msg)) m msgs.
Definition runDisk (now : Go.Time) (m : DiskModel.t) (msgs : list Msg) : DiskModel.t :=
  foldl (fun m msg => fst (DiskModel.Update now m msg)) m msgs.
Definition runNetwork (now : Go.Time) (m : NetworkModel.t) (msgs : list Msg)
    : NetworkModel.t :=
  foldl (fun m msg => fst (NetworkModel.Update now m msg)) m msgs.

(** The two loops of the rate calculation, named. *)
Definition prevMapOf (previous : list NetworkInfo.t) : gmap string NetworkInfo.t :=
  foldl (fun pm prev => <[NetworkInfo.Interface prev := prev]> pm) ∅ previous.

Definition timeDiffOf (curr prev : NetworkInfo.t) : float :=
  Go.Seconds (Go.Sub (NetworkInfo.Timestamp curr) (NetworkInfo.Timestamp prev)).

Definition statsOf (curr prev : NetworkInfo.t) : NetworkStats.t :=
  NetworkStats.mk
    (if NetworkInfo.BytesSent prev <=? NetworkInfo.BytesSent curr then
       PrimFloat.div
         (Go.float64 (Go.uint64_sub (NetworkInfo.BytesSent curr)
                                    (NetworkInfo.BytesSent prev)))
         (timeDiffOf curr prev)
     else 0%float)
    (if NetworkInfo.BytesRecv prev <=? NetworkInfo.BytesRecv curr then
       PrimFloat.div
         (Go.float64 (Go.uint64_sub (NetworkInfo.BytesRecv curr)
                                    (NetworkInfo.BytesRecv prev)))
         (timeDiffOf curr prev)
     else 0%float).

Definition rateStep (pm : gmap string NetworkInfo.t)
    (rates : gmap string NetworkStats.t) (curr : NetworkInfo.t)
    : gmap string NetworkStats.t :=
  match pm !! NetworkInfo.Interface curr with
  | Some prev =>
      if PrimFloat.ltb 0%float (timeDiffOf curr prev)
      then <[NetworkInfo.Interface curr := statsOf curr prev]> rates
      else rates
  | None => rates
  end.

(** Two samples of eth0 one second apart: 1,000,000 to 1,001,024 bytes sent,
    2,000,000 to 2,002,048 bytes received. *)
Definition eth0_before : NetworkInfo.t :=
  NetworkInfo.mk "eth0" 1000000 2000000 10 20 0.
Definition eth0_after : NetworkInfo.t :=
  NetworkInfo.mk "eth0" 1001024 2002048 12 24 1000000000.

(** What one update does to the history of one core. *)
Definition pushed (maxH : Z) (h : list float) (u : float) : list float :=
  if maxH <? Z.of_nat (length (h ++ [u])) then drop 1 (h ++ [u]) else h ++ [u].

(** The loop over the usage values of an update, cores numbered from [k]. *)
Definition addAll (maxH : Z) (k : nat) (history : list (list float))
    (usage : list float) : list (list float) :=
  foldl (fun hist iu => CPUModel.addUsage maxH hist (fst iu) (snd iu))
        history (imap (fun j u => ((k + j)%nat, u)) usage).

(** Every history holds at most [maxH] entries. *)
Definition bounded (maxH : Z) (history : list (list float)) : Prop :=
  Forall (fun h => Z.of_nat (length h) <= maxH) history.

(** A toolkit without styling, for the concrete examples: text is rendered
    as it is, blocks are joined by line breaks, numbers are not printed. *)
Definition plainToolkit : Toolkit :=
  {| Render := fun _ text => text;
     JoinHorizontal := fun blocks => Go.Join blocks EmptyString;
     JoinVertical := fun blocks => Go.Join blocks newline;
     PlaceHorizontalRight := fun _ text => text;
     fmt_f := fun _ _ => "#"%string;
     fmt_d := fun _ => "#"%string;
     fmt_s := fun _ text => text;
     TrimSpace := fun text => text;
     int_of_float64 := fun _ => 0 |}.

(** The conversion [int(x)] as amd64 performs it: the value is truncated
    toward zero; what does not fit in an [int], infinities and NaN give
    [minInt64]. *)
Definition truncate_float64 (x : float) : Z :=
  match Prim2SF x with
  | S754_zero _ => 0
  | S754_finite neg m e =>
      let magnitude :=
        if 0 <=? e then Z.shiftl (Z.pos m) e else Z.shiftr (Z.pos m) (- e) in
      let v := if neg then - magnitude else magnitude in
      if (Go.minInt64 <=? v) && (v <=? Go.maxInt64) then v else Go.minInt64
  | _ => Go.minInt64
  end.

(** The plain toolkit with that conversion. *)
Definition truncatingToolkit : Toolkit :=
  {| Render := fun _ text => text;
     JoinHorizontal := fun blocks => Go.Join blocks EmptyString;
     JoinVertical := fun blocks => Go.Join blocks newline;
     PlaceHorizontalRight := fun _ text => text;
     fmt_f := fun _ _ => "#"%string;
     fmt_d := fun _ => "#"%string;
     fmt_s := fun _ text => text;
     TrimSpace := fun text => text;
     int_of_float64 := truncate_float64 |}.

(** ** Further notions: runs of the main reducer

    A step is a message together with the clock reading of its [Update]. *)

Definition runMain (m : MainModel.t) (steps : list (Go.Time * Msg)) : MainModel.t :=
  foldl (fun m step => fst (MainModel.Update (fst step) m (snd step))) m steps.

(** The resource a sample message or an error event is routed to: the
    [case] of the type switch for a sample, the component name for an error
    event. *)
Definition resourceOf (msg : Msg) : option Resource :=
  match msg with
  | CPUUpdateMsg _ => Some CPU
  | MemoryUpdateMsg _ => Some Memory
  | DiskUpdateMsg _ => Some Disk
  | NetworkUpdateMsg _ => Some Network
  | ErrorMsg e =>
      if String.eqb (SystemError.Component e) "CPU" then Some CPU
      else if String.eqb (SystemError.Component e) "Memory" then Some Memory
      else if String.eqb (SystemError.Component e) "Disk" then Some Disk
      else if String.eqb (SystemError.Component e) "Network" then Some Network
      else None
  | _ => None
  end.

(** The [err] a collector operation returned in a round. *)
Definition sampleError (s : Sample.t) (r : Resource) : option GoError :=
  match r with
  | CPU => snd (Sample.CollectCPU s)
  | Memory => snd (Sample.CollectMemory s)
  | Disk => snd (Sample.CollectDisk s)
  | Network => snd (Sample.CollectNetwork s)
  end.

(** The usage values of core [i] in a sequence of messages, oldest first. *)
Definition samplesOf (i : nat) (msgs : list Msg) : list float :=
  omap (fun msg =>
          match msg with
          | CPUUpdateMsg info => CPUInfo.Usage info !! i
          | _ => None
          end) msgs.

(** The last [n] entries of a list. *)
Definition lastN {A : Type} (n : nat) (l : list A) : list A :=
  drop (length l - n) l.

(** [NetworkModel.GetInterfaceByName] (ui/network_model.go); [None] is the
    result [(NetworkInfo{}, false)]. *)
Fixpoint GetInterfaceByName_loop (interfaces : list NetworkInfo.t) (name : string)
    : option NetworkInfo.t :=
  match interfaces with
  | [] => None
  | iface :: rest =>
      if String.eqb (NetworkInfo.Interface iface) name then Some iface
      else GetInterfaceByName_loop rest name
  end.

Definition GetInterfaceByName (m : NetworkModel.t) (name : string)
    : option NetworkInfo.t :=
  GetInterfaceByName_loop (NetworkModel.interfaces m) name.

(** What every model reached from [NewMainModelWithConfig] satisfies. *)
Definition wellFormed (interval : Go.Duration) (m : MainModel.t) : Prop :=
  MainModel.keys m = DefaultKeyMap /\
  MainModel.updateInterval m = interval /\
  MainModel.styleManager m
    = StyleManager.mk DefaultColorScheme (MainModel.width m) (MainModel.height m) /\
  CPUModel.styleManager (MainModel.cpu m) = StyleManager.NewStyleManager /\
  MemoryModel.styleManager (MainModel.memory m) = StyleManager.NewStyleManager /\
  DiskModel.styleManager (MainModel.disk m) = StyleManager.NewStyleManager /\
  NetworkModel.styleManager (MainModel.network m) = StyleManager.NewStyleManager /\
  CPUModel.maxHistory (MainModel.cpu m) = 60.

#[local] Instance Resource_eq_dec : EqDecision Resource.
Proof. solve_decision. Defined.

(** The resources the messages of a run are routed to. *)
Definition stepResources (steps : list (Go.Time * Msg)) : list (option Resource) :=
  (fun step => resourceOf (snd step)) <$> steps.

(** The messages of one sampling round, in the order [order] of arrival;
    [clock r] is the clock reading when the result for [r] is applied. *)
Definition roundSteps (s : Sample.t) (clock : Resource -> Go.Time)
    (order : list Resource) : list (Go.Time * Msg) :=
  (fun r => (clock r, MainModel.collectMsg s r)) <$> order.

(** Whether the collector operation for [r] succeeded in the round [s]. *)
Definition succeeded (s : Sample.t) (r : Resource) : bool :=
  match sampleError s r with
  | None => true
  | Some _ => false
  end.

(** ** models/errors.go: constructors, formatting and the error handler

    An [error] value is represented by its text ([err.Error()]); the log line
    a handler writes is not part of the model. *)

Definition CreateSystemError (now : Go.Time) (errorType : ErrorType)
    (component message : string) (original : option string) : SystemError.t :=
  SystemError.mk errorType message component now original.

Definition WrapError (now : Go.Time) (err : string) (component : string)
    (errorType : ErrorType) : SystemError.t :=
  SystemError.mk errorType err component now (Some err).

Definition typeString (e : SystemError.t) : string :=
  match SystemError.Type_ e with
  | SystemAccessError => "System Access Error"
  | DataCollectionError => "Data Collection Error"
  | RenderError => "Render Error"
  | PermissionError => "Permission Error"
  | TemporaryError => "Temporary Error"
  end.

(** [fmt.Sprintf("[%s] %s: %s", e.Component, e.typeString(), e.Message)] *)
Definition Error (e : SystemError.t) : string :=
  String.append "["
    (String.append (SystemError.Component e)
      (String.append "] "
        (String.append (typeString e)
          (String.append ": " (SystemError.Message e))))).

Module ErrorHandler.

(** The message sent by the command a handler returns. *)
Definition HandleSystemError (now : Go.Time) (component err : string) : Msg :=
  ErrorMsg (SystemError.mk SystemAccessError err component now (Some err)).

Definition HandleDataError (now : Go.Time) (component err : string) : Msg :=
  ErrorMsg (SystemError.mk DataCollectionError err component now (Some err)).

Definition HandlePermissionError (now : Go.Time) (component err : string) : Msg :=
  ErrorMsg (SystemError.mk PermissionError err component now (Some err)).

Definition HandleTemporaryError (now : Go.Time) (component err : string) : Msg :=
  ErrorMsg (SystemError.mk TemporaryError err component now (Some err)).

Definition HandleRenderError (now : Go.Time) (component err : string) : Msg :=
  ErrorMsg (SystemError.mk RenderError err component now (Some err)).

End ErrorHandler.

(** ** services/collector.go: the four operations

    gopsutil is outside the repository: an operation is a function of what
    the library calls return, a value and an [error] (its text, [None] for
    nil).  A pointer result is an [option]; dereferencing nil is a panic, the
    result [None] of the operation. *)

Module Gopsutil.

Module IOCountersStat.
Record t : Type := mk {
  Name : string;
  BytesSent : Z;
  BytesRecv : Z;
  PacketsSent : Z;
  PacketsRecv : Z
}.
End IOCountersStat.

Module PartitionStat.
Record t : Type := mk { Device : string; Mountpoint : string; Fstype : string }.
End PartitionStat.

Module UsageStat.
Record t : Type := mk { Total : Z; Free : Z; Used : Z; UsedPercent : float }.
End UsageStat.

Module VirtualMemoryStat.
Record t : Type := mk { Total : Z; Available : Z; Used : Z }.
End VirtualMemoryStat.

Module SwapMemoryStat.
Record t : Type := mk { Total : Z; Used : Z; Free : Z }.
End SwapMemoryStat.

End Gopsutil.

(** [strings.Contains]: [substr] occurs in [s]. *)
Fixpoint Contains (s substr : string) : bool :=
  if String.prefix substr s then true
  else match s with
       | EmptyString => false
       | String _ rest => Contains rest substr
       end.

Module Collector.

Section WithToLower.

(** [strings.ToLower] *)
Variable ToLower : string -> string.

Definition isPermissionError (err : string) : bool :=
  let errStr := ToLower err in
  Contains errStr "permission denied" ||
  Contains errStr "access denied" ||
  Contains errStr "operation not permitted".

Definition isTemporaryError (err : string) : bool :=
  let errStr := ToLower err in
  Contains errStr "timeout" ||
  Contains errStr "temporary" ||
  Contains errStr "try again" ||
  Contains errStr "resource temporarily unavailable".

(** The zero values the operations return beside an error. *)
Definition noCPUInfo : CPUInfo.t := CPUInfo.mk 0 [] 0%float 0.
Definition noMemoryInfo : MemoryInfo.t := MemoryInfo.mk 0 0 0 (SwapInfo.mk 0 0 0) 0.

(** [perCore] and [total] are the results of [cpu.Percent(time.Second, true)]
    and [cpu.Percent(time.Second, false)]. *)
Definition CollectCPU (now : Go.Time) (perCore total : list float * option string)
    : CPUInfo.t * option GoError :=
  let perCoreUsage := fst perCore in
  match snd perCore with
  | Some err =>
      if isPermissionError err then
        (noCPUInfo,
         Some (SystemErr (CreateSystemError now PermissionError "CPU"
                 "Permission denied accessing CPU information" (Some err))))
      else if isTemporaryError err then
        (noCPUInfo,
         Some (SystemErr (CreateSystemError now TemporaryError "CPU"
                 "Temporary error collecting CPU data" (Some err))))
      else
        (noCPUInfo,
         Some (SystemErr (CreateSystemError now SystemAccessError "CPU"
                 "Failed to collect per-core CPU usage" (Some err))))
  | None =>
      match snd total with
      | Some err =>
          if 0 <? Z.of_nat (length perCoreUsage) then
            let sum := foldl PrimFloat.add 0%float perCoreUsage in
            let total' :=
              PrimFloat.div sum (Go.float64 (Z.of_nat (length perCoreUsage))) in
            (CPUInfo.mk (Z.of_nat (length perCoreUsage)) perCoreUsage total' now, None)
          else if isPermissionError err then
            (noCPUInfo,
             Some (SystemErr (CreateSystemError now PermissionError "CPU"
                     "Permission denied accessing CPU information" (Some err))))
          else
            (noCPUInfo,
             Some (SystemErr (CreateSystemError now SystemAccessError "CPU"
                     "Failed to collect total CPU usage" (Some err))))
      | None =>
          let total' :=
            match fst total with
            | first :: _ => first
            | [] => 0%float
            end in
          (CPUInfo.mk (Z.of_nat (length perCoreUsage)) perCoreUsage total' now, None)
      end
  end.

(** [vm] and [swap] are the results of [mem.VirtualMemory()] and
    [mem.SwapMemory()]. *)
Definition CollectMemory (now : Go.Time)
    (vm : option Gopsutil.VirtualMemoryStat.t * option string)
    (swap : option Gopsutil.SwapMemoryStat.t * option string)
    : option (MemoryInfo.t * option GoError) :=
  match snd vm with
  | Some err =>
      if isPermissionError err then
        Some (noMemoryInfo,
              Some (SystemErr (CreateSystemError now PermissionError "Memory"
                      "Permission denied accessing memory information" (Some err))))
      else if isTemporaryError err then
        Some (noMemoryInfo,
              Some (SystemErr (CreateSystemError now TemporaryError "Memory"
                      "Temporary error collecting memory data" (Some err))))
      else
        Some (noMemoryInfo,
              Some (SystemErr (CreateSystemError now SystemAccessError "Memory"
                      "Failed to collect virtual memory statistics" (Some err))))
  | None =>
      match snd swap with
      | Some err =>
          match fst vm with
          | Some vmStat =>
              Some (MemoryInfo.mk (Gopsutil.VirtualMemoryStat.Total vmStat)
                      (Gopsutil.VirtualMemoryStat.Used vmStat)
                      (Gopsutil.VirtualMemoryStat.Available vmStat)
                      (SwapInfo.mk 0 0 0) now,
                    None)
          | None =>
              if isPermissionError err then
                Some (noMemoryInfo,
                      Some (SystemErr (CreateSystemError now PermissionError "Memory"
                              "Permission denied accessing swap information"
                              (Some err))))
              else
                Some (noMemoryInfo,
                      Some (SystemErr (CreateSystemError now SystemAccessError "Memory"
                              "Failed to collect swap memory statistics" (Some err))))
          end
      | None =>
          vmStat ← fst vm;
          swapStat ← fst swap;
          Some (MemoryInfo.mk (Gopsutil.VirtualMemoryStat.Total vmStat)
                  (Gopsutil.VirtualMemoryStat.Used vmStat)
                  (Gopsutil.VirtualMemoryStat.Available vmStat)
                  (SwapInfo.mk (Gopsutil.SwapMemoryStat.Total swapStat)
                               (Gopsutil.SwapMemoryStat.Used swapStat)
                               (Gopsutil.SwapMemoryStat.Free swapStat))
                  now,
                None)
      end
  end.

(** The filesystem kinds [CollectDisk] skips. *)
Definition isSpecialFstype (fstype : string) : bool :=
  String.eqb fstype "proc" || String.eqb fstype "sysfs" ||
  String.eqb fstype "devtmpfs" || String.eqb fstype "tmpfs" ||
  String.eqb fstype "devpts" || String.eqb fstype "cgroup" ||
  String.eqb fstype "cgroup2" || String.eqb fstype "pstore" ||
  String.eqb fstype "bpf" || String.eqb fstype "tracefs".

(** The loop of [CollectDisk]: the state is [diskInfos] and [lastError]
    ([errorCount] is counted and never read); every partition comes with
    what [disk.Usage] returns for its mount point when the loop reaches it. *)
Definition diskStep
    (state : option (list DiskInfo.t * option string))
    (entry : Gopsutil.PartitionStat.t * (option Gopsutil.UsageStat.t * option string))
    : option (list DiskInfo.t * option string) :=
  st ← state;
  let partition := fst entry in
  if isSpecialFstype (Gopsutil.PartitionStat.Fstype partition) then Some st
  else
    match snd (snd entry) with
    | Some err => Some (fst st, Some err)
    | None =>
        usage ← fst (snd entry);
        Some (fst st ++
                [DiskInfo.mk (Gopsutil.PartitionStat.Device partition)
                   (Gopsutil.PartitionStat.Mountpoint partition)
                   (Gopsutil.PartitionStat.Fstype partition)
                   (Gopsutil.UsageStat.Total usage)
                   (Gopsutil.UsageStat.Used usage)
                   (Gopsutil.UsageStat.Free usage)
                   (Gopsutil.UsageStat.UsedPercent usage)],
              snd st)
    end.

(** [partitions] is the result of [disk.Partitions(false)], each partition
    paired with the result of its [disk.Usage] call. *)
Definition CollectDisk (now : Go.Time)
    (partitions :
       list (Gopsutil.PartitionStat.t * (option Gopsutil.UsageStat.t * option string))
       * option string)
    : option (list DiskInfo.t * option GoError) :=
  match snd partitions with
  | Some err =>
      if isPermissionError err then
        Some ([], Some (SystemErr (CreateSystemError now PermissionError "Disk"
                          "Permission denied accessing disk partitions" (Some err))))
      else if isTemporaryError err then
        Some ([], Some (SystemErr (CreateSystemError now TemporaryError "Disk"
                          "Temporary error collecting disk partitions" (Some err))))
      else
        Some ([], Some (SystemErr (CreateSystemError now SystemAccessError "Disk"
                          "Failed to collect disk partitions" (Some err))))
  | None =>
      st ← foldl diskStep (Some ([], None)) (fst partitions);
      let diskInfos := fst st in
      if 0 <? Z.of_nat (length diskInfos) then Some (diskInfos, None)
      else
        match snd st with
        | Some lastError =>
            if isPermissionError lastError then
              Some ([], Some (SystemErr (CreateSystemError now PermissionError "Disk"
                                "Permission denied accessing disk usage information"
                                (Some lastError))))
            else if isTemporaryError lastError then
              Some ([], Some (SystemErr (CreateSystemError now TemporaryError "Disk"
                                "Temporary error collecting disk usage"
                                (Some lastError))))
            else
              Some ([], Some (SystemErr (CreateSystemError now DataCollectionError "Disk"
                                "Failed to collect disk usage for any filesystem"
                                (Some lastError))))
        | None =>
            if Z.of_nat (length diskInfos) =? 0 then
              Some ([], Some (SystemErr (CreateSystemError now SystemAccessError "Disk"
                                "No accessible disk partitions found" None)))
            else Some (diskInfos, None)
        end
  end.

(** The interface names [CollectNetwork] skips. *)
Definition isLoopback (name : string) : bool :=
  String.eqb name "lo" || String.eqb name "Loopback" ||
  String.eqb name "Loopback Pseudo-Interface 1".

(** [netStats] is the result of [net.IOCounters(true)]. *)
Definition CollectNetwork (now : Go.Time)
    (netStats : list Gopsutil.IOCountersStat.t * option string)
    : list NetworkInfo.t * option GoError :=
  match snd netStats with
  | Some err =>
      if isPermissionError err then
        ([], Some (SystemErr (CreateSystemError now PermissionError "Network"
                     "Permission denied accessing network interface statistics"
                     (Some err))))
      else if isTemporaryError err then
        ([], Some (SystemErr (CreateSystemError now TemporaryError "Network"
                     "Temporary error collecting network data" (Some err))))
      else
        ([], Some (SystemErr (CreateSystemError now SystemAccessError "Network"
                     "Failed to collect network interface statistics" (Some err))))
  | None =>
      let timestamp := now in
      let networkInfos :=
        foldl
          (fun infos stat =>
             if isLoopback (Gopsutil.IOCountersStat.Name stat) then infos
             else
               infos ++
                 [NetworkInfo.mk (Gopsutil.IOCountersStat.Name stat)
                    (Gopsutil.IOCountersStat.BytesSent stat)
                    (Gopsutil.IOCountersStat.BytesRecv stat)
                    (Gopsutil.IOCountersStat.PacketsSent stat)
                    (Gopsutil.IOCountersStat.PacketsRecv stat)
                    timestamp])
          [] (fst netStats) in
      if Z.of_nat (length networkInfos) =? 0 then
        ([], Some (SystemErr (CreateSystemError now SystemAccessError "Network"
                     "No accessible network interfaces found" None)))
      else (networkInfos, None)
  end.

End WithToLower.

End Collector.

(** The entry [CollectNetwork] builds for an interface, and the entry
    [CollectDisk] builds for a partition and its usage. *)
Definition toNetworkInfo (now : Go.Time) (stat : Gopsutil.IOCountersStat.t)
    : NetworkInfo.t :=
  NetworkInfo.mk (Gopsutil.IOCountersStat.Name stat)
    (Gopsutil.IOCountersStat.BytesSent stat) (Gopsutil.IOCountersStat.BytesRecv stat)
    (Gopsutil.IOCountersStat.PacketsSent stat)
    (Gopsutil.IOCountersStat.PacketsRecv stat) now.

Definition toDiskInfo (partition : Gopsutil.PartitionStat.t)
    (usage : Gopsutil.UsageStat.t) : DiskInfo.t :=
  DiskInfo.mk (Gopsutil.PartitionStat.Device partition)
    (Gopsutil.PartitionStat.Mountpoint partition)
    (Gopsutil.PartitionStat.Fstype partition)
    (Gopsutil.UsageStat.Total usage) (Gopsutil.UsageStat.Used usage)
    (Gopsutil.UsageStat.Free usage) (Gopsutil.UsageStat.UsedPercent usage).

(** The interfaces [CollectNetwork] keeps. *)
Definition keptStats (stats : list Gopsutil.IOCountersStat.t)
    : list Gopsutil.IOCountersStat.t :=
  filter (fun stat => Collector.isLoopback (Gopsutil.IOCountersStat.Name stat) = false)
         stats.

(** A partition that [CollectDisk] reports: a real filesystem whose usage
    call succeeded; [None] for the others. *)
Definition readable
    (entry : Gopsutil.PartitionStat.t * (option Gopsutil.UsageStat.t * option string))
    : option DiskInfo.t :=
  if Collector.isSpecialFstype (Gopsutil.PartitionStat.Fstype (fst entry)) then None
  else
    match snd (snd entry) with
    | Some _ => None
    | None => toDiskInfo (fst entry) <$> fst (snd entry)
    end.

(** The contract of the library: a call that returns no error returns a
    value. *)
Definition usageContract
    (entries :
       list (Gopsutil.PartitionStat.t * (option Gopsutil.UsageStat.t * option string)))
    : Prop :=
  Forall (fun entry => snd (snd entry) = None -> is_Some (fst (snd entry))) entries.

(** The error flag and the error message of the panel of a resource. *)
Definition panelError (m : MainModel.t) (r : Resource) : bool * string :=
  match r with
  | CPU => (CPUModel.hasError (MainModel.cpu m), CPUModel.errorMessage (MainModel.cpu m))
  | Memory =>
      (MemoryModel.hasError (MainModel.memory m),
       MemoryModel.errorMessage (MainModel.memory m))
  | Disk =>
      (DiskModel.hasError (MainModel.disk m), DiskModel.errorMessage (MainModel.disk m))
  | Network =>
      (NetworkModel.hasError (MainModel.network m),
       NetworkModel.errorMessage (MainModel.network m))
  end.

(** The five handlers of [ErrorHandler], in the order of the source. *)
Definition handlers : list (Go.Time -> string -> string -> Msg) :=
  [ErrorHandler.HandleSystemError; ErrorHandler.HandleDataError;
   ErrorHandler.HandlePermissionError; ErrorHandler.HandleTemporaryError;
   ErrorHandler.HandleRenderError].

(** Whether the error event a message carries is recoverable. *)
Definition recoverable (msg : Msg) : bool :=
  match msg with
  | ErrorMsg e => SystemError.IsRecoverable e
  | _ => false
  end.

(** ** Further notions: the clock readings of [Update]

    The disk and the network panel stamp a sample with [time.Now()] when
    they apply it.  [withoutClock] is the model without these two stamps
    (they are set to 0); [readsClock] tells the messages whose [Update]
    stores a clock reading. *)

Definition diskWithoutClock (d : DiskModel.t) : DiskModel.t :=
  DiskModel.mk (DiskModel.filesystems d) 0 (DiskModel.width d) (DiskModel.height d)
    (DiskModel.styleManager d) (DiskModel.hasError d) (DiskModel.errorMessage d)
    (DiskModel.lastError d).

Definition networkWithoutClock (n : NetworkModel.t) : NetworkModel.t :=
  NetworkModel.mk (NetworkModel.interfaces n) (NetworkModel.previousData n)
    (NetworkModel.rates n) 0 (NetworkModel.width n) (NetworkModel.height n)
    (NetworkModel.styleManager n) (NetworkModel.hasError n)
    (NetworkModel.errorMessage n) (NetworkModel.lastError n).

Definition withoutClock (m : MainModel.t) : MainModel.t :=
  MainModel.mk (MainModel.cpu m) (MainModel.memory m)
    (diskWithoutClock (MainModel.disk m)) (networkWithoutClock (MainModel.network m))
    (MainModel.focused m) (MainModel.keys m) (MainModel.width m) (MainModel.height m)
    (MainModel.showHelp m) (MainModel.styleManager m) (MainModel.updateInterval m).

Definition readsClock (msg : Msg) : bool :=
  match msg with
  | DiskUpdateMsg _ | NetworkUpdateMsg _ => true
  | _ => false
  end.

(** * Properties *)

(** ** Focus navigation *)

(** C5: the forward cycle is CPU, Memory, Disk, Network and back to CPU; four
    forward steps return to the starting focus; five forward steps from CPU
    visit CPU, Memory, Disk, Network, CPU; and the backward cycle is the
    inverse of the forward cycle, on both sides, for every focus value. *)
Theorem C5_focus_cycle (m : MainModel.t) (f : FocusedComponent) :
  isFocus f ->
  let at_ (g : FocusedComponent) := MainModel.SetFocusedComponent m g in
  MainModel.nextFocus (at_ FocusCPU) = FocusMemory /\
  MainModel.nextFocus (at_ FocusMemory) = FocusDisk /\
  MainModel.nextFocus (at_ FocusDisk) = FocusNetwork /\
  MainModel.nextFocus (at_ FocusNetwork) = FocusCPU /\
  MainModel.focused (forward (forward (forward (forward (at_ f))))) = f /\
  map MainModel.focused
      [at_ FocusCPU; forward (at_ FocusCPU); forward (forward (at_ FocusCPU));
       forward (forward (forward (at_ FocusCPU)));
       forward (forward (forward (forward (at_ FocusCPU))))]
    = [FocusCPU; FocusMemory; FocusDisk; FocusNetwork; FocusCPU] /\
  MainModel.focused (backward (forward (at_ f))) = f /\
  MainModel.focused (forward (backward (at_ f))) = f.
Proof.
  intros Hf at_.
  repeat split; try reflexivity;
    destruct Hf as [-> | [-> | [-> | ->]]]; reflexivity.
Qed.

Lemma C5_focus_cycle_witness :
  let m := MainModel.NewMainModel 0 0 0 0 in
  MainModel.focused (backward (forward (MainModel.SetFocusedComponent m FocusDisk)))
    = FocusDisk.
Proof.
  intros m.
  assert (Hf : isFocus FocusDisk) by (right; right; left; reflexivity).
  destruct (C5_focus_cycle m FocusDisk Hf) as (_ & _ & _ & _ & _ & _ & Hinv & _).
  exact Hinv.
Defined.

(** A value outside the four constants falls to the default branch of every
    focus function, which answers [FocusCPU]. *)
Example focus_default_branch :
  let m := MainModel.SetFocusedComponent (MainModel.NewMainModel 0 0 0 0) 7 in
  MainModel.nextFocus m = FocusCPU /\ MainModel.prevFocus m = FocusCPU /\
  MainModel.downFocus m = FocusCPU /\ MainModel.upFocus m = FocusCPU.
Proof. repeat split; reflexivity. Qed.

(** C6: the vertical moves clamp.  Down maps CPU to Disk and Memory to
    Network and leaves Disk and Network; up maps Disk to CPU and Network to
    Memory and leaves CPU and Memory. *)
Theorem C6_vertical_focus (m : MainModel.t) :
  let at_ (g : FocusedComponent) := MainModel.SetFocusedComponent m g in
  (MainModel.downFocus (at_ FocusCPU) = FocusDisk /\
   MainModel.downFocus (at_ FocusMemory) = FocusNetwork /\
   MainModel.downFocus (at_ FocusDisk) = FocusDisk /\
   MainModel.downFocus (at_ FocusNetwork) = FocusNetwork) /\
  (MainModel.upFocus (at_ FocusDisk) = FocusCPU /\
   MainModel.upFocus (at_ FocusNetwork) = FocusMemory /\
   MainModel.upFocus (at_ FocusCPU) = FocusCPU /\
   MainModel.upFocus (at_ FocusMemory) = FocusMemory).
Proof. intros at_. repeat split; reflexivity. Qed.

(** The arrow keys of the default key map reach these functions. *)
Example down_key_from_cpu :
  MainModel.focused
    (fst (MainModel.Update 0 (MainModel.NewMainModel 0 0 0 0) (KeyMsg "down")))
  = FocusDisk.
Proof. reflexivity. Qed.

Example tab_five_times :
  let press m := fst (MainModel.Update 0 m (KeyMsg "tab")) in
  let m0 := MainModel.NewMainModel 0 0 0 0 in
  map MainModel.focused
      [m0; press m0; press (press m0); press (press (press m0));
       press (press (press (press m0)))]
  = [FocusCPU; FocusMemory; FocusDisk; FocusNetwork; FocusCPU].
Proof. reflexivity. Qed.

(** ** Layout *)

Lemma IsSmallTerminal_spec (s : StyleManager.t) :
  StyleManager.IsSmallTerminal s = true <->
  StyleManager.width s < 80 \/ StyleManager.height s < 24.
Proof.
  unfold StyleManager.IsSmallTerminal.
  rewrite orb_true_iff, !Z.ltb_lt. reflexivity.
Qed.

(** C7: for every viewport, the layout is the vertical stack of the
    non-empty panels exactly when the width is below 80 or the height below
    24, and the 2x2 grid otherwise; 79x24, 80x23 and 60x20 are stacked, 80x24
    and 120x40 are grids. *)
Theorem C7_layout_selector `{Toolkit} (s : StyleManager.t) (w h : Z)
    (panels : list string) :
  let s' := StyleManager.SetDimensions s w h in
  (StyleManager.IsSmallTerminal s' = true <-> (w < 80 \/ h < 24)) /\
  (w < 80 \/ h < 24 ->
   StyleManager.RenderResponsiveLayout s' panels
   = JoinVertical (filter (fun p => TrimSpace p <> EmptyString) panels)) /\
  (~ (w < 80 \/ h < 24) ->
   StyleManager.RenderResponsiveLayout s' panels
   = StyleManager.render2x2Layout s' panels) /\
  (forall a b c d : string,
     StyleManager.render2x2Layout s' [a; b; c; d]
     = JoinVertical [JoinHorizontal [a; " "; b]; EmptyString;
                     JoinHorizontal [c; " "; d]]%string) /\
  StyleManager.IsSmallTerminal (StyleManager.SetDimensions s 79 24) = true /\
  StyleManager.IsSmallTerminal (StyleManager.SetDimensions s 80 23) = true /\
  StyleManager.IsSmallTerminal (StyleManager.SetDimensions s 60 20) = true /\
  StyleManager.IsSmallTerminal (StyleManager.SetDimensions s 80 24) = false /\
  StyleManager.IsSmallTerminal (StyleManager.SetDimensions s 120 40) = false.
Proof.
  intros s'.
  assert (Hspec : StyleManager.IsSmallTerminal s' = true <-> (w < 80 \/ h < 24))
    by apply IsSmallTerminal_spec.
  split; [exact Hspec|].
  split.
  { intros Hsmall. apply Hspec in Hsmall.
    unfold StyleManager.RenderResponsiveLayout. rewrite Hsmall. reflexivity. }
  split.
  { intros Hbig. unfold StyleManager.RenderResponsiveLayout.
    destruct (StyleManager.IsSmallTerminal s') eqn:E; [|reflexivity].
    exfalso. apply Hbig, Hspec. reflexivity. }
  repeat split; reflexivity.
Qed.

(** The floor of [CalculateComponentDimensions], for every viewport. *)
Lemma CalculateComponentDimensions_floor (s : StyleManager.t) (w h : Z) :
  let dims :=
    StyleManager.CalculateComponentDimensions (StyleManager.SetDimensions s w h) in
  30 <= fst dims /\ 8 <= snd dims.
Proof.
  unfold StyleManager.CalculateComponentDimensions. simpl.
  split.
  - destruct (Z.ltb_spec (Go.int_div (Go.int_sub w 6) 2) 30); lia.
  - destruct (Z.ltb_spec (Go.int_div (Go.int_sub h 6) 2) 8); lia.
Qed.

(** The frame rendered by [MainModel.View] sizes its panels with
    [CalculateComponentDimensions], whatever the stored sizes are. *)
Lemma View_uses_floored_dimensions (m : MainModel.t) :
  let dims := StyleManager.CalculateComponentDimensions (MainModel.styleManager m) in
  30 <= fst dims /\ 8 <= snd dims.
Proof.
  destruct (MainModel.styleManager m) as [c w h].
  exact (CalculateComponentDimensions_floor (StyleManager.mk c w h) w h).
Qed.

(** C8: the resize path does not enforce the floor.  After a resize to 40x12
    the sizes stored in the four panels are 18 columns by 4 rows, while
    [CalculateComponentDimensions] yields 30 by 8 for the same viewport. *)
Theorem C8_resize_path_below_floor :
  let m := fst (MainModel.Update 0 (MainModel.NewMainModel 0 0 0 0)
                                 (WindowSizeMsg 40 12)) in
  (CPUModel.width (MainModel.cpu m), CPUModel.height (MainModel.cpu m)) = (18, 4) /\
  (MemoryModel.width (MainModel.memory m),
   MemoryModel.height (MainModel.memory m)) = (18, 4) /\
  (DiskModel.width (MainModel.disk m), DiskModel.height (MainModel.disk m)) = (18, 4) /\
  (NetworkModel.width (MainModel.network m),
   NetworkModel.height (MainModel.network m)) = (18, 4) /\
  StyleManager.CalculateComponentDimensions (MainModel.styleManager m) = (30, 8).
Proof. vm_compute. repeat split; reflexivity. Qed.

(** On the resize path the stored sizes are the halves of the viewport less
    3 columns and 4 rows, with no lower bound. *)
Lemma updateComponentSizes_sizes (m : MainModel.t) :
  let m' := MainModel.updateComponentSizes m in
  CPUModel.width (MainModel.cpu m')
    = Go.int_div (Go.int_sub (MainModel.width m) 3) 2 /\
  CPUModel.height (MainModel.cpu m')
    = Go.int_div (Go.int_sub (MainModel.height m) 4) 2.
Proof. split; reflexivity. Qed.

(** ** Error containment *)

(** C2: an error event that names one resource changes, through the main
    reducer, the error status of that resource's component and nothing else:
    the other three components, the data of the named component, the focus,
    the key map, the viewport and the help flag are as before. *)
Theorem C2_error_is_contained (now : Go.Time) (m : MainModel.t)
    (e : SystemError.t) (r : Resource) :
  SystemError.Component e = componentName r ->
  let m' := fst (MainModel.Update now m (ErrorMsg e)) in
  match r with
  | CPU =>
      MainModel.memory m' = MainModel.memory m /\
      MainModel.disk m' = MainModel.disk m /\
      MainModel.network m' = MainModel.network m /\
      MainModel.cpu m'
      = CPUModel.mk (CPUModel.usage (MainModel.cpu m))
          (CPUModel.history (MainModel.cpu m)) (CPUModel.total (MainModel.cpu m))
          (CPUModel.cores (MainModel.cpu m)) (CPUModel.maxHistory (MainModel.cpu m))
          (CPUModel.lastUpdate (MainModel.cpu m)) (CPUModel.width (MainModel.cpu m))
          (CPUModel.height (MainModel.cpu m))
          (CPUModel.styleManager (MainModel.cpu m))
          true (SystemError.Message e) (SystemError.Timestamp e)
  | Memory =>
      MainModel.cpu m' = MainModel.cpu m /\
      MainModel.disk m' = MainModel.disk m /\
      MainModel.network m' = MainModel.network m /\
      MainModel.memory m'
      = MemoryModel.mk (MemoryModel.total (MainModel.memory m))
          (MemoryModel.used (MainModel.memory m))
          (MemoryModel.available (MainModel.memory m))
          (MemoryModel.swap (MainModel.memory m))
          (MemoryModel.lastUpdate (MainModel.memory m))
          (MemoryModel.width (MainModel.memory m))
          (MemoryModel.height (MainModel.memory m))
          (MemoryModel.styleManager (MainModel.memory m))
          true (SystemError.Message e) (SystemError.Timestamp e)
  | Disk =>
      MainModel.cpu m' = MainModel.cpu m /\
      MainModel.memory m' = MainModel.memory m /\
      MainModel.network m' = MainModel.network m /\
      MainModel.disk m'
      = DiskModel.mk (DiskModel.filesystems (MainModel.disk m))
          (DiskModel.lastUpdate (MainModel.disk m))
          (DiskModel.width (MainModel.disk m)) (DiskModel.height (MainModel.disk m))
          (DiskModel.styleManager (MainModel.disk m))
          true (SystemError.Message e) (SystemError.Timestamp e)
  | Network =>
      MainModel.cpu m' = MainModel.cpu m /\
      MainModel.memory m' = MainModel.memory m /\
      MainModel.disk m' = MainModel.disk m /\
      MainModel.network m'
      = NetworkModel.mk (NetworkModel.interfaces (MainModel.network m))
          (NetworkModel.previousData (MainModel.network m))
          (NetworkModel.rates (MainModel.network m))
          (NetworkModel.lastUpdate (MainModel.network m))
          (NetworkModel.width (MainModel.network m))
          (NetworkModel.height (MainModel.network m))
          (NetworkModel.styleManager (MainModel.network m))
          true (SystemError.Message e) (SystemError.Timestamp e)
  end /\
  MainModel.focused m' = MainModel.focused m /\
  MainModel.keys m' = MainModel.keys m /\
  MainModel.width m' = MainModel.width m /\
  MainModel.height m' = MainModel.height m /\
  MainModel.showHelp m' = MainModel.showHelp m /\
  MainModel.styleManager m' = MainModel.styleManager m /\
  MainModel.updateInterval m' = MainModel.updateInterval m.
Proof.
  intros Hc m'. subst m'. unfold MainModel.Update.
  destruct r; simpl in Hc; rewrite Hc; simpl;
    unfold CPUModel.Update, MemoryModel.Update, DiskModel.Update,
      NetworkModel.Update; rewrite Hc; simpl;
    repeat split; reflexivity.
Qed.

Lemma C2_error_is_contained_witness :
  MainModel.cpu
    (fst (MainModel.Update 7 (MainModel.NewMainModel 0 0 0 0)
            (ErrorMsg (SystemError.mk PermissionError "access denied" "Network" 5 None))))
  = MainModel.cpu (MainModel.NewMainModel 0 0 0 0).
Proof.
  assert (Hc : SystemError.Component
                 (SystemError.mk PermissionError "access denied" "Network" 5 None)
               = componentName Network) by reflexivity.
  destruct (C2_error_is_contained 7 (MainModel.NewMainModel 0 0 0 0) _ Network Hc)
    as [(Hcpu & _) _].
  exact Hcpu.
Defined.

(** An error event that names none of the four resources changes nothing. *)
Lemma unknown_component_ignored (now : Go.Time) (m : MainModel.t) (e : SystemError.t) :
  (forall r, SystemError.Component e <> componentName r) ->
  fst (MainModel.Update now m (ErrorMsg e)) = m.
Proof.
  intros Hne. unfold MainModel.Update.
  destruct (String.eqb_spec (SystemError.Component e) "CPU") as [E|_];
    [exfalso; exact (Hne CPU E)|].
  destruct (String.eqb_spec (SystemError.Component e) "Memory") as [E|_];
    [exfalso; exact (Hne Memory E)|].
  destruct (String.eqb_spec (SystemError.Component e) "Disk") as [E|_];
    [exfalso; exact (Hne Disk E)|].
  destruct (String.eqb_spec (SystemError.Component e) "Network") as [E|_];
    [exfalso; exact (Hne Network E)|].
  reflexivity.
Qed.

(** ** Recovery *)

(** C3: in every state of a component, also one reached through any number
    of error events, a successful sample clears the error flag and the error
    message and replaces the data by the new snapshot. *)
Theorem C3_success_clears_error (now : Go.Time) (errors : list SystemError.t) :
  (forall (m : CPUModel.t) (info : CPUInfo.t),
     let m' := fst (CPUModel.Update (runCPU m (map ErrorMsg errors))
                                    (CPUUpdateMsg info)) in
     CPUModel.hasError m' = false /\ CPUModel.errorMessage m' = EmptyString /\
     CPUModel.usage m' = CPUInfo.Usage info /\
     CPUModel.total m' = CPUInfo.Total info /\
     CPUModel.cores m' = CPUInfo.Cores info /\
     CPUModel.lastUpdate m' = CPUInfo.Timestamp info) /\
  (forall (m : MemoryModel.t) (info : MemoryInfo.t),
     let m' := fst (MemoryModel.Update (runMemory m (map ErrorMsg errors))
                                       (MemoryUpdateMsg info)) in
     MemoryModel.hasError m' = false /\ MemoryModel.errorMessage m' = EmptyString /\
     MemoryModel.total m' = MemoryInfo.Total info /\
     MemoryModel.used m' = MemoryInfo.Used info /\
     MemoryModel.available m' = MemoryInfo.Available info /\
     MemoryModel.swap m' = MemoryInfo.Swap info /\
     MemoryModel.lastUpdate m' = MemoryInfo.Timestamp info) /\
  (forall (m : DiskModel.t) (info : list DiskInfo.t),
     let m' := fst (DiskModel.Update now (runDisk now m (map ErrorMsg errors))
                                     (DiskUpdateMsg info)) in
     DiskModel.hasError m' = false /\ DiskModel.errorMessage m' = EmptyString /\
     DiskModel.filesystems m' = info) /\
  (forall (m : NetworkModel.t) (info : list NetworkInfo.t),
     let m' := fst (NetworkModel.Update now (runNetwork now m (map ErrorMsg errors))
                                        (NetworkUpdateMsg info)) in
     NetworkModel.hasError m' = false /\ NetworkModel.errorMessage m' = EmptyString /\
     NetworkModel.interfaces m' = info) /\
  (forall (m : MainModel.t) (c : CPUInfo.t) (y : MemoryInfo.t)
          (d : list DiskInfo.t) (n : list NetworkInfo.t),
     CPUModel.hasError
       (MainModel.cpu (fst (MainModel.Update now m (CPUUpdateMsg c)))) = false /\
     MemoryModel.hasError
       (MainModel.memory (fst (MainModel.Update now m (MemoryUpdateMsg y)))) = false /\
     DiskModel.hasError
       (MainModel.disk (fst (MainModel.Update now m (DiskUpdateMsg d)))) = false /\
     NetworkModel.hasError
       (MainModel.network (fst (MainModel.Update now m (NetworkUpdateMsg n)))) = false).
Proof.
  repeat split; reflexivity.
Qed.

(** A failure followed by a success, through the main reducer. *)
Example cpu_fails_then_recovers :
  let e := SystemError.mk PermissionError "denied" "CPU" 1 None in
  let info := CPUInfo.mk 2 [25%float; 75%float] 50%float 2 in
  let m0 := MainModel.NewMainModel 0 0 0 0 in
  let m1 := fst (MainModel.Update 1 m0 (ErrorMsg e)) in
  let m2 := fst (MainModel.Update 2 m1 (CPUUpdateMsg info)) in
  CPUModel.hasError (MainModel.cpu m1) = true /\
  CPUModel.hasError (MainModel.cpu m2) = false /\
  CPUModel.usage (MainModel.cpu m2) = [25%float; 75%float] /\
  MainModel.memory m2 = MainModel.memory m0.
Proof. repeat split; reflexivity. Qed.

(** ** The error view *)

Section ErrorView.
Context `{Toolkit}.

Lemma CPU_error_view (m : CPUModel.t) :
  CPUModel.hasError m = true ->
  CPUModel.View m
  = Some (Go.Join (padSections (CPUModel.errorSections m) (CPUModel.height m)) newline).
Proof. intros E. unfold CPUModel.View. rewrite E. reflexivity. Qed.

Lemma Memory_error_view (m : MemoryModel.t) :
  MemoryModel.hasError m = true ->
  MemoryModel.View m
  = Some (Go.Join (padSections (MemoryModel.errorSections m) (MemoryModel.height m))
                  newline).
Proof. intros E. unfold MemoryModel.View. rewrite E. reflexivity. Qed.

Lemma Disk_error_view (m : DiskModel.t) :
  DiskModel.hasError m = true ->
  DiskModel.View m
  = Some (Go.Join (padSections (DiskModel.errorSections m) (DiskModel.height m))
                  newline).
Proof. intros E. unfold DiskModel.View. rewrite E. reflexivity. Qed.

Lemma Network_error_view (m : NetworkModel.t) :
  NetworkModel.hasError m = true ->
  NetworkModel.View m
  = Some (Go.Join (padSections (NetworkModel.errorSections m) (NetworkModel.height m))
                  newline).
Proof. intros E. unfold NetworkModel.View. rewrite E. reflexivity. Qed.

End ErrorView.

(** [strings.Join] is the library's [String.concat]. *)
Lemma Join_concat (l : list string) (sep : string) :
  Go.Join l sep = String.concat sep l.
Proof.
  induction l as [|x [|y l] IH]; [reflexivity|reflexivity|].
  change (String.append x (String.append sep (Go.Join (y :: l) sep))
          = String.append x (String.append sep (String.concat sep (y :: l)))).
  rewrite IH. reflexivity.
Qed.

(** C4: an error event for a component keeps the data the component holds,
    and the view of the component is then made of five lines, padded with
    empty lines to the height and joined by line breaks: the title rendered
    bold in the header colour, the text "Error: " followed by the message of
    the event rendered bold in the critical colour, an "unavailable" line
    rendered in the muted colour and two "N/A" lines.  It is the same for
    every model with that error message, height and style manager, whatever
    data it retains. *)
Theorem C4_error_keeps_data_and_view_hides_it `{Toolkit} (e : SystemError.t) :
  let bold := fun c : Color => Style.mk true (Some c) false None None None [] [] false in
  let plain := fun c : Color => Style.mk false (Some c) false None None None [] [] false in
  let lineBreak := String (Ascii.ascii_of_nat 10) EmptyString in
  (forall m : CPUModel.t,
     SystemError.Component e = "CPU"%string ->
     let m' := fst (CPUModel.Update m (ErrorMsg e)) in
     let sm := CPUModel.styleManager m in
     (CPUModel.usage m' = CPUModel.usage m /\
      CPUModel.history m' = CPUModel.history m /\
      CPUModel.total m' = CPUModel.total m /\
      CPUModel.cores m' = CPUModel.cores m /\
      CPUModel.lastUpdate m' = CPUModel.lastUpdate m) /\
     CPUModel.View m'
     = Some (String.concat lineBreak
               ([ Render (bold (ColorScheme.Header (StyleManager.colors sm))) "CPU Usage";
                  Render (bold (ColorScheme.Critical (StyleManager.colors sm)))
                         (String.append "Error: " (SystemError.Message e));
                  Render (plain (ColorScheme.Muted (StyleManager.colors sm))) "CPU data unavailable";
                  "Total: N/A"; "Cores: N/A" ]%string
                ++ replicate (Z.to_nat (CPUModel.height m - 5)) EmptyString)) /\
     (forall m2 : CPUModel.t,
        CPUModel.hasError m2 = true ->
        CPUModel.errorMessage m2 = SystemError.Message e ->
        CPUModel.height m2 = CPUModel.height m ->
        CPUModel.styleManager m2 = sm ->
        CPUModel.View m2 = CPUModel.View m')) /\
  (forall m : MemoryModel.t,
     SystemError.Component e = "Memory"%string ->
     let m' := fst (MemoryModel.Update m (ErrorMsg e)) in
     let sm := MemoryModel.styleManager m in
     (MemoryModel.total m' = MemoryModel.total m /\
      MemoryModel.used m' = MemoryModel.used m /\
      MemoryModel.available m' = MemoryModel.available m /\
      MemoryModel.swap m' = MemoryModel.swap m /\
      MemoryModel.lastUpdate m' = MemoryModel.lastUpdate m) /\
     MemoryModel.View m'
     = Some (String.concat lineBreak
               ([ Render (bold (ColorScheme.Header (StyleManager.colors sm))) "Memory Usage";
                  Render (bold (ColorScheme.Critical (StyleManager.colors sm)))
                         (String.append "Error: " (SystemError.Message e));
                  Render (plain (ColorScheme.Muted (StyleManager.colors sm))) "Memory data unavailable";
                  "RAM: N/A"; "Swap: N/A" ]%string
                ++ replicate (Z.to_nat (MemoryModel.height m - 5)) EmptyString)) /\
     (forall m2 : MemoryModel.t,
        MemoryModel.hasError m2 = true ->
        MemoryModel.errorMessage m2 = SystemError.Message e ->
        MemoryModel.height m2 = MemoryModel.height m ->
        MemoryModel.styleManager m2 = sm ->
        MemoryModel.View m2 = MemoryModel.View m')) /\
  (forall (now : Go.Time) (m : DiskModel.t),
     SystemError.Component e = "Disk"%string ->
     let m' := fst (DiskModel.Update now m (ErrorMsg e)) in
     let sm := DiskModel.styleManager m in
     (DiskModel.filesystems m' = DiskModel.filesystems m /\
      DiskModel.lastUpdate m' = DiskModel.lastUpdate m) /\
     DiskModel.View m'
     = Some (String.concat lineBreak
               ([ Render (bold (ColorScheme.Header (StyleManager.colors sm))) "Disk Usage";
                  Render (bold (ColorScheme.Critical (StyleManager.colors sm)))
                         (String.append "Error: " (SystemError.Message e));
                  Render (plain (ColorScheme.Muted (StyleManager.colors sm))) "Disk data unavailable";
                  "Filesystems: N/A"; "Usage: N/A" ]%string
                ++ replicate (Z.to_nat (DiskModel.height m - 5)) EmptyString)) /\
     (forall m2 : DiskModel.t,
        DiskModel.hasError m2 = true ->
        DiskModel.errorMessage m2 = SystemError.Message e ->
        DiskModel.height m2 = DiskModel.height m ->
        DiskModel.styleManager m2 = sm ->
        DiskModel.View m2 = DiskModel.View m')) /\
  (forall (now : Go.Time) (m : NetworkModel.t),
     SystemError.Component e = "Network"%string ->
     let m' := fst (NetworkModel.Update now m (ErrorMsg e)) in
     let sm := NetworkModel.styleManager m in
     (NetworkModel.interfaces m' = NetworkModel.interfaces m /\
      NetworkModel.previousData m' = NetworkModel.previousData m /\
      NetworkModel.rates m' = NetworkModel.rates m /\
      NetworkModel.lastUpdate m' = NetworkModel.lastUpdate m) /\
     NetworkModel.View m'
     = Some (String.concat lineBreak
               ([ Render (bold (ColorScheme.Header (StyleManager.colors sm))) "Network Activity";
                  Render (bold (ColorScheme.Critical (StyleManager.colors sm)))
                         (String.append "Error: " (SystemError.Message e));
                  Render (plain (ColorScheme.Muted (StyleManager.colors sm))) "Network data unavailable";
                  "Interfaces: N/A"; "Activity: N/A" ]%string
                ++ replicate (Z.to_nat (NetworkModel.height m - 5)) EmptyString)) /\
     (forall m2 : NetworkModel.t,
        NetworkModel.hasError m2 = true ->
        NetworkModel.errorMessage m2 = SystemError.Message e ->
        NetworkModel.height m2 = NetworkModel.height m ->
        NetworkModel.styleManager m2 = sm ->
        NetworkModel.View m2 = NetworkModel.View m')).
Proof.
  intros bold plain lineBreak. subst bold plain lineBreak.
  split; [|split; [|split]].
  - intros m Hc m' sm. subst m' sm.
    unfold CPUModel.Update. rewrite Hc. simpl.
    split; [repeat split; reflexivity|].
    split; [rewrite <- Join_concat; reflexivity|].
    intros m2 E Hmsg Hh Hsm. rewrite (CPU_error_view m2 E).
    unfold CPUModel.View, CPUModel.errorSections. simpl.
    rewrite Hmsg, Hh, Hsm. reflexivity.
  - intros m Hc m' sm. subst m' sm.
    unfold MemoryModel.Update. rewrite Hc. simpl.
    split; [repeat split; reflexivity|].
    split; [rewrite <- Join_concat; reflexivity|].
    intros m2 E Hmsg Hh Hsm. rewrite (Memory_error_view m2 E).
    unfold MemoryModel.View, MemoryModel.errorSections. simpl.
    rewrite Hmsg, Hh, Hsm. reflexivity.
  - intros now m Hc m' sm. subst m' sm.
    unfold DiskModel.Update. rewrite Hc. simpl.
    split; [repeat split; reflexivity|].
    split; [rewrite <- Join_concat; reflexivity|].
    intros m2 E Hmsg Hh Hsm. rewrite (Disk_error_view m2 E).
    unfold DiskModel.View, DiskModel.errorSections. simpl.
    rewrite Hmsg, Hh, Hsm. reflexivity.
  - intros now m Hc m' sm. subst m' sm.
    unfold NetworkModel.Update. rewrite Hc. simpl.
    split; [repeat split; reflexivity|].
    split; [rewrite <- Join_concat; reflexivity|].
    intros m2 E Hmsg Hh Hsm. rewrite (Network_error_view m2 E).
    unfold NetworkModel.View, NetworkModel.errorSections. simpl.
    rewrite Hmsg, Hh, Hsm. reflexivity.
Qed.

(** The CPU panel after a failure, with the plain toolkit: the usage figures
    the model still holds do not appear. *)
Example cpu_error_view_text :
  let info := CPUInfo.mk 2 [25%float; 75%float] 50%float 2 in
  let e := SystemError.mk PermissionError "denied" "CPU" 3 None in
  let m1 := fst (CPUModel.Update (CPUModel.NewCPUModel 0) (CPUUpdateMsg info)) in
  let m2 := CPUModel.SetSize (fst (CPUModel.Update m1 (ErrorMsg e))) 40 6 in
  CPUModel.usage m2 = [25%float; 75%float] /\
  @CPUModel.View plainToolkit m2
  = Some (Go.Join ["CPU Usage"; "Error: denied"; "CPU data unavailable";
                   "Total: N/A"; "Cores: N/A"; ""]%string newline).
Proof. split; reflexivity. Qed.

(** ** Manual refresh *)

(** C9: a key bound to refresh (and to neither quit nor help) leaves the
    model as it is and issues the batch [collectAllDataCmd]; a tick issues the
    same batch, followed by the command for the next tick.  Both rounds run
    the same four collect commands, which send the same messages. *)
Theorem C9_refresh_round_is_tick_round (now : Go.Time) (m : MainModel.t)
    (key : string) (t : Go.Time) :
  MainModel.containsKey (KeyMap.Quit (MainModel.keys m)) key = false ->
  MainModel.containsKey (KeyMap.Help (MainModel.keys m)) key = false ->
  MainModel.containsKey (KeyMap.Refresh (MainModel.keys m)) key = true ->
  let refresh := MainModel.Update now m (KeyMsg key) in
  let tick := MainModel.Update now m (TickMsg t) in
  fst refresh = m /\
  snd refresh = Batch [MainModel.collectAllDataCmd m] /\
  snd tick = Batch [MainModel.collectAllDataCmd m; MainModel.tickCmd m] /\
  collects (snd refresh) = [CPU; Memory; Disk; Network] /\
  collects (snd tick) = collects (snd refresh) /\
  (forall s : Sample.t,
     map (MainModel.collectMsg s) (collects (snd refresh))
     = map (MainModel.collectMsg s) (collects (snd tick))).
Proof.
  intros Hq Hh Hr refresh tick. subst refresh tick.
  unfold MainModel.Update. rewrite Hq, Hh, Hr.
  repeat split; reflexivity.
Qed.

Lemma C9_refresh_round_is_tick_round_witness :
  collects (snd (MainModel.Update 0 (MainModel.NewMainModel 0 0 0 0) (KeyMsg "r")))
  = [CPU; Memory; Disk; Network].
Proof.
  destruct (C9_refresh_round_is_tick_round 0 (MainModel.NewMainModel 0 0 0 0) "r" 1
              eq_refl eq_refl eq_refl) as (_ & _ & _ & Hc & _).
  exact Hc.
Defined.

(** ** The rate calculation *)

Section RateFacts.

Lemma calculateRates_unfold (m : NetworkModel.t) previous current :
  NetworkModel.calculateRates m previous current
  = foldl (rateStep (prevMapOf previous)) ∅ current.
Proof. reflexivity. Qed.

Lemma CalculateNetworkRates_unfold previous current :
  GopsutilCollector.CalculateNetworkRates previous current
  = foldl (rateStep (prevMapOf previous)) ∅ current.
Proof. reflexivity. Qed.

(** The model and the collector compute the same rates. *)
Lemma calculateRates_same (m : NetworkModel.t) previous current :
  NetworkModel.calculateRates m previous current
  = GopsutilCollector.CalculateNetworkRates previous current.
Proof. reflexivity. Qed.

Lemma prevMapOf_snoc previous prev :
  prevMapOf (previous ++ [prev])
  = <[NetworkInfo.Interface prev := prev]> (prevMapOf previous).
Proof. unfold prevMapOf. rewrite foldl_snoc. reflexivity. Qed.

Lemma prevMapOf_lookup previous prev :
  NoDup (NetworkInfo.Interface <$> previous) ->
  prev ∈ previous ->
  prevMapOf previous !! NetworkInfo.Interface prev = Some prev.
Proof.
  induction previous as [|x l IH] using rev_ind; intros Hnd Hin.
  - inversion Hin.
  - rewrite prevMapOf_snoc.
    rewrite fmap_app in Hnd. apply NoDup_app in Hnd as (Hl & Hsep & _).
    apply elem_of_app in Hin as [Hin | Hin].
    + rewrite lookup_insert_ne; [apply IH; assumption|].
      intros Heq. apply (Hsep (NetworkInfo.Interface prev)).
      * apply list_elem_of_fmap_2. exact Hin.
      * rewrite <- Heq. simpl. apply list_elem_of_singleton. reflexivity.
    + apply list_elem_of_singleton in Hin. subst x. apply lookup_insert_eq.
Qed.

(** An interface missing from [previous] has no previous measurement. *)
Lemma prevMapOf_lookup_None previous name :
  name ∉ (NetworkInfo.Interface <$> previous) ->
  prevMapOf previous !! name = None.
Proof.
  induction previous as [|x l IH] using rev_ind; intros Hnot.
  - reflexivity.
  - rewrite prevMapOf_snoc. rewrite fmap_app in Hnot.
    apply not_elem_of_app in Hnot as [Hl Hx].
    rewrite lookup_insert_ne; [apply IH; exact Hl|].
    intros Heq. apply Hx. simpl. rewrite Heq.
    apply list_elem_of_singleton. reflexivity.
Qed.

Lemma rateStep_other pm rates curr name :
  name <> NetworkInfo.Interface curr ->
  rateStep pm rates curr !! name = rates !! name.
Proof.
  intros Hne. unfold rateStep.
  destruct (pm !! NetworkInfo.Interface curr) as [prev|]; [|reflexivity].
  destruct (PrimFloat.ltb 0 (timeDiffOf curr prev)); [|reflexivity].
  apply lookup_insert_ne. congruence.
Qed.

Lemma rates_lookup pm current curr prev :
  pm !! NetworkInfo.Interface curr = Some prev ->
  PrimFloat.ltb 0%float (timeDiffOf curr prev) = true ->
  NoDup (NetworkInfo.Interface <$> current) ->
  curr ∈ current ->
  foldl (rateStep pm) ∅ current !! NetworkInfo.Interface curr
  = Some (statsOf curr prev).
Proof.
  intros Hpm Hdt.
  induction current as [|x l IH] using rev_ind; intros Hnd Hin.
  - inversion Hin.
  - rewrite foldl_snoc.
    rewrite fmap_app in Hnd. apply NoDup_app in Hnd as (Hl & Hsep & _).
    apply elem_of_app in Hin as [Hin | Hin].
    + rewrite rateStep_other; [apply IH; assumption|].
      intros Heq. apply (Hsep (NetworkInfo.Interface curr)).
      * apply list_elem_of_fmap_2. exact Hin.
      * rewrite Heq. simpl. apply list_elem_of_singleton. reflexivity.
    + apply list_elem_of_singleton in Hin. subst x.
      unfold rateStep at 1. rewrite Hpm, Hdt. apply lookup_insert_eq.
Qed.

(** Only interfaces of [previous] get a rate. *)
Lemma rates_lookup_None pm current name :
  pm !! name = None ->
  foldl (rateStep pm) ∅ current !! name = None.
Proof.
  intros Hpm. induction current as [|x l IH] using rev_ind.
  - reflexivity.
  - rewrite foldl_snoc.
    destruct (decide (name = NetworkInfo.Interface x)) as [->|Hne].
    + unfold rateStep at 1. rewrite Hpm. exact IH.
    + rewrite rateStep_other; assumption.
Qed.

Lemma uint64_sub_no_wrap (c p : Z) :
  Go.is_uint64 c -> Go.is_uint64 p -> p <= c -> Go.uint64_sub c p = c - p.
Proof.
  unfold Go.is_uint64, Go.uint64_sub. intros Hc Hp Hle.
  apply Z.mod_small. lia.
Qed.

End RateFacts.

(** C1: for snapshot lists that name each interface once, an interface
    present in both lists, with counters in the range of [uint64] and a
    strictly positive time difference [dt] in seconds, gets a rate entry whose
    send rate is the counter difference divided by [dt] when the sent counter
    did not decrease and 0 when it decreased, and likewise, independently, for
    the receive rate.  The calculation is total: a decreased counter is not
    an error.  The model's and the collector's calculation agree. *)
Theorem C1_rate_calculation (m : NetworkModel.t)
    (previous current : list NetworkInfo.t) (prev curr : NetworkInfo.t) :
  NoDup (NetworkInfo.Interface <$> previous) ->
  NoDup (NetworkInfo.Interface <$> current) ->
  prev ∈ previous ->
  curr ∈ current ->
  NetworkInfo.Interface curr = NetworkInfo.Interface prev ->
  Go.is_uint64 (NetworkInfo.BytesSent prev) ->
  Go.is_uint64 (NetworkInfo.BytesSent curr) ->
  Go.is_uint64 (NetworkInfo.BytesRecv prev) ->
  Go.is_uint64 (NetworkInfo.BytesRecv curr) ->
  let dt :=
    Go.Seconds (Go.Sub (NetworkInfo.Timestamp curr) (NetworkInfo.Timestamp prev)) in
  PrimFloat.ltb 0%float dt = true ->
  exists stats : NetworkStats.t,
    NetworkModel.calculateRates m previous current !! NetworkInfo.Interface curr
      = Some stats /\
    GopsutilCollector.CalculateNetworkRates previous current
      !! NetworkInfo.Interface curr = Some stats /\
    (NetworkInfo.BytesSent prev <= NetworkInfo.BytesSent curr ->
     NetworkStats.SendRate stats
     = PrimFloat.div
         (Go.float64 (NetworkInfo.BytesSent curr - NetworkInfo.BytesSent prev)) dt) /\
    (NetworkInfo.BytesSent curr < NetworkInfo.BytesSent prev ->
     NetworkStats.SendRate stats = 0%float) /\
    (NetworkInfo.BytesRecv prev <= NetworkInfo.BytesRecv curr ->
     NetworkStats.RecvRate stats
     = PrimFloat.div
         (Go.float64 (NetworkInfo.BytesRecv curr - NetworkInfo.BytesRecv prev)) dt) /\
    (NetworkInfo.BytesRecv curr < NetworkInfo.BytesRecv prev ->
     NetworkStats.RecvRate stats = 0%float).
Proof.
  intros Hndp Hndc Hinp Hinc Hname Hsp Hsc Hrp Hrc dt Hdt.
  exists (statsOf curr prev).
  assert (Hlook : foldl (rateStep (prevMapOf previous)) ∅ current
                    !! NetworkInfo.Interface curr = Some (statsOf curr prev)).
  { apply rates_lookup; try assumption.
    rewrite Hname. apply prevMapOf_lookup; assumption. }
  split; [rewrite calculateRates_unfold; exact Hlook|].
  split; [rewrite CalculateNetworkRates_unfold; exact Hlook|].
  unfold statsOf, timeDiffOf. fold dt. simpl.
  repeat split; intros Hcmp.
  - apply Z.leb_le in Hcmp as Hb. rewrite Hb.
    rewrite uint64_sub_no_wrap by assumption. reflexivity.
  - apply Z.leb_gt in Hcmp. rewrite Hcmp. reflexivity.
  - apply Z.leb_le in Hcmp as Hb. rewrite Hb.
    rewrite uint64_sub_no_wrap by assumption. reflexivity.
  - apply Z.leb_gt in Hcmp. rewrite Hcmp. reflexivity.
Qed.

Lemma C1_rate_calculation_witness :
  exists stats : NetworkStats.t,
    NetworkModel.calculateRates (NetworkModel.NewNetworkModel 0)
      [eth0_before] [eth0_after] !! "eth0"%string = Some stats /\
    NetworkStats.SendRate stats = 1024%float /\
    NetworkStats.RecvRate stats = 2048%float.
Proof.
  destruct (C1_rate_calculation (NetworkModel.NewNetworkModel 0)
              [eth0_before] [eth0_after] eth0_before eth0_after)
    as (stats & Hmodel & _ & Hsend & _ & Hrecv & _).
  - apply NoDup_singleton.
  - apply NoDup_singleton.
  - apply list_elem_of_singleton. reflexivity.
  - apply list_elem_of_singleton. reflexivity.
  - reflexivity.
  - unfold Go.is_uint64. simpl. lia.
  - unfold Go.is_uint64. simpl. lia.
  - unfold Go.is_uint64. simpl. lia.
  - unfold Go.is_uint64. simpl. lia.
  - vm_compute. reflexivity.
  - exists stats. split; [exact Hmodel|]. split.
    + rewrite Hsend by (simpl; lia). vm_compute. reflexivity.
    + rewrite Hrecv by (simpl; lia). vm_compute. reflexivity.
Defined.

(** The same scenario computed by the code, and a wrapped send counter:
    the send rate is 0, the receive rate is not affected. *)
Example rates_scenario :
  GopsutilCollector.CalculateNetworkRates [eth0_before] [eth0_after] !! "eth0"%string
  = Some (NetworkStats.mk 1024%float 2048%float).
Proof. vm_compute. reflexivity. Qed.

Example rates_wraparound :
  GopsutilCollector.CalculateNetworkRates
    [NetworkInfo.mk "eth0" 4294967000 2000000 10 20 0]
    [NetworkInfo.mk "eth0" 704 2002048 12 24 1000000000] !! "eth0"%string
  = Some (NetworkStats.mk 0%float 2048%float).
Proof. vm_compute. reflexivity. Qed.

(** An interface that is new in [current], or whose time difference is not
    positive, gets no entry. *)
Example rates_new_interface :
  GopsutilCollector.CalculateNetworkRates
    [eth0_before] [eth0_after; NetworkInfo.mk "wlan0" 5 5 1 1 1000000000]
    !! "wlan0"%string = None.
Proof. vm_compute. reflexivity. Qed.

Example rates_same_instant :
  GopsutilCollector.CalculateNetworkRates [eth0_before] [eth0_before] !! "eth0"%string
  = None.
Proof. vm_compute. reflexivity. Qed.

(** ** The CPU history *)

Section HistoryFacts.

Variable maxH : Z.

Lemma addUsage_length history i u :
  length (CPUModel.addUsage maxH history i u) = length history.
Proof.
  unfold CPUModel.addUsage. destruct (history !! i); [|reflexivity].
  apply length_insert.
Qed.

Lemma addUsage_lookup_eq history i u h :
  history !! i = Some h ->
  CPUModel.addUsage maxH history i u !! i = Some (pushed maxH h u).
Proof.
  intros Hh. unfold CPUModel.addUsage. rewrite Hh.
  apply list_lookup_insert_eq. eapply lookup_lt_Some. exact Hh.
Qed.

Lemma addUsage_lookup_ne history i j u :
  i <> j -> CPUModel.addUsage maxH history i u !! j = history !! j.
Proof.
  intros Hne. unfold CPUModel.addUsage. destruct (history !! i); [|reflexivity].
  apply list_lookup_insert_ne. exact Hne.
Qed.

Lemma addAll_cons k history u usage :
  addAll maxH k history (u :: usage)
  = addAll maxH (S k) (CPUModel.addUsage maxH history k u) usage.
Proof.
  unfold addAll. rewrite imap_cons. simpl.
  replace (k + 0)%nat with k by lia.
  f_equal. apply imap_ext. intros j x _. simpl. f_equal. lia.
Qed.

Lemma addAll_length usage : forall k history,
  length (addAll maxH k history usage) = length history.
Proof.
  induction usage as [|u usage IH]; intros k history.
  - reflexivity.
  - rewrite addAll_cons, IH. apply addUsage_length.
Qed.

(** Cores below the first index of the loop are not touched. *)
Lemma addAll_lookup_below usage : forall k history j,
  (j < k)%nat -> addAll maxH k history usage !! j = history !! j.
Proof.
  induction usage as [|u usage IH]; intros k history j Hlt.
  - reflexivity.
  - rewrite addAll_cons, IH by lia. apply addUsage_lookup_ne. lia.
Qed.

(** Each core with a usage value and a history gets that value pushed, once. *)
Lemma addAll_lookup usage : forall k history i u h,
  usage !! i = Some u ->
  history !! (k + i)%nat = Some h ->
  addAll maxH k history usage !! (k + i)%nat = Some (pushed maxH h u).
Proof.
  induction usage as [|x usage IH]; intros k history i u h Hu Hh.
  - inversion Hu.
  - rewrite addAll_cons. destruct i as [|i].
    + simpl in Hu. injection Hu as ->.
      replace (k + 0)%nat with k in * by lia.
      rewrite addAll_lookup_below by lia.
      apply addUsage_lookup_eq. exact Hh.
    + simpl in Hu.
      replace (k + S i)%nat with (S k + i)%nat in * by lia.
      apply IH; [exact Hu|].
      rewrite addUsage_lookup_ne by lia. exact Hh.
Qed.

Lemma pushed_length h u :
  0 <= maxH -> Z.of_nat (length h) <= maxH -> Z.of_nat (length (pushed maxH h u)) <= maxH.
Proof.
  intros H0 Hle. unfold pushed.
  destruct (Z.ltb_spec maxH (Z.of_nat (length (h ++ [u])))) as [Hgt|Hok].
  - rewrite length_drop, length_app. simpl. lia.
  - exact Hok.
Qed.

Lemma addUsage_bounded history i u :
  0 <= maxH -> bounded maxH history -> bounded maxH (CPUModel.addUsage maxH history i u).
Proof.
  intros H0 Hb. unfold CPUModel.addUsage.
  destruct (history !! i) as [h|] eqn:Hh; [|exact Hb].
  apply Forall_insert; [exact Hb|].
  apply (pushed_length h u H0).
  unfold bounded in Hb. rewrite Forall_lookup in Hb. exact (Hb i h Hh).
Qed.

Lemma addAll_bounded usage : forall k history,
  0 <= maxH -> bounded maxH history -> bounded maxH (addAll maxH k history usage).
Proof.
  induction usage as [|u usage IH]; intros k history H0 Hb.
  - exact Hb.
  - rewrite addAll_cons. apply IH; [exact H0|].
    apply addUsage_bounded; assumption.
Qed.

End HistoryFacts.

(** The history after a successful update, in terms of [addAll]. *)
Lemma Update_history (m : CPUModel.t) (info : CPUInfo.t) :
  CPUModel.history (fst (CPUModel.Update m (CPUUpdateMsg info)))
  = if 0 <? Z.of_nat (length (CPUInfo.Usage info)) then
      addAll (CPUModel.maxHistory m) 0
        (if Z.of_nat (length (CPUModel.history m)) =? 0
         then replicate (length (CPUInfo.Usage info)) []
         else CPUModel.history m)
        (CPUInfo.Usage info)
    else CPUModel.history m.
Proof. reflexivity. Qed.

Lemma Update_maxHistory (m : CPUModel.t) (msg : Msg) :
  CPUModel.maxHistory (fst (CPUModel.Update m msg)) = CPUModel.maxHistory m.
Proof.
  destruct msg; try reflexivity.
  simpl. destruct (String.eqb (SystemError.Component e) "CPU"); reflexivity.
Qed.

Lemma Update_bounded (m : CPUModel.t) (msg : Msg) :
  0 <= CPUModel.maxHistory m ->
  bounded (CPUModel.maxHistory m) (CPUModel.history m) ->
  bounded (CPUModel.maxHistory m) (CPUModel.history (fst (CPUModel.Update m msg))).
Proof.
  intros H0 Hb. destruct msg; try exact Hb.
  - rewrite Update_history.
    destruct (0 <? Z.of_nat (length (CPUInfo.Usage info))); [|exact Hb].
    apply addAll_bounded; [exact H0|].
    destruct (Z.of_nat (length (CPUModel.history m)) =? 0); [|exact Hb].
    apply Forall_replicate. simpl. exact H0.
  - simpl. destruct (String.eqb (SystemError.Component e) "CPU"); exact Hb.
Qed.

Lemma runCPU_invariant (now : Go.Time) (msgs : list Msg) :
  CPUModel.maxHistory (runCPU (CPUModel.NewCPUModel now) msgs) = 60 /\
  bounded 60 (CPUModel.history (runCPU (CPUModel.NewCPUModel now) msgs)).
Proof.
  induction msgs as [|msg msgs IH] using rev_ind.
  - split; [reflexivity|constructor].
  - unfold runCPU in *. rewrite foldl_snoc.
    destruct IH as [Hmax Hb]. split.
    + rewrite Update_maxHistory. exact Hmax.
    + rewrite <- Hmax at 1. apply Update_bounded; rewrite Hmax; [lia|exact Hb].
Qed.

(** C10: from a new CPU model, after any sequence of messages, the bound is
    60 and every core's history has at most 60 entries.  A further successful
    update appends the core's usage to its history while there is room and,
    once 60 entries are held, drops the oldest and appends, so the history is
    the most recent samples in order; the first update with usage values
    starts one history per core. *)
Theorem C10_history_bounded (now : Go.Time) (msgs : list Msg) :
  let m := runCPU (CPUModel.NewCPUModel now) msgs in
  CPUModel.maxHistory m = 60 /\
  Forall (fun h : list float => (length h <= 60)%nat) (CPUModel.history m) /\
  (forall (info : CPUInfo.t) (i : nat) (h : list float) (u : float),
     CPUModel.history m !! i = Some h ->
     CPUInfo.Usage info !! i = Some u ->
     CPUModel.history (fst (CPUModel.Update m (CPUUpdateMsg info))) !! i
     = Some (if (length h <? 60)%nat then h ++ [u] else drop 1 h ++ [u])) /\
  (forall (info : CPUInfo.t) (i : nat) (u : float),
     CPUModel.history m = [] ->
     CPUInfo.Usage info !! i = Some u ->
     CPUModel.history (fst (CPUModel.Update m (CPUUpdateMsg info))) !! i
     = Some [u]).
Proof.
  intros m. destruct (runCPU_invariant now msgs) as [Hmax Hb]. fold m in Hmax, Hb.
  split; [exact Hmax|].
  split.
  { unfold bounded in Hb. eapply Forall_impl; [exact Hb|]. simpl. intros h Hh. lia. }
  split.
  - intros info i h u Hh Hu. rewrite Update_history, Hmax.
    assert (Hlen : (0 < length (CPUInfo.Usage info))%nat).
    { apply lookup_lt_Some in Hu. lia. }
    assert (Hhist : (0 < length (CPUModel.history m))%nat).
    { apply lookup_lt_Some in Hh. lia. }
    destruct (Z.ltb_spec 0 (Z.of_nat (length (CPUInfo.Usage info)))); [|lia].
    destruct (Z.eqb_spec (Z.of_nat (length (CPUModel.history m))) 0); [lia|].
    pose proof (addAll_lookup 60 (CPUInfo.Usage info) 0 (CPUModel.history m) i u h Hu Hh)
      as Hpush.
    simpl in Hpush. rewrite Hpush.
    f_equal. unfold pushed.
    assert (Hle : Z.of_nat (length h) <= 60).
    { unfold bounded in Hb. rewrite Forall_lookup in Hb. exact (Hb i h Hh). }
    rewrite length_app. simpl.
    destruct (Nat.ltb_spec (length h) 60) as [Hroom|Hfull].
    + destruct (Z.ltb_spec 60 (Z.of_nat (length h + 1))); [lia|reflexivity].
    + destruct (Z.ltb_spec 60 (Z.of_nat (length h + 1))); [|lia].
      destruct h as [|x h]; [simpl in Hfull; lia|reflexivity].
  - intros info i u Hempty Hu. rewrite Update_history, Hmax, Hempty.
    assert (Hlen : (i < length (CPUInfo.Usage info))%nat).
    { apply lookup_lt_Some in Hu. exact Hu. }
    destruct (Z.ltb_spec 0 (Z.of_nat (length (CPUInfo.Usage info)))); [|lia].
    simpl.
    assert (Hrow : replicate (length (CPUInfo.Usage info)) ([] : list float) !! (0 + i)%nat
                   = Some []).
    { simpl. apply lookup_replicate_2. exact Hlen. }
    pose proof (addAll_lookup 60 (CPUInfo.Usage info) 0 _ i u [] Hu Hrow) as Hpush.
    simpl in Hpush. exact Hpush.
Qed.

(** Sixty-one updates of a single core: the history keeps the last sixty
    values, the first one is gone. *)
Example history_after_61_updates :
  let sample (k : Z) := CPUUpdateMsg (CPUInfo.mk 1 [Go.float64 k] (Go.float64 k) k) in
  let m := runCPU (CPUModel.NewCPUModel 0) (map sample (map Z.of_nat (seq 0 61))) in
  CPUModel.history m = [map Go.float64 (map Z.of_nat (seq 1 60))].
Proof. vm_compute. reflexivity. Qed.

(** When a list names an interface twice, the later entry wins in both
    loops; the statement of the rate calculation is for lists that name each
    interface once. *)
Example rates_duplicate_names :
  GopsutilCollector.CalculateNetworkRates
    [eth0_before]
    [eth0_after; NetworkInfo.mk "eth0" 1004096 2000000 14 28 2000000000]
    !! "eth0"%string
  = Some (NetworkStats.mk 2048%float 0%float).
Proof. vm_compute. reflexivity. Qed.

(** * Further properties of the reducer *)

(** X1: [containsKey] is list membership. *)
Theorem containsKey_elem_of (keys : list string) (key : string) :
  MainModel.containsKey keys key = true <-> key ∈ keys.
Proof.
  induction keys as [|k keys IH]; simpl.
  - split; [discriminate|]. intros Hin. inversion Hin.
  - destruct (String.eqb_spec k key) as [->|Hne].
    + split; [intros _; apply elem_of_cons; left; reflexivity|reflexivity].
    + rewrite IH, elem_of_cons. split.
      * intros Hin. right. exact Hin.
      * intros [Heq|Hin]; [congruence|exact Hin].
Qed.

Lemma Update_focus_valid (now : Go.Time) (m : MainModel.t) (msg : Msg) :
  isFocus (MainModel.focused m) ->
  isFocus (MainModel.focused (fst (MainModel.Update now m msg))).
Proof.
  intros Hf.
  assert (Hnext : isFocus (MainModel.nextFocus m)).
  { destruct Hf as [E | [E | [E | E]]]; unfold MainModel.nextFocus; rewrite E;
      vm_compute; tauto. }
  assert (Hprev : isFocus (MainModel.prevFocus m)).
  { destruct Hf as [E | [E | [E | E]]]; unfold MainModel.prevFocus; rewrite E;
      vm_compute; tauto. }
  assert (Hdown : isFocus (MainModel.downFocus m)).
  { destruct Hf as [E | [E | [E | E]]]; unfold MainModel.downFocus; rewrite E;
      vm_compute; tauto. }
  assert (Hup : isFocus (MainModel.upFocus m)).
  { destruct Hf as [E | [E | [E | E]]]; unfold MainModel.upFocus; rewrite E;
      vm_compute; tauto. }
  destruct msg; simpl; try exact Hf.
  - repeat (match goal with
            | |- context [if ?b then _ else _] => destruct b
            end; simpl; try assumption).
  - repeat (match goal with
            | |- context [if ?b then _ else _] => destruct b
            end; simpl; try assumption).
Qed.

(** X2: the focus of a run stays one of CPU, Memory, Disk and Network,
    whatever messages arrive and whatever the key map binds. *)
Theorem focus_stays_valid (m : MainModel.t) (steps : list (Go.Time * Msg)) :
  isFocus (MainModel.focused m) ->
  isFocus (MainModel.focused (runMain m steps)).
Proof.
  intros Hf. induction steps as [|step steps IH] using rev_ind.
  - exact Hf.
  - unfold runMain in *. rewrite foldl_snoc. apply Update_focus_valid. exact IH.
Qed.

Lemma focus_stays_valid_witness :
  isFocus (MainModel.focused
             (runMain (MainModel.NewMainModel 0 0 0 0)
                      [(1, KeyMsg "tab"); (2, KeyMsg "down"); (3, KeyMsg "left")])).
Proof.
  apply focus_stays_valid. left. reflexivity.
Defined.

(** X3: a key bound to help (and not to quit) flips the help flag and
    changes nothing else, whatever else the key is bound to; pressing it
    twice gives the model back. *)
Theorem help_key_toggles (now now' : Go.Time) (m : MainModel.t) (key : string) :
  MainModel.containsKey (KeyMap.Quit (MainModel.keys m)) key = false ->
  MainModel.containsKey (KeyMap.Help (MainModel.keys m)) key = true ->
  let m1 := fst (MainModel.Update now m (KeyMsg key)) in
  let m2 := fst (MainModel.Update now' m1 (KeyMsg key)) in
  m1 = MainModel.SetShowHelp m (negb (MainModel.showHelp m)) /\
  MainModel.focused m1 = MainModel.focused m /\
  m2 = m.
Proof.
  intros Hq Hh m1 m2. subst m2 m1.
  assert (E1 : MainModel.Update now m (KeyMsg key)
               = (MainModel.SetShowHelp m (negb (MainModel.showHelp m)), Batch [])).
  { unfold MainModel.Update. rewrite Hq, Hh. reflexivity. }
  rewrite E1. simpl.
  split; [reflexivity|]. split; [reflexivity|].
  rewrite Hq, Hh. simpl.
  destruct m. unfold MainModel.SetShowHelp. simpl.
  rewrite negb_involutive. reflexivity.
Qed.

(** In the default key map "h" is bound to help and to left: it toggles the
    help and never moves the focus. *)
Lemma help_key_toggles_witness :
  let m := MainModel.SetFocusedComponent (MainModel.NewMainModel 0 0 0 0) FocusDisk in
  MainModel.focused (fst (MainModel.Update 1 m (KeyMsg "h"))) = FocusDisk.
Proof.
  intros m.
  destruct (help_key_toggles 1 2 m "h" eq_refl eq_refl) as (_ & Hfocus & _).
  exact Hfocus.
Defined.

(** X4: no message other than a resize changes more than one of the four
    components. *)
Theorem one_component_per_message (now : Go.Time) (m : MainModel.t) (msg : Msg) :
  (forall w h, msg <> WindowSizeMsg w h) ->
  let m' := fst (MainModel.Update now m msg) in
  (MainModel.memory m' = MainModel.memory m /\ MainModel.disk m' = MainModel.disk m /\
   MainModel.network m' = MainModel.network m) \/
  (MainModel.cpu m' = MainModel.cpu m /\ MainModel.disk m' = MainModel.disk m /\
   MainModel.network m' = MainModel.network m) \/
  (MainModel.cpu m' = MainModel.cpu m /\ MainModel.memory m' = MainModel.memory m /\
   MainModel.network m' = MainModel.network m) \/
  (MainModel.cpu m' = MainModel.cpu m /\ MainModel.memory m' = MainModel.memory m /\
   MainModel.disk m' = MainModel.disk m).
Proof.
  intros Hnot m'. subst m'.
  destruct msg; simpl; try (left; repeat split; reflexivity).
  - exfalso. exact (Hnot Width Height eq_refl).
  - repeat (match goal with
            | |- context [if ?b then _ else _] => destruct b
            end; simpl);
      left; repeat split; reflexivity.
  - right. left. repeat split; reflexivity.
  - right. right. left. repeat split; reflexivity.
  - right. right. right. repeat split; reflexivity.
  - destruct (String.eqb (SystemError.Component e) "CPU");
      [left; repeat split; reflexivity|].
    destruct (String.eqb (SystemError.Component e) "Memory");
      [right; left; repeat split; reflexivity|].
    destruct (String.eqb (SystemError.Component e) "Disk");
      [right; right; left; repeat split; reflexivity|].
    destruct (String.eqb (SystemError.Component e) "Network");
      [right; right; right; repeat split; reflexivity|].
    left. repeat split; reflexivity.
Qed.

Lemma one_component_per_message_witness :
  let m := MainModel.NewMainModel 0 0 0 0 in
  let m' := fst (MainModel.Update 5 m (NetworkUpdateMsg [eth0_before])) in
  MainModel.cpu m' = MainModel.cpu m /\ MainModel.memory m' = MainModel.memory m /\
  MainModel.disk m' = MainModel.disk m.
Proof.
  intros m m'.
  assert (Hnot : forall w h, NetworkUpdateMsg [eth0_before] <> WindowSizeMsg w h)
    by (intros w h; discriminate).
  destruct (one_component_per_message 5 m _ Hnot) as [H | [H | [H | H]]];
    repeat split; reflexivity.
Defined.

(** X5: a resize stores the viewport in the model and in its style manager
    and gives each panel half of the viewport less 3 columns and less 4 rows;
    every other field of the model and of the four panels is the one before
    the resize: focus, key map, help flag and update interval, the samples,
    histories, totals, previous network sample and rates, the time stamps,
    the panels' style managers and their error states.  No command is issued,
    and of two resizes in a row only the second one counts. *)
Theorem resize_last_wins (now now' : Go.Time) (m : MainModel.t) (a b c d : Z) :
  let m1 := fst (MainModel.Update now m (WindowSizeMsg a b)) in
  let pw := Go.int_div (Go.int_sub a 3) 2 in
  let ph := Go.int_div (Go.int_sub b 4) 2 in
  let cpu := MainModel.cpu m in
  let memory := MainModel.memory m in
  let disk := MainModel.disk m in
  let network := MainModel.network m in
  m1 = MainModel.mk
         (CPUModel.mk (CPUModel.usage cpu) (CPUModel.history cpu) (CPUModel.total cpu)
            (CPUModel.cores cpu) (CPUModel.maxHistory cpu) (CPUModel.lastUpdate cpu)
            pw ph (CPUModel.styleManager cpu) (CPUModel.hasError cpu)
            (CPUModel.errorMessage cpu) (CPUModel.lastError cpu))
         (MemoryModel.mk (MemoryModel.total memory) (MemoryModel.used memory)
            (MemoryModel.available memory) (MemoryModel.swap memory)
            (MemoryModel.lastUpdate memory) pw ph (MemoryModel.styleManager memory)
            (MemoryModel.hasError memory) (MemoryModel.errorMessage memory)
            (MemoryModel.lastError memory))
         (DiskModel.mk (DiskModel.filesystems disk) (DiskModel.lastUpdate disk)
            pw ph (DiskModel.styleManager disk) (DiskModel.hasError disk)
            (DiskModel.errorMessage disk) (DiskModel.lastError disk))
         (NetworkModel.mk (NetworkModel.interfaces network)
            (NetworkModel.previousData network) (NetworkModel.rates network)
            (NetworkModel.lastUpdate network) pw ph (NetworkModel.styleManager network)
            (NetworkModel.hasError network) (NetworkModel.errorMessage network)
            (NetworkModel.lastError network))
         (MainModel.focused m) (MainModel.keys m) a b (MainModel.showHelp m)
         (StyleManager.mk (StyleManager.colors (MainModel.styleManager m)) a b)
         (MainModel.updateInterval m) /\
  snd (MainModel.Update now m (WindowSizeMsg a b)) = Batch [] /\
  fst (MainModel.Update now' m1 (WindowSizeMsg c d))
    = fst (MainModel.Update now' m (WindowSizeMsg c d)).
Proof.
  intros m1 pw ph cpu memory disk network.
  subst m1 pw ph cpu memory disk network.
  repeat split; reflexivity.
Qed.

Lemma Update_wellFormed (interval : Go.Duration) (now : Go.Time) (m : MainModel.t)
    (msg : Msg) :
  wellFormed interval m -> wellFormed interval (fst (MainModel.Update now m msg)).
Proof.
  unfold wellFormed.
  intros (Hk & Hi & Hs & Hc & Hm & Hd & Hn & Hh).
  destruct msg; simpl; try (repeat split; assumption).
  - rewrite Hs. simpl. repeat split; assumption.
  - repeat (match goal with
            | |- context [if ?b then _ else _] => destruct b
            end; simpl);
      repeat split; assumption.
  - repeat (match goal with
            | |- context [if ?b then _ else _] => destruct b
            end; simpl);
      repeat split; assumption.
Qed.

(** X6: in every model reached from a new main model the key map is the
    default one, the tick interval is the configured one, the main style
    manager holds the current viewport, the style managers of the four
    panels are still the initial 80x24 ones (a resize never reaches them),
    and the history bound is 60. *)
Theorem reachable_wellFormed (t1 t2 t3 t4 : Go.Time) (interval : Go.Duration)
    (steps : list (Go.Time * Msg)) :
  wellFormed interval
    (runMain (MainModel.NewMainModelWithConfig t1 t2 t3 t4 interval) steps).
Proof.
  induction steps as [|step steps IH] using rev_ind.
  - unfold wellFormed. repeat split; reflexivity.
  - unfold runMain in *. rewrite foldl_snoc. apply Update_wellFormed. exact IH.
Qed.

(** X7: the frame does not depend on the sizes stored in the panels: the
    sizes the resize path stores are replaced by those of
    [CalculateComponentDimensions] before the panels are rendered. *)
Theorem View_ignores_stored_sizes `{Toolkit} (m : MainModel.t)
    (cw ch mw mh dw dh nw nh : Z) :
  MainModel.View
    (MainModel.mk (CPUModel.SetSize (MainModel.cpu m) cw ch)
       (MemoryModel.SetSize (MainModel.memory m) mw mh)
       (DiskModel.SetSize (MainModel.disk m) dw dh)
       (NetworkModel.SetSize (MainModel.network m) nw nh)
       (MainModel.focused m) (MainModel.keys m) (MainModel.width m)
       (MainModel.height m) (MainModel.showHelp m) (MainModel.styleManager m)
       (MainModel.updateInterval m))
  = MainModel.View m /\
  MainModel.View (MainModel.updateComponentSizes m) = MainModel.View m.
Proof.
  split; reflexivity.
Qed.

(** X8: when the collector operation of a collect command fails, the message
    the command sends is the bare error; the reducer has no case for it, so
    the model stays as it is (no panel is marked as failed) and no command is
    issued. *)
Theorem failed_collection_is_dropped (now : Go.Time) (m : MainModel.t)
    (s : Sample.t) (r : Resource) (err : GoError) :
  sampleError s r = Some err ->
  MainModel.collectMsg s r = ErrorValue err /\
  MainModel.Update now m (MainModel.collectMsg s r) = (m, Batch []).
Proof.
  intros Herr. destruct r; simpl in Herr; simpl; rewrite Herr; split; reflexivity.
Qed.

Lemma failed_collection_is_dropped_witness :
  let s := Sample.mk
             (CPUInfo.mk 0 [] 0%float 0,
              Some (SystemErr (SystemError.mk SystemAccessError "Mock CPU error"
                                 "CPU" 3 None)))
             (MemoryInfo.mk 0 0 0 (SwapInfo.mk 0 0 0) 0, None) ([], None) ([], None) in
  CPUModel.hasError
    (MainModel.cpu
       (fst (MainModel.Update 4 (MainModel.NewMainModel 0 0 0 0)
                              (MainModel.collectMsg s CPU)))) = false.
Proof.
  intros s.
  destruct (failed_collection_is_dropped 4 (MainModel.NewMainModel 0 0 0 0) s CPU _ eq_refl)
    as [_ Hsame].
  rewrite Hsame. reflexivity.
Defined.

(** ** Results for different resources commute *)

(** A routed message is handled by the component of its resource. *)
Lemma Update_routed (now : Go.Time) (m : MainModel.t) (msg : Msg) (r : Resource) :
  resourceOf msg = Some r ->
  fst (MainModel.Update now m msg)
  = match r with
    | CPU => MainModel.setCPU m (fst (CPUModel.Update (MainModel.cpu m) msg))
    | Memory => MainModel.setMemory m (fst (MemoryModel.Update (MainModel.memory m) msg))
    | Disk => MainModel.setDisk m (fst (DiskModel.Update now (MainModel.disk m) msg))
    | Network =>
        MainModel.setNetwork m (fst (NetworkModel.Update now (MainModel.network m) msg))
    end.
Proof.
  intros Hr. destruct msg; simpl in Hr; try discriminate.
  - injection Hr as <-. reflexivity.
  - injection Hr as <-. reflexivity.
  - injection Hr as <-. reflexivity.
  - injection Hr as <-. reflexivity.
  - unfold MainModel.Update.
    destruct (String.eqb (SystemError.Component e) "CPU");
      [injection Hr as <-; reflexivity|].
    destruct (String.eqb (SystemError.Component e) "Memory");
      [injection Hr as <-; reflexivity|].
    destruct (String.eqb (SystemError.Component e) "Disk");
      [injection Hr as <-; reflexivity|].
    destruct (String.eqb (SystemError.Component e) "Network");
      [injection Hr as <-; reflexivity|].
    discriminate.
Qed.

Lemma Update_commute (ta tb : Go.Time) (m : MainModel.t) (a b : Msg)
    (ra rb : Resource) :
  resourceOf a = Some ra -> resourceOf b = Some rb -> ra <> rb ->
  fst (MainModel.Update tb (fst (MainModel.Update ta m a)) b)
  = fst (MainModel.Update ta (fst (MainModel.Update tb m b)) a).
Proof.
  intros Ha Hb Hne.
  rewrite (Update_routed ta m a ra Ha), (Update_routed tb m b rb Hb).
  rewrite (Update_routed tb _ b rb Hb), (Update_routed ta _ a ra Ha).
  destruct ra, rb; try congruence; reflexivity.
Qed.

Lemma runMain_cons (m : MainModel.t) (step : Go.Time * Msg)
    (steps : list (Go.Time * Msg)) :
  runMain m (step :: steps)
  = runMain (fst (MainModel.Update (fst step) m (snd step))) steps.
Proof. reflexivity. Qed.

Lemma runMain_Permutation (steps steps' : list (Go.Time * Msg)) :
  steps ≡ₚ steps' ->
  NoDup (stepResources steps) ->
  None ∉ stepResources steps ->
  forall m, runMain m steps = runMain m steps'.
Proof.
  induction 1 as [|x l l' Hp IH|x y l|l l' l'' Hp1 IH1 Hp2 IH2]; intros Hnd Hsome m.
  - reflexivity.
  - rewrite !runMain_cons. unfold stepResources in *. rewrite fmap_cons in Hnd, Hsome.
    apply NoDup_cons in Hnd as [_ Hnd].
    apply not_elem_of_cons in Hsome as [_ Hsome].
    apply IH; assumption.
  - rewrite !runMain_cons. unfold stepResources in *.
    rewrite !fmap_cons in Hnd, Hsome.
    apply not_elem_of_cons in Hsome as [Hy Hsome].
    apply not_elem_of_cons in Hsome as [Hx _].
    apply NoDup_cons in Hnd as [Hyx _].
    apply not_elem_of_cons in Hyx as [Hyx _].
    destruct (resourceOf (snd y)) as [ry|] eqn:Ey; [|congruence].
    destruct (resourceOf (snd x)) as [rx|] eqn:Ex; [|congruence].
    f_equal. apply (Update_commute (fst y) (fst x) m (snd y) (snd x) ry rx Ey Ex).
    congruence.
  - assert (Hperm : stepResources l ≡ₚ stepResources l').
    { unfold stepResources. apply fmap_Permutation. exact Hp1. }
    rewrite IH1 by assumption. apply IH2.
    + rewrite <- Hperm. exact Hnd.
    + rewrite <- Hperm. exact Hsome.
Qed.

(** The clock reading of an [Update] reaches the model only as the
    [lastUpdate] of the disk and of the network panel. *)
Lemma Disk_withoutClock (t t' : Go.Time) (d d' : DiskModel.t) (msg : Msg) :
  diskWithoutClock d = diskWithoutClock d' ->
  diskWithoutClock (fst (DiskModel.Update t d msg))
  = diskWithoutClock (fst (DiskModel.Update t' d' msg)).
Proof.
  destruct d, d'. unfold diskWithoutClock. simpl. intros Heq.
  injection Heq as -> -> -> -> -> -> ->.
  destruct msg; try reflexivity.
  unfold DiskModel.Update.
  destruct (String.eqb (SystemError.Component e) "Disk"); reflexivity.
Qed.

Lemma Network_withoutClock (t t' : Go.Time) (n n' : NetworkModel.t) (msg : Msg) :
  networkWithoutClock n = networkWithoutClock n' ->
  networkWithoutClock (fst (NetworkModel.Update t n msg))
  = networkWithoutClock (fst (NetworkModel.Update t' n' msg)).
Proof.
  destruct n, n'. unfold networkWithoutClock. simpl. intros Heq.
  injection Heq as -> -> -> -> -> -> -> -> ->.
  destruct msg; try reflexivity.
  unfold NetworkModel.Update.
  destruct (String.eqb (SystemError.Component e) "Network"); reflexivity.
Qed.

Lemma Update_withoutClock (t t' : Go.Time) (m m' : MainModel.t) (msg : Msg)
    (r : Resource) :
  resourceOf msg = Some r ->
  withoutClock m = withoutClock m' ->
  withoutClock (fst (MainModel.Update t m msg))
  = withoutClock (fst (MainModel.Update t' m' msg)).
Proof.
  intros Hr Heq.
  rewrite (Update_routed t m msg r Hr), (Update_routed t' m' msg r Hr).
  pose proof (f_equal MainModel.cpu Heq) as Hcpu.
  pose proof (f_equal MainModel.memory Heq) as Hmem.
  pose proof (f_equal MainModel.disk Heq) as Hdisk.
  pose proof (f_equal MainModel.network Heq) as Hnet.
  pose proof (f_equal MainModel.focused Heq) as Hfocus.
  pose proof (f_equal MainModel.keys Heq) as Hkeys.
  pose proof (f_equal MainModel.width Heq) as Hw.
  pose proof (f_equal MainModel.height Heq) as Hh.
  pose proof (f_equal MainModel.showHelp Heq) as Hhelp.
  pose proof (f_equal MainModel.styleManager Heq) as Hsm.
  pose proof (f_equal MainModel.updateInterval Heq) as Hint.
  unfold withoutClock in Hcpu, Hmem, Hdisk, Hnet, Hfocus, Hkeys, Hw, Hh, Hhelp, Hsm, Hint.
  cbn [MainModel.cpu MainModel.memory MainModel.disk MainModel.network MainModel.focused
       MainModel.keys MainModel.width MainModel.height MainModel.showHelp
       MainModel.styleManager MainModel.updateInterval]
    in Hcpu, Hmem, Hdisk, Hnet, Hfocus, Hkeys, Hw, Hh, Hhelp, Hsm, Hint.
  destruct r; unfold withoutClock; simpl;
    rewrite ?Hcpu, ?Hmem, ?Hdisk, ?Hnet, ?Hfocus, ?Hkeys, ?Hw, ?Hh, ?Hhelp, ?Hsm, ?Hint.
  - reflexivity.
  - reflexivity.
  - rewrite (Disk_withoutClock t t' _ _ msg Hdisk). reflexivity.
  - rewrite (Network_withoutClock t t' _ _ msg Hnet). reflexivity.
Qed.

(** Without a disk or network sample no clock reading is stored at all. *)
Lemma Update_clock_free (t t' : Go.Time) (m : MainModel.t) (msg : Msg) (r : Resource) :
  resourceOf msg = Some r ->
  readsClock msg = false ->
  fst (MainModel.Update t m msg) = fst (MainModel.Update t' m msg).
Proof.
  intros Hr Hclock.
  rewrite (Update_routed t m msg r Hr), (Update_routed t' m msg r Hr).
  destruct r; [reflexivity|reflexivity| |];
    destruct msg; simpl in Hclock; try discriminate; reflexivity.
Qed.

Lemma runMain_withoutClock (msgs : list Msg) :
  None ∉ resourceOf <$> msgs ->
  forall (clocks : list Go.Time) (m m' : MainModel.t),
    length clocks = length msgs ->
    withoutClock m = withoutClock m' ->
    withoutClock (runMain m (zip clocks msgs))
    = withoutClock (runMain m' (pair 0 <$> msgs)).
Proof.
  induction msgs as [|msg msgs IH]; intros Hsome clocks m m' Hlen Heq.
  - destruct clocks; exact Heq.
  - destruct clocks as [|t clocks]; [discriminate|].
    rewrite fmap_cons in Hsome. apply not_elem_of_cons in Hsome as [Hmsg Hsome].
    destruct (resourceOf msg) as [r|] eqn:Er; [|congruence].
    simpl zip. rewrite fmap_cons, !runMain_cons. cbn [fst snd].
    apply IH; [exact Hsome|simpl in Hlen; lia|].
    apply (Update_withoutClock t 0 m m' msg r Er Heq).
Qed.

Lemma runMain_clock_free (msgs : list Msg) :
  None ∉ resourceOf <$> msgs ->
  Forall (fun msg => readsClock msg = false) msgs ->
  forall (clocks : list Go.Time) (m : MainModel.t),
    length clocks = length msgs ->
    runMain m (zip clocks msgs) = runMain m (pair 0 <$> msgs).
Proof.
  induction msgs as [|msg msgs IH]; intros Hsome Hfree clocks m Hlen.
  - destruct clocks; reflexivity.
  - destruct clocks as [|t clocks]; [discriminate|].
    rewrite fmap_cons in Hsome. apply not_elem_of_cons in Hsome as [Hmsg Hsome].
    destruct (resourceOf msg) as [r|] eqn:Er; [|congruence].
    apply Forall_cons in Hfree as [Hmsg_free Hfree].
    simpl zip. rewrite fmap_cons, !runMain_cons. cbn [fst snd].
    rewrite (Update_clock_free t 0 m msg r Er Hmsg_free).
    apply IH; [exact Hsome|exact Hfree|simpl in Hlen; lia].
Qed.

Lemma stepResources_pair (t : Go.Time) (msgs : list Msg) :
  stepResources (pair t <$> msgs) = resourceOf <$> msgs.
Proof.
  unfold stepResources. rewrite <- list_fmap_compose. reflexivity.
Qed.

(** X9: sample results and error events for different resources commute.
    Messages routed to pairwise different resources are applied in two
    orders of arrival, each message at whatever the clock reads when it
    arrives ([clocks] in the first order, [clocks'] in the second).  The two
    runs end in models that agree in everything but the [lastUpdate] stamps
    of the disk and the network panel, which record the arrival; when no
    message is a disk or a network sample the two models are equal. *)
Theorem arrival_order_is_irrelevant (m : MainModel.t) (msgs msgs' : list Msg)
    (clocks clocks' : list Go.Time) :
  msgs ≡ₚ msgs' ->
  NoDup (resourceOf <$> msgs) ->
  None ∉ resourceOf <$> msgs ->
  length clocks = length msgs ->
  length clocks' = length msgs' ->
  let m1 := runMain m (zip clocks msgs) in
  let m2 := runMain m (zip clocks' msgs') in
  withoutClock m1 = withoutClock m2 /\
  (Forall (fun msg => readsClock msg = false) msgs -> m1 = m2).
Proof.
  intros Hp Hnd Hsome Hlen Hlen' m1 m2. subst m1 m2.
  assert (Hsome' : None ∉ resourceOf <$> msgs').
  { rewrite <- Hp. exact Hsome. }
  assert (Hzero : runMain m (pair 0 <$> msgs) = runMain m (pair 0 <$> msgs')).
  { apply runMain_Permutation.
    - apply fmap_Permutation. exact Hp.
    - rewrite stepResources_pair. exact Hnd.
    - rewrite stepResources_pair. exact Hsome. }
  split.
  - rewrite (runMain_withoutClock msgs Hsome clocks m m Hlen eq_refl).
    rewrite (runMain_withoutClock msgs' Hsome' clocks' m m Hlen' eq_refl).
    rewrite Hzero. reflexivity.
  - intros Hfree.
    assert (Hfree' : Forall (fun msg => readsClock msg = false) msgs').
    { rewrite <- Hp. exact Hfree. }
    rewrite (runMain_clock_free msgs Hsome Hfree clocks m Hlen).
    rewrite (runMain_clock_free msgs' Hsome' Hfree' clocks' m Hlen').
    exact Hzero.
Qed.

Lemma arrival_order_is_irrelevant_witness :
  let e := SystemError.mk TemporaryError "busy" "Disk" 2 None in
  let info := CPUInfo.mk 1 [40%float] 40%float 1 in
  let m := MainModel.NewMainModel 0 0 0 0 in
  let m1 := runMain m [(1, CPUUpdateMsg info); (2, ErrorMsg e);
                       (3, NetworkUpdateMsg [eth0_before])] in
  let m2 := runMain m [(4, NetworkUpdateMsg [eth0_before]); (5, CPUUpdateMsg info);
                       (6, ErrorMsg e)] in
  withoutClock m1 = withoutClock m2 /\
  NetworkModel.lastUpdate (MainModel.network m1) = 3 /\
  NetworkModel.lastUpdate (MainModel.network m2) = 4.
Proof.
  intros e info m m1 m2.
  split; [|split; reflexivity].
  apply (arrival_order_is_irrelevant m
           [CPUUpdateMsg info; ErrorMsg e; NetworkUpdateMsg [eth0_before]]
           [NetworkUpdateMsg [eth0_before]; CPUUpdateMsg info; ErrorMsg e]
           [1; 2; 3] [4; 5; 6]).
  - symmetry. apply Permutation_cons_append with (l := [_; _]).
  - apply (bool_decide_unpack _). reflexivity.
  - apply (bool_decide_unpack _). reflexivity.
  - reflexivity.
  - reflexivity.
Defined.

(** ** A sampling round *)

Lemma collectMsg_failed (now : Go.Time) (m : MainModel.t) (s : Sample.t) (r : Resource) :
  succeeded s r = false ->
  fst (MainModel.Update now m (MainModel.collectMsg s r)) = m.
Proof.
  unfold succeeded. intros Hf.
  destruct r; simpl in *;
    match goal with
    | H : context [snd ?x] |- _ => destruct (snd x)
    end; try discriminate; reflexivity.
Qed.

Lemma collectMsg_resource (s : Sample.t) (r : Resource) :
  succeeded s r = true -> resourceOf (MainModel.collectMsg s r) = Some r.
Proof.
  unfold succeeded. intros Hok.
  destruct r; simpl in *;
    match goal with
    | H : context [snd ?x] |- _ => destruct (snd x)
    end; try discriminate; reflexivity.
Qed.

Lemma round_drop_failed (s : Sample.t) (clock : Resource -> Go.Time)
    (order : list Resource) : forall m,
  runMain m (roundSteps s clock order)
  = runMain m (roundSteps s clock (filter (fun r => succeeded s r = true) order)).
Proof.
  induction order as [|r order IH]; intros m.
  - reflexivity.
  - rewrite filter_cons. destruct (decide (succeeded s r = true)) as [Hok|Hfail].
    + unfold roundSteps. rewrite !fmap_cons, !runMain_cons. apply IH.
    + unfold roundSteps at 1. rewrite fmap_cons, runMain_cons. simpl.
      rewrite collectMsg_failed by (destruct (succeeded s r); congruence).
      apply IH.
Qed.

Lemma round_resources (s : Sample.t) (clock : Resource -> Go.Time)
    (order : list Resource) :
  Forall (fun r => succeeded s r = true) order ->
  stepResources (roundSteps s clock order) = Some <$> order.
Proof.
  induction 1 as [|r order Hok _ IH].
  - reflexivity.
  - unfold stepResources, roundSteps in *. rewrite !fmap_cons. simpl.
    rewrite collectMsg_resource by exact Hok. f_equal. exact IH.
Qed.

(** X10: in a sampling round each panel is updated by the result for its own
    resource and by nothing else, in whatever order the four results arrive:
    a panel whose operation succeeded is the panel updated with that sample,
    a panel whose operation failed is as before, and focus, viewport and help
    flag are as before. *)
Theorem round_updates_each_panel_independently (m : MainModel.t) (s : Sample.t)
    (clock : Resource -> Go.Time) (order : list Resource) :
  order ≡ₚ [CPU; Memory; Disk; Network] ->
  let m' := runMain m (roundSteps s clock order) in
  MainModel.cpu m'
  = (if succeeded s CPU
     then fst (CPUModel.Update (MainModel.cpu m)
                 (CPUUpdateMsg (fst (Sample.CollectCPU s))))
     else MainModel.cpu m) /\
  MainModel.memory m'
  = (if succeeded s Memory
     then fst (MemoryModel.Update (MainModel.memory m)
                 (MemoryUpdateMsg (fst (Sample.CollectMemory s))))
     else MainModel.memory m) /\
  MainModel.disk m'
  = (if succeeded s Disk
     then fst (DiskModel.Update (clock Disk) (MainModel.disk m)
                 (DiskUpdateMsg (fst (Sample.CollectDisk s))))
     else MainModel.disk m) /\
  MainModel.network m'
  = (if succeeded s Network
     then fst (NetworkModel.Update (clock Network) (MainModel.network m)
                 (NetworkUpdateMsg (fst (Sample.CollectNetwork s))))
     else MainModel.network m) /\
  MainModel.focused m' = MainModel.focused m /\
  MainModel.showHelp m' = MainModel.showHelp m /\
  (MainModel.width m', MainModel.height m') = (MainModel.width m, MainModel.height m).
Proof.
  intros Hperm m'. subst m'.
  set (ok := fun r => succeeded s r = true).
  rewrite round_drop_failed. fold ok.
  assert (Hp : filter ok order ≡ₚ filter ok [CPU; Memory; Disk; Network]).
  { rewrite Hperm. reflexivity. }
  assert (Hall : Forall ok (filter ok order)).
  { apply Forall_forall. intros r Hr. apply list_elem_of_filter in Hr as [Hr _]. exact Hr. }
  assert (Hnd : NoDup (filter ok order)).
  { apply NoDup_filter. rewrite Hperm. apply (bool_decide_unpack _). reflexivity. }
  rewrite (runMain_Permutation
             (roundSteps s clock (filter ok order))
             (roundSteps s clock (filter ok [CPU; Memory; Disk; Network]))).
  - subst ok. rewrite !filter_cons, filter_nil.
    unfold succeeded, sampleError, roundSteps.
    destruct (snd (Sample.CollectCPU s)) eqn:E1;
      destruct (snd (Sample.CollectMemory s)) eqn:E2;
      destruct (snd (Sample.CollectDisk s)) eqn:E3;
      destruct (snd (Sample.CollectNetwork s)) eqn:E4;
      simpl; rewrite ?E1, ?E2, ?E3, ?E4; simpl;
      repeat split; reflexivity.
  - unfold roundSteps. apply fmap_Permutation. exact Hp.
  - rewrite round_resources by exact Hall.
    apply (NoDup_fmap_2 _). exact Hnd.
  - rewrite round_resources by exact Hall.
    intros Hin. apply list_elem_of_fmap in Hin as (r & Hr & _). discriminate.
Qed.

Lemma round_updates_each_panel_independently_witness :
  let s := Sample.mk
             (CPUInfo.mk 1 [40%float] 40%float 9, None)
             (MemoryInfo.mk 0 0 0 (SwapInfo.mk 0 0 0) 0, Some (PlainErr "no memory"))
             ([], None) ([eth0_before], None) in
  let m := MainModel.NewMainModel 0 0 0 0 in
  let m' := runMain m (roundSteps s (fun _ => 9) [Network; CPU; Disk; Memory]) in
  CPUModel.usage (MainModel.cpu m') = [40%float] /\
  MainModel.memory m' = MainModel.memory m.
Proof.
  intros s m m'.
  assert (Hp : [Network; CPU; Disk; Memory] ≡ₚ [CPU; Memory; Disk; Network]).
  { apply (Permutation_trans (l' := [CPU; Disk; Memory; Network])).
    - apply Permutation_cons_append with (l := [_; _; _]).
    - apply perm_skip, perm_swap. }
  destruct (round_updates_each_panel_independently m s (fun _ => 9) _ Hp)
    as (Hcpu & Hmem & _).
  fold m' in Hcpu, Hmem. rewrite Hcpu, Hmem. split; reflexivity.
Defined.

(** * Further properties of the CPU history *)

Lemma addAll_lookup_above (maxH : Z) usage : forall k history i,
  usage !! i = None ->
  addAll maxH k history usage !! (k + i)%nat = history !! (k + i)%nat.
Proof.
  induction usage as [|x usage IH]; intros k history i Hnone.
  - reflexivity.
  - destruct i as [|i]; [discriminate|]. simpl in Hnone.
    rewrite addAll_cons.
    replace (k + S i)%nat with (S k + i)%nat by lia.
    rewrite IH by exact Hnone.
    apply addUsage_lookup_ne. lia.
Qed.

(** The history of core [i] after the loop of one update. *)
Lemma addAll_lookup_full (maxH : Z) (history : list (list float))
    (usage : list float) (i : nat) :
  addAll maxH 0 history usage !! i
  = match history !! i, usage !! i with
    | Some h, Some u => Some (pushed maxH h u)
    | Some h, None => Some h
    | None, _ => None
    end.
Proof.
  destruct (history !! i) as [h|] eqn:Hh.
  - destruct (usage !! i) as [u|] eqn:Hu.
    + exact (addAll_lookup maxH usage 0 history i u h Hu Hh).
    + rewrite <- Hh. exact (addAll_lookup_above maxH usage 0 history i Hu).
  - apply lookup_ge_None. rewrite addAll_length. apply lookup_ge_None. exact Hh.
Qed.

(** X11: the number of per-core histories is fixed by the first sample that
    has usage values.  A later sample with more cores gets no history for the
    additional cores, and one with fewer cores leaves the histories of the
    missing cores as they are. *)
Theorem tracked_cores_are_fixed (m : CPUModel.t) (info : CPUInfo.t) :
  let m' := fst (CPUModel.Update m (CPUUpdateMsg info)) in
  length (CPUModel.history m')
  = (if (length (CPUModel.history m) =? 0)%nat then length (CPUInfo.Usage info)
     else length (CPUModel.history m)) /\
  (forall (i : nat) (h : list float),
     CPUModel.history m !! i = Some h -> CPUInfo.Usage info !! i = None ->
     CPUModel.history m' !! i = Some h) /\
  (forall i : nat,
     CPUModel.history m <> [] -> (length (CPUModel.history m) <= i)%nat ->
     CPUModel.history m' !! i = None).
Proof.
  intros m'. subst m'. rewrite Update_history.
  destruct (Z.ltb_spec 0 (Z.of_nat (length (CPUInfo.Usage info)))) as [Hpos|Hzero].
  - destruct (Z.eqb_spec (Z.of_nat (length (CPUModel.history m))) 0) as [Hz|Hnz].
    + assert (Hnil : CPUModel.history m = []) by (apply nil_length_inv; lia).
      rewrite addAll_length, length_replicate, Hnil. simpl.
      split; [reflexivity|].
      split; [intros i h Hh; discriminate|intros i Hne; congruence].
    + rewrite addAll_length.
      split.
      { destruct (Nat.eqb_spec (length (CPUModel.history m)) 0); [lia|reflexivity]. }
      split.
      * intros i h Hrow Hnone. rewrite addAll_lookup_full, Hrow, Hnone. reflexivity.
      * intros i _ Hle. rewrite addAll_lookup_full.
        rewrite (lookup_ge_None_2 _ _ Hle). reflexivity.
  - split.
    { destruct (Nat.eqb_spec (length (CPUModel.history m)) 0); [lia|reflexivity]. }
    split; [intros i h Hh _; exact Hh|].
    intros i _ Hle. apply lookup_ge_None_2. exact Hle.
Qed.

(** A sample with four cores after a first sample with two. *)
Example more_cores_later :
  let first := CPUUpdateMsg (CPUInfo.mk 2 [10%float; 20%float] 15%float 1) in
  let second :=
    CPUUpdateMsg (CPUInfo.mk 4 [1%float; 2%float; 3%float; 4%float] 2.5%float 2) in
  CPUModel.history (runCPU (CPUModel.NewCPUModel 0) [first; second])
  = [[10%float; 1%float]; [20%float; 2%float]].
Proof. vm_compute. reflexivity. Qed.

Lemma lastN_short {A : Type} (n : nat) (l : list A) :
  (length l <= n)%nat -> lastN n l = l.
Proof.
  intros Hle. unfold lastN. replace (length l - n)%nat with 0%nat by lia.
  apply drop_0.
Qed.

Lemma lastN_length {A : Type} (n : nat) (l : list A) :
  length (lastN n l) = Nat.min n (length l).
Proof. unfold lastN. rewrite length_drop. lia. Qed.

Lemma pushed_lastN (col : list float) (u : float) :
  pushed 60 (lastN 60 col) u = lastN 60 (col ++ [u]).
Proof.
  unfold pushed. rewrite length_app, lastN_length. simpl length.
  destruct (Z.ltb_spec 60 (Z.of_nat (Nat.min 60 (length col) + 1))) as [Hfull|Hroom].
  - assert (Hlen : (60 <= length col)%nat) by lia.
    unfold lastN. rewrite length_app. simpl length.
    rewrite <- (drop_app_le col [u]) by lia.
    rewrite drop_drop. f_equal. lia.
  - assert (Hlen : (length col < 60)%nat) by lia.
    rewrite !lastN_short; [reflexivity| |lia].
    rewrite length_app. simpl. lia.
Qed.

Lemma samplesOf_snoc (i : nat) (msgs : list Msg) (msg : Msg) :
  samplesOf i (msgs ++ [msg])
  = samplesOf i msgs
    ++ match msg with
       | CPUUpdateMsg info =>
           match CPUInfo.Usage info !! i with Some u => [u] | None => [] end
       | _ => []
       end.
Proof.
  unfold samplesOf. rewrite omap_app. f_equal.
  destruct msg; try reflexivity.
Qed.

Lemma Update_history_other (m : CPUModel.t) (msg : Msg) :
  (forall info, msg <> CPUUpdateMsg info) ->
  CPUModel.history (fst (CPUModel.Update m msg)) = CPUModel.history m.
Proof.
  intros Hnot. destruct msg; try reflexivity.
  - exfalso. exact (Hnot info eq_refl).
  - simpl. destruct (String.eqb (SystemError.Component e) "CPU"); reflexivity.
Qed.

Lemma runCPU_history_samples (now : Go.Time) (msgs : list Msg) :
  let m := runCPU (CPUModel.NewCPUModel now) msgs in
  (CPUModel.history m = [] -> forall i, samplesOf i msgs = []) /\
  (forall i h, CPUModel.history m !! i = Some h -> h = lastN 60 (samplesOf i msgs)).
Proof.
  induction msgs as [|msg msgs IH] using rev_ind.
  - split; [reflexivity|]. intros i h Hh. discriminate.
  - destruct (runCPU_invariant now msgs) as [Hmax _].
    cbv zeta in IH. destruct IH as [IHnil IHrow].
    unfold runCPU in *. rewrite foldl_snoc.
    set (m := foldl (fun m msg => fst (CPUModel.Update m msg))
                    (CPUModel.NewCPUModel now) msgs) in *.
    cbv zeta.
    destruct msg as [w h0|key|info|info|info|info|t|e|err|];
      try (rewrite Update_history_other by (intros info'; discriminate);
           split;
           [intros Hnil i; rewrite samplesOf_snoc, app_nil_r; apply IHnil; exact Hnil
           |intros i h Hh; rewrite samplesOf_snoc, app_nil_r; apply IHrow; exact Hh]).
    rewrite Update_history, Hmax.
    destruct (CPUInfo.Usage info) as [|u0 usage] eqn:Hu.
    + simpl. split.
      * intros Hnil i. rewrite samplesOf_snoc, Hu. simpl. rewrite app_nil_r.
        apply IHnil. exact Hnil.
      * intros i h Hh. rewrite samplesOf_snoc, Hu. simpl. rewrite app_nil_r.
        apply IHrow. exact Hh.
    + change (0 <? Z.of_nat (length (u0 :: usage))) with true. cbv iota.
      rewrite <- Hu.
      assert (Hlen : length (CPUInfo.Usage info) = S (length usage))
        by (rewrite Hu; reflexivity).
      split.
      * intros Hnil. exfalso.
        apply (f_equal length) in Hnil. rewrite addAll_length in Hnil.
        destruct (CPUModel.history m) as [|row rows]; simpl in Hnil.
        -- rewrite length_replicate in Hnil. lia.
        -- discriminate.
      * intros i h Hh. rewrite samplesOf_snoc.
        rewrite addAll_lookup_full in Hh.
        destruct (CPUModel.history m) as [|row rows] eqn:Hhist.
        -- simpl in Hh. rewrite (IHnil eq_refl i). simpl.
           destruct (CPUInfo.Usage info !! i) as [u|] eqn:Hui.
           ++ rewrite lookup_replicate_2 in Hh
                by (apply lookup_lt_Some in Hui; exact Hui).
              injection Hh as <-. reflexivity.
           ++ apply lookup_ge_None in Hui.
              rewrite (proj1 (lookup_replicate_None _ _ _)) in Hh by lia.
              discriminate.
        -- change (Z.of_nat (length (row :: rows)) =? 0) with false in Hh.
           cbv iota in Hh.
           destruct ((row :: rows) !! i) as [h1|] eqn:Hrow; [|discriminate].
           specialize (IHrow i h1 Hrow). subst h1.
           destruct (CPUInfo.Usage info !! i) as [u|].
           ++ injection Hh as <-. apply pushed_lastN.
           ++ injection Hh as <-. rewrite app_nil_r. reflexivity.
Qed.

(** X12: from a new CPU model, the history of a core is the last 60 usage
    values the samples carried for that core, oldest first. *)
Theorem history_is_last_60_samples (now : Go.Time) (msgs : list Msg) (i : nat)
    (h : list float) :
  CPUModel.history (runCPU (CPUModel.NewCPUModel now) msgs) !! i = Some h ->
  h = lastN 60 (samplesOf i msgs).
Proof.
  intros Hh. destruct (runCPU_history_samples now msgs) as [_ Hrow].
  exact (Hrow i h Hh).
Qed.

Lemma history_is_last_60_samples_witness :
  let msgs :=
    [CPUUpdateMsg (CPUInfo.mk 2 [10%float; 20%float] 15%float 1);
     ErrorMsg (SystemError.mk TemporaryError "busy" "CPU" 2 None);
     CPUUpdateMsg (CPUInfo.mk 2 [30%float; 40%float] 35%float 3)] in
  [20%float; 40%float] = lastN 60 (samplesOf 1 msgs).
Proof.
  intros msgs. apply (history_is_last_60_samples 0 msgs 1). reflexivity.
Defined.

(** * Further properties of the network model *)

Lemma prevMapOf_lookup_Some previous name prev :
  prevMapOf previous !! name = Some prev ->
  prev ∈ previous /\ NetworkInfo.Interface prev = name.
Proof.
  induction previous as [|x l IH] using rev_ind; intros Hlook.
  - discriminate.
  - rewrite prevMapOf_snoc in Hlook.
    destruct (decide (NetworkInfo.Interface x = name)) as [Heq|Hne].
    + rewrite <- Heq, lookup_insert_eq in Hlook. injection Hlook as <-.
      split; [apply elem_of_app; right; apply list_elem_of_singleton; reflexivity
             |exact Heq].
    + rewrite lookup_insert_ne in Hlook by exact Hne.
      destruct (IH Hlook) as [Hin Hname].
      split; [apply elem_of_app; left; exact Hin|exact Hname].
Qed.

Lemma rates_lookup_Some pm current name stats :
  foldl (rateStep pm) ∅ current !! name = Some stats ->
  exists curr prev,
    curr ∈ current /\ pm !! name = Some prev /\
    NetworkInfo.Interface curr = name /\
    PrimFloat.ltb 0%float (timeDiffOf curr prev) = true /\
    stats = statsOf curr prev.
Proof.
  induction current as [|x l IH] using rev_ind; intros Hlook.
  - discriminate.
  - rewrite foldl_snoc in Hlook.
    destruct (decide (name = NetworkInfo.Interface x)) as [->|Hne].
    + unfold rateStep in Hlook at 1.
      destruct (pm !! NetworkInfo.Interface x) as [prev|] eqn:Hpm.
      * destruct (PrimFloat.ltb 0 (timeDiffOf x prev)) eqn:Hdt.
        -- rewrite lookup_insert_eq in Hlook. injection Hlook as <-.
           exists x, prev. repeat split; try assumption; try reflexivity.
           apply elem_of_app. right. apply list_elem_of_singleton. reflexivity.
        -- destruct (IH Hlook) as (curr & prev' & Hin & Hrest).
           exists curr, prev'. split; [apply elem_of_app; left; exact Hin|exact Hrest].
      * destruct (IH Hlook) as (curr & prev' & Hin & Hrest).
        exists curr, prev'. split; [apply elem_of_app; left; exact Hin|exact Hrest].
    + rewrite rateStep_other in Hlook by exact Hne.
      destruct (IH Hlook) as (curr & prev' & Hin & Hrest).
      exists curr, prev'. split; [apply elem_of_app; left; exact Hin|exact Hrest].
Qed.

(** X13: for any two snapshot lists, every entry of the rate map comes from
    an entry of [current] and an entry of [previous] with the same interface
    name and a positive time difference, and holds the rates of that pair;
    an interface missing from either list, and any interface when one list is
    empty, has no rate. *)
Theorem rates_come_from_both_lists (previous current : list NetworkInfo.t)
    (name : string) (stats : NetworkStats.t) :
  GopsutilCollector.CalculateNetworkRates previous current !! name = Some stats ->
  exists curr prev : NetworkInfo.t,
    curr ∈ current /\ prev ∈ previous /\
    NetworkInfo.Interface curr = name /\ NetworkInfo.Interface prev = name /\
    PrimFloat.ltb 0%float
      (Go.Seconds (Go.Sub (NetworkInfo.Timestamp curr) (NetworkInfo.Timestamp prev)))
    = true /\
    stats = statsOf curr prev.
Proof.
  rewrite CalculateNetworkRates_unfold. intros Hlook.
  destruct (rates_lookup_Some _ _ _ _ Hlook) as (curr & prev & Hin & Hpm & Hn & Hdt & Hs).
  destruct (prevMapOf_lookup_Some _ _ _ Hpm) as [Hinp Hnp].
  exists curr, prev. repeat split; assumption.
Qed.

Lemma rates_come_from_both_lists_witness :
  exists curr prev : NetworkInfo.t,
    curr ∈ [eth0_after] /\ prev ∈ [eth0_before] /\
    NetworkInfo.Interface curr = "eth0"%string.
Proof.
  destruct (rates_come_from_both_lists [eth0_before] [eth0_after] "eth0"
              (NetworkStats.mk 1024%float 2048%float))
    as (curr & prev & Hc & Hp & Hn & _).
  - vm_compute. reflexivity.
  - exists curr, prev. repeat split; assumption.
Defined.

Lemma runNetwork_keeps_baseline (now : Go.Time) (msgs : list Msg) :
  Forall (fun msg => forall info, msg <> NetworkUpdateMsg info) msgs ->
  forall m,
    NetworkModel.interfaces (runNetwork now m msgs) = NetworkModel.interfaces m /\
    NetworkModel.rates (runNetwork now m msgs) = NetworkModel.rates m.
Proof.
  induction 1 as [|msg msgs Hmsg _ IH]; intros m.
  - split; reflexivity.
  - unfold runNetwork in *. simpl foldl.
    destruct (IH (fst (NetworkModel.Update now m msg))) as [Hi Hr].
    rewrite Hi, Hr.
    destruct msg; try (split; reflexivity).
    + exfalso. exact (Hmsg info eq_refl).
    + simpl. destruct (String.eqb (SystemError.Component e) "Network");
        split; reflexivity.
Qed.

(** X14: the rates shown after a network sample are those between that
    sample and the sample before it; error events and other messages between
    the two samples do not move the baseline.  (When the earlier sample is
    empty, the rates are left as they were.) *)
Theorem rates_use_the_two_latest_samples (t1 t t2 : Go.Time) (m : NetworkModel.t)
    (a b : list NetworkInfo.t) (between : list Msg) :
  a <> [] ->
  Forall (fun msg => forall info, msg <> NetworkUpdateMsg info) between ->
  let m1 := fst (NetworkModel.Update t1 m (NetworkUpdateMsg a)) in
  let m2 := runNetwork t m1 between in
  let m3 := fst (NetworkModel.Update t2 m2 (NetworkUpdateMsg b)) in
  NetworkModel.rates m3 = GopsutilCollector.CalculateNetworkRates a b /\
  NetworkModel.previousData m3 = a /\
  NetworkModel.interfaces m3 = b /\
  NetworkModel.hasError m3 = false.
Proof.
  intros Ha Hbetween m1 m2 m3.
  destruct (runNetwork_keeps_baseline t between Hbetween m1) as [Hi _].
  fold m2 in Hi.
  assert (Hm1 : NetworkModel.interfaces m1 = a) by reflexivity.
  subst m3. unfold NetworkModel.Update. simpl.
  rewrite Hi, Hm1.
  destruct a as [|x a]; [congruence|].
  repeat split; reflexivity.
Qed.

Lemma rates_use_the_two_latest_samples_witness :
  let e := SystemError.mk TemporaryError "busy" "Network" 5 None in
  let m3 :=
    fst (NetworkModel.Update 9
           (runNetwork 6
              (fst (NetworkModel.Update 1 (NetworkModel.NewNetworkModel 0)
                      (NetworkUpdateMsg [eth0_before])))
              [ErrorMsg e])
           (NetworkUpdateMsg [eth0_after])) in
  NetworkModel.rates m3 !! "eth0"%string = Some (NetworkStats.mk 1024%float 2048%float).
Proof.
  intros e m3.
  assert (Ha : [eth0_before] <> []) by discriminate.
  assert (Hb : Forall (fun msg => forall info, msg <> NetworkUpdateMsg info) [ErrorMsg e]).
  { constructor; [intros info; discriminate|constructor]. }
  destruct (rates_use_the_two_latest_samples 1 6 9 (NetworkModel.NewNetworkModel 0)
              [eth0_before] [eth0_after] [ErrorMsg e] Ha Hb) as (Hr & _).
  fold m3 in Hr. rewrite Hr. vm_compute. reflexivity.
Defined.

(** The first sample of a new model gives no rates. *)
Example first_sample_has_no_rates :
  NetworkModel.rates
    (fst (NetworkModel.Update 1 (NetworkModel.NewNetworkModel 0)
            (NetworkUpdateMsg [eth0_before])))
  = ∅.
Proof. reflexivity. Qed.

(** X15: [GetInterfaceByName] returns the first entry with the name, and
    reports a miss exactly when no entry has it. *)
Theorem GetInterfaceByName_first (m : NetworkModel.t) (name : string) :
  match GetInterfaceByName m name with
  | Some iface =>
      exists before after : list NetworkInfo.t,
        NetworkModel.interfaces m = before ++ iface :: after /\
        NetworkInfo.Interface iface = name /\
        name ∉ (NetworkInfo.Interface <$> before)
  | None => name ∉ (NetworkInfo.Interface <$> NetworkModel.interfaces m)
  end.
Proof.
  unfold GetInterfaceByName.
  induction (NetworkModel.interfaces m) as [|x l IH]; simpl.
  - apply not_elem_of_nil.
  - destruct (String.eqb_spec (NetworkInfo.Interface x) name) as [Heq|Hne].
    + exists [], l. repeat split; [exact Heq|apply not_elem_of_nil].
    + destruct (GetInterfaceByName_loop l name) as [iface|].
      * destruct IH as (before & after & Hl & Hn & Hnot).
        exists (x :: before), after. rewrite Hl. repeat split; [exact Hn|].
        rewrite fmap_cons. apply not_elem_of_cons. split; [congruence|exact Hnot].
      * apply not_elem_of_cons. split; [congruence|exact IH].
Qed.

(** * Further properties of the style manager and of the panels *)

Lemma int_small (z : Z) : Go.minInt64 <= z <= Go.maxInt64 -> Go.int_ z = z.
Proof.
  unfold Go.int_, Go.minInt64, Go.maxInt64. intros Hz.
  rewrite Z.mod_small by lia. lia.
Qed.

Lemma append_nil_r (s : string) : String.append s EmptyString = s.
Proof.
  induction s as [|c s IH]; [reflexivity|].
  change (String c (String.append s EmptyString) = String c s).
  rewrite IH. reflexivity.
Qed.

(** [strings.Repeat] of a block character (three bytes): the panic and the
    result. *)
Lemma Repeat_block (s : string) (count : Z) :
  Go.len_string s = 3 ->
  (count < 0 \/ Go.maxInt64 < 3 * count -> Repeat s count = None) /\
  (0 <= count -> 3 * count <= Go.maxInt64 ->
   Repeat s count = Some (repeat_string s (Z.to_nat count))).
Proof.
  intros Hlen. unfold Repeat. rewrite Hlen. unfold Go.maxInt64. split.
  - intros Hbad.
    destruct (Z.eqb_spec count 0); [lia|].
    destruct (Z.eqb_spec count 1); [lia|].
    destruct (Z.ltb_spec count 0); [reflexivity|].
    destruct (Z.ltb_spec (2 ^ 63 - 1) (3 * count)); [reflexivity|lia].
  - intros Hpos Hfit.
    destruct (Z.eqb_spec count 0) as [->|]; [reflexivity|].
    destruct (Z.eqb_spec count 1) as [->|].
    { simpl. rewrite append_nil_r. reflexivity. }
    destruct (Z.ltb_spec count 0); [lia|].
    destruct (Z.ltb_spec (2 ^ 63 - 1) (3 * count)); [lia|reflexivity].
Qed.

(** X16: the progress bar.  With the effective width [w'] (20 when the
    requested width is not positive) and [filled] the scaled percentage
    converted to [int] and capped at [w'], the call panics exactly when
    [filled] is negative or when one of the two runs of three-byte block
    characters would be longer than the largest [int], that is when
    [3 * filled] or [3 * (w' - filled)] exceeds it.  Otherwise the bar is the
    rendered text of [filled] full cells followed by [w' - filled] empty
    cells, [w'] cells in all, and with [showPercentage] it is followed by a
    blank and the rendered percentage. *)
Theorem RenderProgressBar_cells `{Toolkit} (s : StyleManager.t) (percentage : float)
    (w : Z) :
  Go.minInt64 <= w <= Go.maxInt64 ->
  let w' := if w <=? 0 then 20 else w in
  let raw :=
    int_of_float64 (PrimFloat.mul (PrimFloat.div percentage 100%float) (Go.float64 w')) in
  let filled := if w' <? raw then w' else raw in
  let bar :=
    Render (Style.mk false (Some (StyleManager.GetUsageColor s percentage))
                     false None None None [] [] false)
           (String.append (repeat_string "█" (Z.to_nat filled))
                          (repeat_string "░" (Z.to_nat (w' - filled)))) in
  0 < w' /\
  (filled < 0 \/ Go.maxInt64 < 3 * filled \/ Go.maxInt64 < 3 * (w' - filled) ->
   StyleManager.RenderProgressBar s percentage w false = None /\
   StyleManager.RenderProgressBar s percentage w true = None) /\
  (0 <= filled -> 3 * filled <= Go.maxInt64 -> 3 * (w' - filled) <= Go.maxInt64 ->
   StyleManager.RenderProgressBar s percentage w false = Some bar /\
   StyleManager.RenderProgressBar s percentage w true
   = Some (String.append bar
             (String.append " "
                (Render (Style.mk false (Some (ColorScheme.Text (StyleManager.colors s)))
                                  false None None None [] [] false)
                        (PlaceHorizontalRight 6
                           (String.append (fmt_f 1 percentage) "%"))))) /\
   (Z.to_nat filled + Z.to_nat (w' - filled))%nat = Z.to_nat w').
Proof.
  intros Hw w' raw filled bar.
  assert (Hw' : 0 < w' <= Go.maxInt64).
  { subst w'. unfold Go.maxInt64 in *. destruct (Z.leb_spec w 0); lia. }
  assert (Hcap : filled <= w').
  { subst filled. destruct (Z.ltb_spec w' raw); lia. }
  destruct (Repeat_block "█" filled eq_refl) as [Hfull_bad Hfull_ok].
  split; [lia|].
  unfold StyleManager.RenderProgressBar. fold w'. fold raw. fold filled.
  split.
  - intros [Hneg|[Hbig|Hbig]].
    + rewrite Hfull_bad by (left; exact Hneg). split; reflexivity.
    + rewrite Hfull_bad by (right; exact Hbig). split; reflexivity.
    + destruct (Z.lt_ge_cases filled 0) as [Hneg|Hpos].
      { rewrite Hfull_bad by (left; exact Hneg). split; reflexivity. }
      destruct (Repeat "█" filled) as [full|]; [|split; reflexivity].
      simpl. unfold Go.int_sub.
      rewrite int_small by (unfold Go.minInt64, Go.maxInt64 in *; lia).
      destruct (Repeat_block "░" (w' - filled) eq_refl) as [Hempty_bad _].
      rewrite Hempty_bad by (right; exact Hbig). split; reflexivity.
  - intros Hpos Hfit Hfit'.
    rewrite Hfull_ok by assumption. simpl.
    unfold Go.int_sub.
    rewrite int_small by (unfold Go.minInt64, Go.maxInt64 in *; lia).
    destruct (Repeat_block "░" (w' - filled) eq_refl) as [_ Hempty_ok].
    rewrite Hempty_ok by (assumption || lia). simpl.
    split; [reflexivity|]. split; [reflexivity|lia].
Qed.

Lemma RenderProgressBar_cells_witness :
  @StyleManager.RenderProgressBar truncatingToolkit StyleManager.NewStyleManager
     50%float 4 false
  = Some "██░░"%string /\
  @StyleManager.RenderProgressBar truncatingToolkit StyleManager.NewStyleManager
     50%float 4 true
  = Some "██░░ #%"%string.
Proof.
  assert (Hw : Go.minInt64 <= 4 <= Go.maxInt64) by (vm_compute; split; discriminate).
  destruct (@RenderProgressBar_cells truncatingToolkit StyleManager.NewStyleManager
              50%float 4 Hw) as (_ & _ & Hbar).
  destruct Hbar as (Hplain & Hpercent & _).
  - vm_compute. discriminate.
  - vm_compute. discriminate.
  - vm_compute. discriminate.
  - rewrite Hplain, Hpercent. split; reflexivity.
Defined.

Lemma quot2_bounds (x : Z) :
  (0 <= x -> 0 <= Z.quot x 2 <= x) /\ (x < 0 -> x <= Z.quot x 2 <= 0).
Proof.
  pose proof (Z.quot_rem' x 2) as E.
  split; intros Hx.
  - pose proof (Z.rem_bound_pos x 2 ltac:(lia) ltac:(lia)). lia.
  - pose proof (Z.rem_bound_pos_neg x 2 ltac:(lia) ltac:(lia)). lia.
Qed.

(** X17: the panel sizes of [CalculateComponentDimensions] are the halves of
    the viewport less 6, raised to 30 columns and 8 rows; the floor is active
    below 66 columns and below 22 rows, and from there on two panels and the
    allowance fit the viewport.  The width of a progress bar is the panel
    width less the label and 10, raised to 10. *)
Theorem panel_dimensions (s : StyleManager.t) (w h : Z) :
  Go.minInt64 + 6 <= w <= Go.maxInt64 ->
  Go.minInt64 + 6 <= h <= Go.maxInt64 ->
  let dims :=
    StyleManager.CalculateComponentDimensions (StyleManager.SetDimensions s w h) in
  dims = (Z.max 30 (Z.quot (w - 6) 2), Z.max 8 (Z.quot (h - 6) 2)) /\
  (w < 66 -> fst dims = 30) /\
  (h < 22 -> snd dims = 8) /\
  (66 <= w -> 2 * fst dims + 6 <= w) /\
  (22 <= h -> 2 * snd dims + 6 <= h) /\
  (forall cw lw : Z,
     10 <= StyleManager.GetProgressBarWidth s cw lw /\
     (Go.minInt64 <= cw - lw <= Go.maxInt64 ->
      Go.minInt64 <= cw - lw - 10 ->
      StyleManager.GetProgressBarWidth s cw lw = Z.max 10 (cw - lw - 10))).
Proof.
  intros Hw Hh dims. subst dims.
  unfold StyleManager.CalculateComponentDimensions, Go.int_sub, Go.int_div. simpl.
  unfold Go.minInt64, Go.maxInt64 in *.
  pose proof (quot2_bounds (w - 6)) as [Hqw1 Hqw2].
  pose proof (quot2_bounds (h - 6)) as [Hqh1 Hqh2].
  rewrite (int_small (w - 6)) by (unfold Go.minInt64, Go.maxInt64; lia).
  rewrite (int_small (h - 6)) by (unfold Go.minInt64, Go.maxInt64; lia).
  rewrite (int_small (Z.quot (w - 6) 2)) by (unfold Go.minInt64, Go.maxInt64; lia).
  rewrite (int_small (Z.quot (h - 6) 2)) by (unfold Go.minInt64, Go.maxInt64; lia).
  pose proof (Z.quot_rem' (w - 6) 2) as Ew.
  pose proof (Z.quot_rem' (h - 6) 2) as Eh.
  assert (Hrw : 0 <= w - 6 -> 0 <= Z.rem (w - 6) 2 < 2)
    by (intros Hp; apply Z.rem_bound_pos; lia).
  assert (Hrh : 0 <= h - 6 -> 0 <= Z.rem (h - 6) 2 < 2)
    by (intros Hp; apply Z.rem_bound_pos; lia).
  destruct (Z.ltb_spec (Z.quot (w - 6) 2) 30);
    destruct (Z.ltb_spec (Z.quot (h - 6) 2) 8); simpl;
    (split; [f_equal; lia|]);
    (split; [lia|]); (split; [lia|]); (split; [lia|]); (split; [lia|]);
    intros cw lw; unfold StyleManager.GetProgressBarWidth, Go.int_sub;
    (split;
     [destruct (Z.ltb_spec (Go.int_ (Go.int_ (cw - lw) - 10)) 10); lia
     |intros Hr1 Hr2;
      rewrite (int_small (cw - lw)) by (unfold Go.minInt64, Go.maxInt64; lia);
      rewrite (int_small (cw - lw - 10)) by (unfold Go.minInt64, Go.maxInt64; lia);
      destruct (Z.ltb_spec (cw - lw - 10) 10); lia]).
Qed.

Lemma panel_dimensions_witness :
  StyleManager.CalculateComponentDimensions
    (StyleManager.SetDimensions StyleManager.NewStyleManager 120 40)
  = (57, 17).
Proof.
  assert (Hw : Go.minInt64 + 6 <= 120 <= Go.maxInt64) by (vm_compute; split; discriminate).
  assert (Hh : Go.minInt64 + 6 <= 40 <= Go.maxInt64) by (vm_compute; split; discriminate).
  destruct (panel_dimensions StyleManager.NewStyleManager 120 40 Hw Hh) as [Hd _].
  rewrite Hd. reflexivity.
Defined.

(** X18: padding a panel never removes a line: the lines are kept in front,
    only empty lines are added, and the result has the greater of the panel
    height and the number of lines. *)
Theorem padSections_pads (sections : list string) (height : Z) :
  exists blanks : list string,
    padSections sections height = sections ++ blanks /\
    Forall (fun line => line = EmptyString) blanks /\
    Z.of_nat (length (padSections sections height))
    = Z.max height (Z.of_nat (length sections)).
Proof.
  unfold padSections.
  exists (replicate (Z.to_nat (height - Z.of_nat (length sections))) EmptyString).
  split; [reflexivity|]. split.
  - apply Forall_replicate. reflexivity.
  - rewrite length_app, length_replicate. lia.
Qed.

(** X19: [HasCriticalUsage] holds exactly when some filesystem is at 90
    percent or above, and the critical filesystems are the filesystems at 90
    percent or above, in their order. *)
Theorem HasCriticalUsage_spec (m : DiskModel.t) :
  (DiskModel.HasCriticalUsage m = true <->
   exists fs, fs ∈ DiskModel.filesystems m /\
              PrimFloat.leb 90%float (DiskInfo.UsedPercent fs) = true) /\
  (forall fs, fs ∈ DiskModel.GetCriticalFilesystems m <->
              fs ∈ DiskModel.filesystems m /\
              PrimFloat.leb 90%float (DiskInfo.UsedPercent fs) = true) /\
  DiskModel.GetCriticalFilesystems m `sublist_of` DiskModel.filesystems m.
Proof.
  assert (Hmem : forall fs, fs ∈ DiskModel.GetCriticalFilesystems m <->
                   fs ∈ DiskModel.filesystems m /\
                   PrimFloat.leb 90%float (DiskInfo.UsedPercent fs) = true).
  { intros fs. unfold DiskModel.GetCriticalFilesystems, DiskModel.GetHighUsageFilesystems.
    rewrite list_elem_of_filter. tauto. }
  split; [|split; [exact Hmem|]].
  - unfold DiskModel.HasCriticalUsage. rewrite Z.ltb_lt. split.
    + intros Hlen. destruct (DiskModel.GetCriticalFilesystems m) as [|fs l] eqn:E.
      * simpl in Hlen. lia.
      * exists fs. apply Hmem. apply elem_of_cons. left. reflexivity.
    + intros (fs & Hin & Hpct).
      assert (Hc : fs ∈ DiskModel.GetCriticalFilesystems m) by (apply Hmem; tauto).
      destruct (DiskModel.GetCriticalFilesystems m); [inversion Hc|simpl; lia].
  - unfold DiskModel.GetCriticalFilesystems, DiskModel.GetHighUsageFilesystems.
    apply sublist_filter.
Qed.

(** * Properties of the collector *)

Section CollectorFacts.

Variable ToLower : string -> string.

Lemma CollectNetwork_loop (now : Go.Time) (stats : list Gopsutil.IOCountersStat.t) :
  forall acc,
    foldl
      (fun infos stat =>
         if Collector.isLoopback (Gopsutil.IOCountersStat.Name stat) then infos
         else
           infos ++
             [NetworkInfo.mk (Gopsutil.IOCountersStat.Name stat)
                (Gopsutil.IOCountersStat.BytesSent stat)
                (Gopsutil.IOCountersStat.BytesRecv stat)
                (Gopsutil.IOCountersStat.PacketsSent stat)
                (Gopsutil.IOCountersStat.PacketsRecv stat)
                now])
      acc stats
    = acc ++ (toNetworkInfo now <$> keptStats stats).
Proof.
  induction stats as [|stat stats IH]; intros acc; simpl.
  - rewrite app_nil_r. reflexivity.
  - rewrite IH. unfold keptStats. rewrite filter_cons.
    destruct (Collector.isLoopback (Gopsutil.IOCountersStat.Name stat)) eqn:E.
    + destruct (decide (true = false)); [discriminate|reflexivity].
    + destruct (decide (false = false)); [|congruence].
      rewrite fmap_cons, <- app_assoc. reflexivity.
Qed.

Lemma CollectNetwork_ok (now : Go.Time) (stats : list Gopsutil.IOCountersStat.t) :
  keptStats stats <> [] ->
  Collector.CollectNetwork ToLower now (stats, None)
  = (toNetworkInfo now <$> keptStats stats, None).
Proof.
  intros Hne. unfold Collector.CollectNetwork. simpl.
  rewrite CollectNetwork_loop. simpl.
  destruct (keptStats stats) as [|x l]; [congruence|reflexivity].
Qed.

Lemma CollectNetwork_none (now : Go.Time) (stats : list Gopsutil.IOCountersStat.t) :
  keptStats stats = [] ->
  Collector.CollectNetwork ToLower now (stats, None)
  = ([], Some (SystemErr (SystemError.mk SystemAccessError
                            "No accessible network interfaces found" "Network"
                            now None))).
Proof.
  intros He. unfold Collector.CollectNetwork. simpl.
  rewrite CollectNetwork_loop, He. reflexivity.
Qed.

(** X20: when the library call succeeds, [CollectNetwork] succeeds exactly
    when some interface is not a loopback interface.  A successful result is
    not empty, holds the non-loopback interfaces in the order of the library
    with their counters, never a loopback interface, all with the one
    timestamp of the call, and names an interface once if the library does. *)
Theorem CollectNetwork_result (now : Go.Time) (stats : list Gopsutil.IOCountersStat.t) :
  let r := Collector.CollectNetwork ToLower now (stats, None) in
  (snd r = None <->
   exists stat, stat ∈ stats /\
                Collector.isLoopback (Gopsutil.IOCountersStat.Name stat) = false) /\
  (snd r = None ->
   fst r <> [] /\
   (forall info,
      info ∈ fst r <->
      exists stat, stat ∈ stats /\
                   Collector.isLoopback (Gopsutil.IOCountersStat.Name stat) = false /\
                   info = toNetworkInfo now stat) /\
   Forall (fun info => NetworkInfo.Timestamp info = now /\
                       Collector.isLoopback (NetworkInfo.Interface info) = false)
          (fst r) /\
   (NetworkInfo.Interface <$> fst r) `sublist_of` (Gopsutil.IOCountersStat.Name <$> stats) /\
   (NoDup (Gopsutil.IOCountersStat.Name <$> stats) ->
    NoDup (NetworkInfo.Interface <$> fst r))) /\
  (snd r <> None ->
   fst r = [] /\
   snd r = Some (SystemErr (SystemError.mk SystemAccessError
                              "No accessible network interfaces found" "Network"
                              now None))).
Proof.
  intros r. subst r.
  assert (Hkept : forall stat, stat ∈ keptStats stats <->
            stat ∈ stats /\
            Collector.isLoopback (Gopsutil.IOCountersStat.Name stat) = false).
  { intros stat. unfold keptStats. rewrite list_elem_of_filter. tauto. }
  assert (Hnames : (NetworkInfo.Interface <$> (toNetworkInfo now <$> keptStats stats))
                   = (Gopsutil.IOCountersStat.Name <$> keptStats stats)).
  { rewrite <- list_fmap_compose. reflexivity. }
  destruct (keptStats stats) as [|x l] eqn:Ek.
  - rewrite (CollectNetwork_none now stats Ek). simpl.
    split; [|split].
    + split; [discriminate|]. intros (stat & Hin & Hlo).
      assert (Hx : stat ∈ ([] : list Gopsutil.IOCountersStat.t)) by (apply Hkept; tauto).
      inversion Hx.
    + discriminate.
    + intros _. split; reflexivity.
  - rewrite (CollectNetwork_ok now stats) by (rewrite Ek; discriminate).
    rewrite Ek. cbn [fst snd].
    split; [|split].
    + split; [|reflexivity]. intros _. exists x.
      apply Hkept. apply elem_of_cons. left. reflexivity.
    + intros _. split; [discriminate|]. split; [|split; [|split]].
      * intros info. rewrite list_elem_of_fmap. split.
        -- intros (stat & -> & Hin). exists stat. apply Hkept in Hin. tauto.
        -- intros (stat & Hin & Hlo & ->). exists stat. split; [reflexivity|].
           apply Hkept. tauto.
      * apply Forall_forall. intros info Hin.
        apply list_elem_of_fmap in Hin as (stat & -> & Hin).
        apply Hkept in Hin. split; [reflexivity|]. simpl. tauto.
      * rewrite Hnames, <- Ek. unfold keptStats.
        apply fmap_sublist, sublist_filter.
      * intros Hnd. rewrite Hnames, <- Ek. unfold keptStats.
        eapply sublist_NoDup; [exact Hnd|].
        apply fmap_sublist, sublist_filter.
    + intros Hcontra. congruence.
Qed.

End CollectorFacts.

Section CollectorRounds.

Variable ToLower : string -> string.

(** X21: two successful collections of the network counters give a rate for
    every non-loopback interface that both report once: the difference of
    its counters over the seconds between the two calls, or 0 for a counter
    that decreased. *)
Theorem collected_snapshots_give_rates (t1 t2 : Go.Time)
    (stats1 stats2 : list Gopsutil.IOCountersStat.t)
    (s1 s2 : Gopsutil.IOCountersStat.t) :
  NoDup (Gopsutil.IOCountersStat.Name <$> stats1) ->
  NoDup (Gopsutil.IOCountersStat.Name <$> stats2) ->
  s1 ∈ stats1 -> s2 ∈ stats2 ->
  Gopsutil.IOCountersStat.Name s2 = Gopsutil.IOCountersStat.Name s1 ->
  Collector.isLoopback (Gopsutil.IOCountersStat.Name s1) = false ->
  Go.is_uint64 (Gopsutil.IOCountersStat.BytesSent s1) ->
  Go.is_uint64 (Gopsutil.IOCountersStat.BytesSent s2) ->
  Go.is_uint64 (Gopsutil.IOCountersStat.BytesRecv s1) ->
  Go.is_uint64 (Gopsutil.IOCountersStat.BytesRecv s2) ->
  let dt := Go.Seconds (Go.Sub t2 t1) in
  PrimFloat.ltb 0%float dt = true ->
  let previous := fst (Collector.CollectNetwork ToLower t1 (stats1, None)) in
  let current := fst (Collector.CollectNetwork ToLower t2 (stats2, None)) in
  GopsutilCollector.CalculateNetworkRates previous current
    !! Gopsutil.IOCountersStat.Name s1
  = Some (NetworkStats.mk
            (if Gopsutil.IOCountersStat.BytesSent s1
                <=? Gopsutil.IOCountersStat.BytesSent s2
             then PrimFloat.div
                    (Go.float64 (Gopsutil.IOCountersStat.BytesSent s2
                                 - Gopsutil.IOCountersStat.BytesSent s1)) dt
             else 0%float)
            (if Gopsutil.IOCountersStat.BytesRecv s1
                <=? Gopsutil.IOCountersStat.BytesRecv s2
             then PrimFloat.div
                    (Go.float64 (Gopsutil.IOCountersStat.BytesRecv s2
                                 - Gopsutil.IOCountersStat.BytesRecv s1)) dt
             else 0%float)).
Proof.
  intros Hnd1 Hnd2 Hin1 Hin2 Hname Hlo Hs1 Hs2 Hr1 Hr2 dt Hdt previous current.
  assert (Hk1 : s1 ∈ keptStats stats1).
  { unfold keptStats. apply list_elem_of_filter. split; assumption. }
  assert (Hk2 : s2 ∈ keptStats stats2).
  { unfold keptStats. apply list_elem_of_filter. split; [congruence|assumption]. }
  assert (Hp : previous = toNetworkInfo t1 <$> keptStats stats1).
  { subst previous. rewrite (CollectNetwork_ok ToLower t1 stats1); [reflexivity|].
    intros He. rewrite He in Hk1. inversion Hk1. }
  assert (Hc : current = toNetworkInfo t2 <$> keptStats stats2).
  { subst current. rewrite (CollectNetwork_ok ToLower t2 stats2); [reflexivity|].
    intros He. rewrite He in Hk2. inversion Hk2. }
  assert (Hnames : forall t stats,
            NetworkInfo.Interface <$> (toNetworkInfo t <$> keptStats stats)
            = Gopsutil.IOCountersStat.Name <$> keptStats stats).
  { intros t stats. rewrite <- list_fmap_compose. reflexivity. }
  assert (Hsub : forall stats,
            (Gopsutil.IOCountersStat.Name <$> keptStats stats)
              `sublist_of` (Gopsutil.IOCountersStat.Name <$> stats)).
  { intros stats. unfold keptStats. apply fmap_sublist, sublist_filter. }
  rewrite CalculateNetworkRates_unfold, Hp, Hc.
  pose proof (rates_lookup
                (prevMapOf (toNetworkInfo t1 <$> keptStats stats1))
                (toNetworkInfo t2 <$> keptStats stats2)
                (toNetworkInfo t2 s2) (toNetworkInfo t1 s1)) as Hrate.
  simpl in Hrate. rewrite Hname in Hrate. rewrite Hrate.
  - unfold statsOf, timeDiffOf. simpl. fold dt. f_equal. f_equal.
    + destruct (Z.leb_spec (Gopsutil.IOCountersStat.BytesSent s1)
                           (Gopsutil.IOCountersStat.BytesSent s2)); [|reflexivity].
      rewrite uint64_sub_no_wrap by assumption. reflexivity.
    + destruct (Z.leb_spec (Gopsutil.IOCountersStat.BytesRecv s1)
                           (Gopsutil.IOCountersStat.BytesRecv s2)); [|reflexivity].
      rewrite uint64_sub_no_wrap by assumption. reflexivity.
  - apply (prevMapOf_lookup _ (toNetworkInfo t1 s1)).
    + rewrite Hnames. eapply sublist_NoDup; [exact Hnd1|apply Hsub].
    + apply list_elem_of_fmap_2. exact Hk1.
  - exact Hdt.
  - rewrite Hnames. eapply sublist_NoDup; [exact Hnd2|apply Hsub].
  - apply list_elem_of_fmap_2. exact Hk2.
Qed.

End CollectorRounds.

Lemma collected_snapshots_give_rates_witness :
  let lo := Gopsutil.IOCountersStat.mk "lo" 5 5 1 1 in
  let before := Gopsutil.IOCountersStat.mk "eth0" 1000000 2000000 10 20 in
  let after := Gopsutil.IOCountersStat.mk "eth0" 1001024 1999000 12 24 in
  GopsutilCollector.CalculateNetworkRates
    (fst (Collector.CollectNetwork (fun s => s) 0 ([lo; before], None)))
    (fst (Collector.CollectNetwork (fun s => s) 2000000000 ([lo; after], None)))
    !! "eth0"%string
  = Some (NetworkStats.mk 512%float 0%float).
Proof.
  intros lo before after.
  etransitivity;
    [apply (collected_snapshots_give_rates (fun s => s) 0 2000000000
              [lo; before] [lo; after] before after)
    |vm_compute; reflexivity].
  - apply (bool_decide_unpack _). reflexivity.
  - apply (bool_decide_unpack _). reflexivity.
  - apply elem_of_cons. right. apply elem_of_cons. left. reflexivity.
  - apply elem_of_cons. right. apply elem_of_cons. left. reflexivity.
  - reflexivity.
  - reflexivity.
  - unfold Go.is_uint64. simpl. lia.
  - unfold Go.is_uint64. simpl. lia.
  - unfold Go.is_uint64. simpl. lia.
  - unfold Go.is_uint64. simpl. lia.
  - vm_compute. reflexivity.
Defined.

Section CollectorOperations.

Variable ToLower : string -> string.

Lemma diskStep_one
    (entry : Gopsutil.PartitionStat.t * (option Gopsutil.UsageStat.t * option string))
    (acc : list DiskInfo.t) (lastError : option string) :
  (snd (snd entry) = None -> is_Some (fst (snd entry))) ->
  exists lastError',
    Collector.diskStep (Some (acc, lastError)) entry
    = Some (acc ++ match readable entry with Some info => [info] | None => [] end,
            lastError').
Proof.
  intros Hentry. unfold Collector.diskStep, readable. simpl.
  destruct (Collector.isSpecialFstype (Gopsutil.PartitionStat.Fstype (fst entry))).
  - exists lastError. rewrite app_nil_r. reflexivity.
  - destruct (snd (snd entry)) as [err|].
    + exists (Some err). rewrite app_nil_r. reflexivity.
    + destruct (Hentry eq_refl) as [usage ->]. simpl.
      exists lastError. reflexivity.
Qed.

Lemma diskStep_loop
    (entries :
       list (Gopsutil.PartitionStat.t * (option Gopsutil.UsageStat.t * option string))) :
  usageContract entries ->
  forall acc lastError,
  exists lastError',
    foldl Collector.diskStep (Some (acc, lastError)) entries
    = Some (acc ++ omap readable entries, lastError').
Proof.
  induction 1 as [|entry entries Hentry _ IH]; intros acc lastError.
  - exists lastError. simpl. rewrite app_nil_r. reflexivity.
  - destruct (diskStep_one entry acc lastError Hentry) as [le1 Hone].
    cbn [foldl]. rewrite Hone.
    destruct (IH (acc ++ match readable entry with Some info => [info] | None => [] end)
                 le1) as [le Hle].
    exists le. rewrite Hle. f_equal. f_equal.
    rewrite <- app_assoc. f_equal.
    cbn [omap list_omap]. destruct (readable entry); reflexivity.
Qed.

(** X22: [CollectDisk] tolerates partial failure.  When the partition list
    is available and the library keeps its contract, the operation does not
    panic; it succeeds exactly when at least one real filesystem could be
    read, and then returns the readable real filesystems in the order of the
    partition list, never one of the special kinds; otherwise it returns no
    data and an error that names the disk component. *)
Theorem CollectDisk_partial_failure (now : Go.Time)
    (entries :
       list (Gopsutil.PartitionStat.t * (option Gopsutil.UsageStat.t * option string))) :
  usageContract entries ->
  let infos := omap readable entries in
  (infos <> [] ->
   Collector.CollectDisk ToLower now (entries, None) = Some (infos, None)) /\
  (infos = [] ->
   exists e : SystemError.t,
     Collector.CollectDisk ToLower now (entries, None) = Some ([], Some (SystemErr e)) /\
     SystemError.Component e = "Disk"%string /\
     SystemError.Timestamp e = now) /\
  Forall (fun info => Collector.isSpecialFstype (DiskInfo.Filesystem info) = false) infos.
Proof.
  intros Hcontract infos.
  destruct (diskStep_loop entries Hcontract [] None) as [le Hloop].
  simpl in Hloop. fold infos in Hloop.
  split; [|split].
  - intros Hne. unfold Collector.CollectDisk. simpl. rewrite Hloop. simpl.
    destruct infos as [|x l]; [congruence|reflexivity].
  - intros He. unfold Collector.CollectDisk. simpl. rewrite Hloop, He. simpl.
    destruct le as [lastError|].
    + destruct (Collector.isPermissionError ToLower lastError);
        [eexists; repeat split; reflexivity|].
      destruct (Collector.isTemporaryError ToLower lastError);
        eexists; repeat split; reflexivity.
    + eexists. repeat split; reflexivity.
  - apply Forall_forall. intros info Hin. subst infos.
    apply list_elem_of_omap in Hin as (entry & _ & Hread).
    unfold readable in Hread.
    destruct (Collector.isSpecialFstype (Gopsutil.PartitionStat.Fstype (fst entry)))
      eqn:Es; [discriminate|].
    destruct (snd (snd entry)); [discriminate|].
    destruct (fst (snd entry)) as [usage|]; [|discriminate].
    simpl in Hread. injection Hread as <-. exact Es.
Qed.

(** X23: [CollectCPU] succeeds exactly when the per-core call succeeded and
    either the total call succeeded or there is at least one core.  On
    success the number of cores is the number of usage values, which are
    those of the per-core call, and when only the total call failed the total
    is the mean of the per-core values; on failure the data are the zero value
    and the error names the CPU component. *)
Theorem CollectCPU_result (now : Go.Time) (perCore total : list float * option string) :
  let r := Collector.CollectCPU ToLower now perCore total in
  (snd r = None <->
   snd perCore = None /\ (snd total = None \/ fst perCore <> [])) /\
  (snd r = None ->
   CPUInfo.Cores (fst r) = Z.of_nat (length (CPUInfo.Usage (fst r))) /\
   CPUInfo.Usage (fst r) = fst perCore /\
   CPUInfo.Timestamp (fst r) = now /\
   (snd total <> None ->
    CPUInfo.Total (fst r)
    = PrimFloat.div (foldl PrimFloat.add 0%float (fst perCore))
                    (Go.float64 (Z.of_nat (length (fst perCore)))))) /\
  (snd r <> None ->
   fst r = Collector.noCPUInfo /\
   exists e : SystemError.t,
     snd r = Some (SystemErr e) /\ SystemError.Component e = "CPU"%string).
Proof.
  intros r. subst r. unfold Collector.CollectCPU.
  destruct perCore as [usage [err1|]]; destruct total as [tot [err2|]]; simpl.
  - destruct (Collector.isPermissionError ToLower err1);
      [|destruct (Collector.isTemporaryError ToLower err1)]; simpl;
      (split; [split; [discriminate|intros [? _]; discriminate]|]);
      (split; [discriminate|]); intros _; (split; [reflexivity|]);
      eexists; split; reflexivity.
  - destruct (Collector.isPermissionError ToLower err1);
      [|destruct (Collector.isTemporaryError ToLower err1)]; simpl;
      (split; [split; [discriminate|intros [? _]; discriminate]|]);
      (split; [discriminate|]); intros _; (split; [reflexivity|]);
      eexists; split; reflexivity.
  - destruct usage as [|u usage].
    + simpl. destruct (Collector.isPermissionError ToLower err2); simpl;
        (split; [split; [discriminate|intros [_ [?|?]]; congruence]|]);
        (split; [discriminate|]); intros _; (split; [reflexivity|]);
        eexists; split; reflexivity.
    + change (0 <? Z.of_nat (length (u :: usage))) with true. cbv iota. simpl fst.
      simpl snd.
      split; [split; [intros _; split; [reflexivity|right; discriminate]|reflexivity]|].
      split; [|intros Hc; congruence].
      intros _. repeat split; reflexivity.
  - split; [split; [intros _; split; [reflexivity|left; reflexivity]|reflexivity]|].
    split; [|intros Hc; congruence].
    intros _. repeat split; try reflexivity. intros Hc. congruence.
Qed.

(** X24: [CollectMemory] tolerates a failing swap call.  When the library
    keeps its contract the operation does not panic; it succeeds exactly when
    the virtual memory call succeeded, with the figures of that call, and
    reports an all-zero swap when the swap call failed. *)
Theorem CollectMemory_result (now : Go.Time)
    (vm : option Gopsutil.VirtualMemoryStat.t * option string)
    (swap : option Gopsutil.SwapMemoryStat.t * option string) :
  (snd vm = None -> is_Some (fst vm)) ->
  (snd swap = None -> is_Some (fst swap)) ->
  exists r : MemoryInfo.t * option GoError,
    Collector.CollectMemory ToLower now vm swap = Some r /\
    (snd r = None <-> snd vm = None) /\
    (snd r = None ->
     exists vmStat, fst vm = Some vmStat /\
       MemoryInfo.Total (fst r) = Gopsutil.VirtualMemoryStat.Total vmStat /\
       MemoryInfo.Used (fst r) = Gopsutil.VirtualMemoryStat.Used vmStat /\
       MemoryInfo.Available (fst r) = Gopsutil.VirtualMemoryStat.Available vmStat /\
       MemoryInfo.Timestamp (fst r) = now /\
       (snd swap <> None -> MemoryInfo.Swap (fst r) = SwapInfo.mk 0 0 0)) /\
    (snd r <> None ->
     exists e : SystemError.t,
       snd r = Some (SystemErr e) /\ SystemError.Component e = "Memory"%string).
Proof.
  intros Hvm Hswap. unfold Collector.CollectMemory.
  destruct vm as [vmPtr [err1|]]; simpl in *.
  - destruct (Collector.isPermissionError ToLower err1);
      [|destruct (Collector.isTemporaryError ToLower err1)];
      eexists; (split; [reflexivity|]); simpl;
      (split; [split; discriminate|]); (split; [discriminate|]);
      intros _; eexists; split; reflexivity.
  - destruct (Hvm eq_refl) as [vmStat ->].
    destruct swap as [swapPtr [err2|]]; simpl in *.
    + eexists. split; [reflexivity|]. simpl.
      split; [split; reflexivity|]. split; [|intros Hc; congruence].
      intros _. exists vmStat. repeat split; reflexivity.
    + destruct (Hswap eq_refl) as [swapStat ->]. simpl.
      eexists. split; [reflexivity|]. simpl.
      split; [split; reflexivity|]. split; [|intros Hc; congruence].
      intros _. exists vmStat. repeat split; try reflexivity. intros Hc. congruence.
Qed.

End CollectorOperations.

Lemma CollectDisk_partial_failure_witness :
  let root := Gopsutil.PartitionStat.mk "/dev/sda1" "/" "ext4" in
  let proc := Gopsutil.PartitionStat.mk "proc" "/proc" "proc" in
  let usb := Gopsutil.PartitionStat.mk "/dev/sdb1" "/mnt/usb" "vfat" in
  let usage := Gopsutil.UsageStat.mk 1000 250 750 75%float in
  Collector.CollectDisk (fun s => s) 4
    ([(proc, (Some usage, None)); (usb, (None, Some "input/output error"));
      (root, (Some usage, None))], None)
  = Some ([DiskInfo.mk "/dev/sda1" "/" "ext4" 1000 750 250 75%float], None).
Proof.
  intros root proc usb usage.
  apply (CollectDisk_partial_failure (fun s => s) 4).
  - repeat constructor; simpl; try discriminate; intros _; eexists; reflexivity.
  - discriminate.
Defined.

Lemma CollectMemory_result_witness :
  exists r : MemoryInfo.t * option GoError,
    Collector.CollectMemory (fun s => s) 4
      (Some (Gopsutil.VirtualMemoryStat.mk 8000 3000 5000), None)
      (None, Some "swap is off")
    = Some r /\ snd r = None.
Proof.
  destruct (CollectMemory_result (fun s => s) 4
              (Some (Gopsutil.VirtualMemoryStat.mk 8000 3000 5000), None)
              (None, Some "swap is off"))
    as (r & Hr & Hok & _).
  - intros _. eexists. reflexivity.
  - discriminate.
  - exists r. split; [exact Hr|]. apply Hok. reflexivity.
Defined.

(** Without the contract: a usage call that returns neither a value nor an
    error makes [CollectDisk] dereference nil. *)
Example CollectDisk_nil_usage :
  Collector.CollectDisk (fun s => s) 4
    ([(Gopsutil.PartitionStat.mk "/dev/sda1" "/" "ext4", (None, None))], None)
  = None.
Proof. reflexivity. Qed.

(** * Error events *)

(** X25: the message of every handler of [ErrorHandler], built for the
    component name of a resource, is routed by the main reducer to the panel
    of that resource, which then shows the text of the error; the other
    panels keep their error state.  Only the data and the temporary handler
    build a recoverable error. *)
Theorem handler_errors_reach_their_panel (now t : Go.Time) (m : MainModel.t)
    (r : Resource) (err : string) :
  Forall (fun handle =>
            let msg := handle t (componentName r) err in
            let m' := fst (MainModel.Update now m msg) in
            resourceOf msg = Some r /\
            panelError m' r = (true, err) /\
            (forall r', r' <> r -> panelError m' r' = panelError m r'))
         handlers /\
  (fun handle => recoverable (handle t (componentName r) err)) <$> handlers
  = [false; true; false; true; false].
Proof.
  split; [|reflexivity].
  unfold handlers.
  repeat apply List.Forall_cons; try apply List.Forall_nil;
    cbv zeta;
    (destruct r; (split; [reflexivity|]); (split; [reflexivity|]);
     intros r' Hne; destruct r'; try congruence; reflexivity).
Qed.

Lemma ErrorMsg_overwrites (t1 t2 : Go.Time) (m : MainModel.t) (e1 e2 : SystemError.t)
    (r : Resource) :
  resourceOf (ErrorMsg e1) = Some r ->
  resourceOf (ErrorMsg e2) = Some r ->
  fst (MainModel.Update t2 (fst (MainModel.Update t1 m (ErrorMsg e1))) (ErrorMsg e2))
  = fst (MainModel.Update t2 m (ErrorMsg e2)).
Proof.
  intros H1 H2.
  rewrite (Update_routed t1 m _ r H1), (Update_routed t2 _ _ r H2),
    (Update_routed t2 m _ r H2).
  simpl in H1, H2.
  destruct r.
  - destruct (String.eqb (SystemError.Component e1) "CPU") eqn:E1;
      destruct (String.eqb (SystemError.Component e2) "CPU") eqn:E2;
      simpl; rewrite ?E1, ?E2; simpl; try reflexivity;
      repeat match goal with
             | H : context [if ?b then _ else _] |- _ => destruct b
             end; discriminate.
  - destruct (String.eqb (SystemError.Component e1) "Memory") eqn:E1;
      destruct (String.eqb (SystemError.Component e2) "Memory") eqn:E2;
      simpl; rewrite ?E1, ?E2; simpl; try reflexivity;
      repeat match goal with
             | H : context [if ?b then _ else _] |- _ => destruct b
             end; discriminate.
  - destruct (String.eqb (SystemError.Component e1) "Disk") eqn:E1;
      destruct (String.eqb (SystemError.Component e2) "Disk") eqn:E2;
      simpl; rewrite ?E1, ?E2; simpl; try reflexivity;
      repeat match goal with
             | H : context [if ?b then _ else _] |- _ => destruct b
             end; discriminate.
  - destruct (String.eqb (SystemError.Component e1) "Network") eqn:E1;
      destruct (String.eqb (SystemError.Component e2) "Network") eqn:E2;
      simpl; rewrite ?E1, ?E2; simpl; try reflexivity;
      repeat match goal with
             | H : context [if ?b then _ else _] |- _ => destruct b
             end; discriminate.
Qed.

(** X26: the most recent event wins.  Of two error events for the same
    resource only the second one counts (errors do not accumulate), and of
    two memory samples, or two disk samples, only the second one counts. *)
Theorem latest_event_wins (t1 t2 : Go.Time) (m : MainModel.t) :
  (forall (e1 e2 : SystemError.t) (r : Resource),
     resourceOf (ErrorMsg e1) = Some r ->
     resourceOf (ErrorMsg e2) = Some r ->
     fst (MainModel.Update t2 (fst (MainModel.Update t1 m (ErrorMsg e1))) (ErrorMsg e2))
     = fst (MainModel.Update t2 m (ErrorMsg e2))) /\
  (forall a b : MemoryInfo.t,
     fst (MainModel.Update t2 (fst (MainModel.Update t1 m (MemoryUpdateMsg a)))
                           (MemoryUpdateMsg b))
     = fst (MainModel.Update t2 m (MemoryUpdateMsg b))) /\
  (forall a b : list DiskInfo.t,
     fst (MainModel.Update t2 (fst (MainModel.Update t1 m (DiskUpdateMsg a)))
                           (DiskUpdateMsg b))
     = fst (MainModel.Update t2 m (DiskUpdateMsg b))).
Proof.
  split; [|split].
  - intros e1 e2 r. apply ErrorMsg_overwrites.
  - intros a b. reflexivity.
  - intros a b. reflexivity.
Qed.
